(** * Reddit messenger: session automation, delivery flow and batch loop

    A shallow embedding of [redditUtils.js], [index.js] and the batch script
    ([processOptimizedBatch]).  The browser, the solving service, the file
    system and the clock form an environment of which the code only sees the
    replies; every theorem below holds for every such environment.

    Conventions of the model:
    - a JavaScript string is a sequence of code units below 256 ([string]);
    - one run drives one browser and one page, so the [browser] and [page]
      handles are implicit in the environment;
    - [log] only writes to the console and is left out;
    - an in-page script that only reads the page is a function of the
      [Document] it runs on; the outcome of a script that clicks or types is
      given by the environment. *)

From Stdlib Require Import String Ascii ZArith QArith Permutation.
From stdpp Require Import gmap strings list fin_maps.

Local Open Scope Z_scope.
Local Open Scope stdpp_scope.

(** ** JavaScript strings *)

Module Js.

(** The double quote character, and a quoted attribute value as it occurs in
    the selectors of the source. *)
Definition dquote : string := String (ascii_of_nat 34) EmptyString.
Definition quoted (s : string) : string := dquote +:+ s +:+ dquote.

Definition is_empty (s : string) : bool :=
  match s with EmptyString => true | String _ _ => false end.

(** [s.startsWith(p)] *)
Definition startsWith (s p : string) : bool := String.prefix p s.

(** [s.includes(sub)] *)
Fixpoint includes (s sub : string) : bool :=
  String.prefix sub s ||
  match s with
  | EmptyString => false
  | String _ rest => includes rest sub
  end.

(** [s.split(sep)] for a one-character separator. *)
Fixpoint split (sep : ascii) (s : string) : list string :=
  match s with
  | EmptyString => [EmptyString]
  | String c rest =>
      if Ascii.eqb c sep then EmptyString :: split sep rest
      else match split sep rest with
           | l :: ls => String c l :: ls
           | [] => [String c EmptyString]
           end
  end.

(** ECMAScript WhiteSpace and LineTerminator code units below 256:
    TAB, LF, VT, FF, CR, SP and NBSP. *)
Definition is_whitespace (c : ascii) : bool :=
  match nat_of_ascii c with
  | 9 | 10 | 11 | 12 | 13 | 32 | 160 => true
  | _ => false
  end%nat.

Fixpoint trimStart (s : string) : string :=
  match s with
  | EmptyString => EmptyString
  | String c rest => if is_whitespace c then trimStart rest else s
  end.

Fixpoint trimEnd (s : string) : string :=
  match s with
  | EmptyString => EmptyString
  | String c rest =>
      match trimEnd rest with
      | EmptyString => if is_whitespace c then EmptyString else String c EmptyString
      | t => String c t
      end
  end.

(** [s.trim()] *)
Definition trim (s : string) : string := trimEnd (trimStart s).

(** [s.toLowerCase()] on code units below 256: A-Z and the Latin-1 capitals
    (all of 192..222 but the multiplication sign 215) move up by 32. *)
Definition lower_char (c : ascii) : ascii :=
  let n := nat_of_ascii c in
  if ((65 <=? n) && (n <=? 90))%nat then ascii_of_nat (n + 32)
  else if ((192 <=? n) && (n <=? 222) && negb (n =? 215))%nat then ascii_of_nat (n + 32)
  else c.

Fixpoint toLowerCase (s : string) : string :=
  match s with
  | EmptyString => EmptyString
  | String c rest => String (lower_char c) (toLowerCase rest)
  end.

(** [s.replace(/[:.]/g, '-')] *)
Fixpoint replace_colon_dot (s : string) : string :=
  match s with
  | EmptyString => EmptyString
  | String c rest =>
      String (if Ascii.eqb c ":" || Ascii.eqb c "." then "-"%char else c)
             (replace_colon_dot rest)
  end.

(** [segments.join(sep)] *)
Fixpoint join_segments (sep : string) (segments : list string) : string :=
  match segments with
  | [] => EmptyString
  | [segment] => segment
  | segment :: more => segment +:+ sep +:+ join_segments sep more
  end.

(** [s.charCodeAt(s.length - 1) === c] *)
Fixpoint last_is (c : ascii) (s : string) : bool :=
  match s with
  | EmptyString => false
  | String a EmptyString => Ascii.eqb a c
  | String _ rest => last_is c rest
  end.

(** [normalizeString] of node's [path] module, on the segments between the
    separators: an empty segment and [.] are dropped; [..] removes the
    segment kept last, unless nothing is kept or that segment is a [..]
    itself -- then it is kept when [allowAboveRoot].  [kept] holds the
    segments kept so far, the last one first. *)
Fixpoint normalizeString (allowAboveRoot : bool) (kept segments : list string)
  : list string :=
  match segments with
  | [] => kept
  | segment :: more =>
      if is_empty segment || String.eqb segment "." then
        normalizeString allowAboveRoot kept more
      else if String.eqb segment ".." then
        match kept with
        | top :: below =>
            if String.eqb top ".." then
              normalizeString allowAboveRoot
                (if allowAboveRoot then ".." :: kept else kept) more
            else normalizeString allowAboveRoot below more
        | [] =>
            normalizeString allowAboveRoot
              (if allowAboveRoot then [".."] else []) more
        end
      else normalizeString allowAboveRoot (segment :: kept) more
  end.

(** [path.normalize(path)], POSIX *)
Definition normalize (path : string) : string :=
  if is_empty path then "."
  else
    let isAbsolute := startsWith path "/" in
    let trailingSeparator := last_is "/" path in
    let normalized :=
      join_segments "/" (rev (normalizeString (negb isAbsolute) [] (split "/" path))) in
    if is_empty normalized then
      if isAbsolute then "/" else if trailingSeparator then "./" else "."
    else
      let normalized := if trailingSeparator then normalized +:+ "/" else normalized in
      if isAbsolute then "/" +:+ normalized else normalized.

(** [path.join(first, second)], POSIX: the arguments that are not empty,
    joined by the separator and normalized. *)
Definition path_join (first second : string) : string :=
  if is_empty first then (if is_empty second then "." else normalize second)
  else if is_empty second then normalize first
  else normalize (first +:+ "/" +:+ second).

End Js.

(** ** JavaScript values held by option objects *)

Inductive JsVal :=
| JUndefined
| JNull
| JBool (b : bool)
| JNum (n : Z)
| JNaN
| JStr (s : string)
| JArr (items : list string).

(** Truthiness, as tested by [if (v)], [v ? a : b], [!!v] and [v || w]. *)
Definition truthy (v : JsVal) : bool :=
  match v with
  | JUndefined | JNull | JNaN => false
  | JBool b => b
  | JNum n => negb (n =? 0)
  | JStr s => negb (Js.is_empty s)
  | JArr _ => true
  end.

(** [v || w] *)
Definition js_or (v w : JsVal) : JsVal := if truthy v then v else w.

(** [v !== false] *)
Definition not_false (v : JsVal) : bool :=
  match v with JBool false => false | _ => true end.

(** [o.k]: a missing property reads as [undefined]. *)
Definition prop (o : gmap string JsVal) (k : string) : JsVal :=
  default JUndefined (o !! k).

(** [{ ...a, ...b }]: the properties of [b] override those of [a]. *)
Definition spread (a b : gmap string JsVal) : gmap string JsVal := b ∪ a.

(** ** The page as seen by an in-page script *)

(** What the scripts read of an element. *)
Record Element := {
  href : string;
  src : string;
  textContent : string;
  rect_width : Q;        (* getBoundingClientRect().width *)
  rect_height : Q;       (* getBoundingClientRect().height *)
  style_display : string;     (* getComputedStyle(e).display *)
  style_visibility : string   (* getComputedStyle(e).visibility *)
}.

(** What the scripts read of the document. *)
Record Document := {
  body_textContent : string;                    (* document.body.textContent *)
  location_href : string;                       (* window.location.href *)
  querySelector : string -> option Element;     (* first match, or null *)
  querySelectorAll : string -> list Element     (* all matches, in document order *)
}.

Definition present (d : Document) (selector : string) : bool :=
  bool_decide (is_Some (querySelector d selector)).

Definition positive (x : Q) : bool := negb (Qle_bool x 0).

Module Selectors.
Import Js.

Definition recaptcha_iframe := "iframe[src*=" +:+ quoted "recaptcha" +:+ "]".
Definition captcha_container :=
  "[class*=" +:+ quoted "captcha" +:+ "], [id*=" +:+ quoted "captcha" +:+
  "], [data-testid*=" +:+ quoted "captcha" +:+ "]".
Definition active_challenge :=
  ".g-recaptcha:not([style*=" +:+ quoted "display: none" +:+ "])".

Definition expand_user_drawer_button := "#expand-user-drawer-button".
Definition user_avatar := "img[alt=" +:+ quoted "User Avatar" +:+ "]".
Definition user_avatar_span := "span[avatar]".
Definition faceplate_user_drawer :=
  "faceplate-partial[src*=" +:+ quoted "user-drawer-button-logged-in" +:+ "]".
Definition user_menu_trigger := "[data-testid=" +:+ quoted "user-menu-trigger" +:+ "]".
Definition create_button := "button[aria-label*=" +:+ quoted "Create" +:+ "]".
Definition karma := "[data-testid=" +:+ quoted "karma" +:+ "]".
Definition login_username := "faceplate-text-input#login-username".
Definition login_password := "faceplate-text-input#login-password".
Definition login_form := "[data-testid=" +:+ quoted "login-form" +:+ "]".
Definition testid_user := "[data-testid*=" +:+ quoted "user" +:+ "]".

Definition specificChatSelectors : list string :=
  [ "faceplate-tracker[source=" +:+ quoted "profile" +:+ "][action=" +:+ quoted "click"
      +:+ "][noun=" +:+ quoted "chat" +:+ "] reddit-chat-anchor a";
    "faceplate-tracker[data-faceplate-tracking-context*=" +:+ quoted "target_user"
      +:+ "] reddit-chat-anchor a";
    "reddit-chat-anchor a[aria-label=" +:+ quoted "Open chat" +:+ "]";
    "a[href*=" +:+ quoted "chat.reddit.com/user/" +:+ "][target=" +:+ quoted "_blank" +:+ "]";
    "a.button-secondary[href*=" +:+ quoted "chat.reddit.com/user/" +:+ "]" ].
Definition fallbackSelectors : list string :=
  [ "a[aria-label=" +:+ quoted "Open chat" +:+ "]";
    "a[href*=" +:+ quoted "chat.reddit.com/user/" +:+ "]";
    "reddit-chat-anchor a" ].
Definition any_chat_link := "a[href*=" +:+ quoted "chat.reddit.com" +:+ "]".

Definition message_sent := "[data-testid=" +:+ quoted "message-sent" +:+ "]".
End Selectors.

(** ** The read-only in-page scripts *)

Module Scripts.
Import Js Selectors.

(** [sendMessageToUser], the profile check. *)
Definition userStatus (d : Document) : string :=
  if includes (body_textContent d) "Sorry, nobody on Reddit goes by that name" then "not_found"
  else if includes (body_textContent d) "This account has been suspended" then "suspended"
  else "exists".

(** [handleCaptchaIfPresent], the detection script. *)
Definition captchaRequired (d : Document) : bool :=
  match querySelector d recaptcha_iframe with
  | None => false
  | Some recaptchaIframe =>
      let isVisible :=
        positive (rect_width recaptchaIframe) && positive (rect_height recaptchaIframe) &&
        negb (String.eqb (style_display recaptchaIframe) "none") &&
        negb (String.eqb (style_visibility recaptchaIframe) "hidden") in
      let containerVisible :=
        match querySelector d captcha_container with
        | Some captchaContainer => negb (String.eqb (style_display captchaContainer) "none")
        | None => false
        end in
      let challengeActive := present d active_challenge in
      isVisible && (containerVisible || challengeActive)
  end.

(** [iframe.src.match(re)] for the pattern: one of [?] and [&], then [k=], then
    the captured run of characters other than [&]; the capture at the
    leftmost match. *)
Fixpoint upto_ampersand (s : string) : string :=
  match s with
  | EmptyString => EmptyString
  | String c rest => if Ascii.eqb c "&" then EmptyString else String c (upto_ampersand rest)
  end.

Fixpoint match_k (s : string) : option string :=
  match s with
  | EmptyString => None
  | String c rest =>
      if (Ascii.eqb c "?" || Ascii.eqb c "&") && String.prefix "k=" rest
      then Some (upto_ampersand (String.substring 2 (String.length rest - 2) rest))
      else match_k rest
  end.

(** [handleCaptchaIfPresent], the site-key script: [null] is [None]. *)
Definition sitekey (d : Document) : option string :=
  match querySelector d recaptcha_iframe with
  | None => None
  | Some iframe => match_k (src iframe)
  end.

(** [verifyLoginSuccess], the indicator table of the first check. *)
Record Indicators := {
  expandUserDrawerButton : bool;
  userAvatar : bool;
  userAvatarSpan : bool;
  faceplateUserDrawer : bool;
  userMenuTrigger : bool;
  createButton : bool;
  karma : bool;
  noLoginForm : bool;
  noLoginPage : bool
}.

Definition indicators (d : Document) : Indicators := {|
  expandUserDrawerButton := present d expand_user_drawer_button;
  userAvatar := present d user_avatar;
  userAvatarSpan := present d user_avatar_span;
  faceplateUserDrawer := present d faceplate_user_drawer;
  userMenuTrigger := present d user_menu_trigger;
  createButton := present d create_button;
  karma := present d Selectors.karma;
  noLoginForm := negb (present d login_username);
  noLoginPage := negb (present d login_form)
|}.

(** [Object.entries(indicators)], the values in key order. *)
Definition entries (i : Indicators) : list bool :=
  [ expandUserDrawerButton i; userAvatar i; userAvatarSpan i; faceplateUserDrawer i;
    userMenuTrigger i; createButton i; karma i; noLoginForm i; noLoginPage i ].

Definition positiveIndicators (i : Indicators) : nat :=
  length (filter (fun value => value = true) (entries i)).

Definition strongIndicators (i : Indicators) : bool :=
  expandUserDrawerButton i || userAvatar i || userAvatarSpan i ||
  faceplateUserDrawer i || userMenuTrigger i || karma i.

Definition likelySuccess (i : Indicators) : bool :=
  (noLoginForm i || noLoginPage i) &&
  ((2 <=? positiveIndicators i)%nat || strongIndicators i).

(** [verifyLoginSuccess], the DOM-based verification script. *)
Definition loginSuccess (d : Document) : bool :=
  let i := indicators d in
  strongIndicators i || likelySuccess i || (3 <=? positiveIndicators i)%nat.

(** [verifyLoginSuccess], the reduced check of the retry. *)
Definition quickCheck (d : Document) : bool :=
  present d expand_user_drawer_button ||
  present d user_avatar ||
  present d user_avatar_span ||
  present d faceplate_user_drawer ||
  (negb (present d login_username) &&
   negb (includes (location_href d) "/login") &&
   (present d testid_user || present d create_button)).

(** [extractChatUrl]: one pass over a selector list. *)
Fixpoint first_chat_href (d : Document) (selectors : list string) : option string :=
  match selectors with
  | [] => None
  | selector :: more =>
      match querySelector d selector with
      | Some element =>
          if negb (is_empty (href element)) && includes (href element) "chat.reddit.com"
          then Some (href element)
          else first_chat_href d more
      | None => first_chat_href d more
      end
  end.

Fixpoint first_chat_text (elements : list Element) : option string :=
  match elements with
  | [] => None
  | element :: more =>
      if includes (toLowerCase (textContent element)) "chat"
      then Some (href element)
      else first_chat_text more
  end.

(** [extractChatUrl], the in-page script: [null] is [None]. *)
Definition chatUrl (d : Document) : option string :=
  match first_chat_href d specificChatSelectors with
  | Some url => Some url
  | None =>
      match first_chat_href d fallbackSelectors with
      | Some url => Some url
      | None => first_chat_text (querySelectorAll d any_chat_link)
      end
  end.

(** [sendMessageInChatInterface], the delivery check. *)
Definition deliveryStatus (d : Document) : string :=
  if includes (body_textContent d) "Failed to send" ||
     includes (body_textContent d) "Message failed" then "failed"
  else if present d message_sent || includes (body_textContent d) "Message sent" then "sent"
  else "unknown".

End Scripts.

(** ** Effects: exceptions, calls to the outside world, traces *)

(** An exception carries the [message] read by [error.message].  [Thrown] is
    an [Error] created by a [throw new Error(...)] of this code, [Rejected] a
    failure raised by puppeteer, the solving service or the file system. *)
Inductive Exn :=
| Thrown (msg : string)
| Rejected (msg : string).

Definition message (e : Exn) : string :=
  match e with Thrown msg | Rejected msg => msg end.

Inductive result (A : Type) :=
| Ok (a : A)
| Err (e : Exn).
Arguments Ok {A} a.
Arguments Err {A} e.

(** The in-page scripts passed to [page.evaluate], one name per call site. *)
Inductive Script :=
| FillUsername (usernameValue : string)
| FillPassword (passwordValue : string)
| SubmitLoginForm          (* loginToReddit: the form search, first attempt *)
| ClickLoginButton         (* loginToReddit: the button search, second attempt *)
| CaptchaRequired
| Sitekey
| InjectToken (token : string)
| LoginIndicators
| RetryVerification
| ChatUrl
| UserStatus
| TypeMessage (messageToSend : string)
| ClickComposer
| ViewportDimensions
| ClickSend
| DeliveryStatus.

(** One failure entry of a result file. *)
Record Failure := {
  user : string;
  error : string;
  timestamp : string
}.

(** [results] of the batch run. *)
Record Results := {
  success : list string;
  failed : list Failure
}.

(** [configuration] of the single-message result files. *)
Record Configuration := {
  headless : JsVal;
  proxyUsed : bool
}.

(** The objects handed to [saveResults]. *)
Inductive Report :=
| BatchReport (results : Results)
| SingleReport (success : list string) (message timestamp : string) (configuration : Configuration)
| FailedReport (failed : list Failure) (configuration : Configuration).

(** The calls that leave the program, with the arguments that identify them. *)
Inductive Call :=
| Launch (headless : JsVal) (proxy : option JsVal)   (* puppeteer.launch *)
| NewPage                                            (* browser.newPage *)
| SetViewport
| SetUserAgent
| Goto (url : string)                                (* page.goto *)
| WaitForSelector (selector : string)
| WaitForNavigation
| Evaluate (script : Script)                         (* page.evaluate *)
| KeyboardType (text : string)
| KeyboardPress (key : string)
| MouseClick
| Recaptcha (apikey : JsVal) (googlekey pageurl : string)   (* solver.recaptcha *)
| Sleep (ms : Z)            (* a fixed settle delay: setTimeout(resolve, ms) *)
| Pace (delay : JsVal)      (* the delay between two targets of a batch *)
| ReadFile (path : string)
| Mkdir (dir : string)
| WriteFile (file : string) (data : Report)
| Close.                                             (* browser.close *)

(** The outside world: a state [W], its reaction to every call (a rejection
    message or a normal return, and the next state) and what the program
    reads of a state. *)
Record Env (W : Type) := {
  respond : Call -> W -> option string * W;
  document : W -> Document;      (* the page an in-page script runs on *)
  script_result : W -> bool;     (* the value returned by a clicking or typing script *)
  page_url : W -> string;        (* page.url() *)
  clock : W -> string;           (* new Date().toISOString() *)
  file_data : W -> string;       (* the text returned by fs.readFile *)
  solution : W -> string         (* the token returned by the solving service *)
}.
Arguments respond {W} _ _ _.
Arguments document {W} _ _.
Arguments script_result {W} _ _.
Arguments page_url {W} _ _.
Arguments clock {W} _ _.
Arguments file_data {W} _ _.
Arguments solution {W} _ _.

(** One entry of a trace: a call that returned, or that was rejected with a
    message. *)
Inductive Event :=
| Done (c : Call)
| Refused (c : Call) (msg : string).

(** A computation: from a state of the world to an outcome, the calls made
    and the state reached. *)
Definition M (W A : Type) : Type := W -> result A * list Event * W.

Definition ret {W A} (a : A) : M W A := fun w => (Ok a, [], w).

Definition throw {W A} (msg : string) : M W A := fun w => (Err (Thrown msg), [], w).

(** [throw error] of a caught exception. *)
Definition rethrow {W A} (e : Exn) : M W A := fun w => (Err e, [], w).

(** A run continued after the calls [t] were made. *)
Definition prepend {W A} (t : list Event) (x : result A * list Event * W)
  : result A * list Event * W :=
  let '(r, t', w) := x in (r, t ++ t', w).

Definition bind {W A B} (m : M W A) (k : A -> M W B) : M W B :=
  fun w =>
    match m w with
    | (Ok a, t1, w1) => prepend t1 (k a w1)
    | (Err e, t1, w1) => (Err e, t1, w1)
    end.

(** [try { m } catch (error) { handler error }] *)
Definition try_catch {W A} (m : M W A) (handler : Exn -> M W A) : M W A :=
  fun w =>
    match m w with
    | (Ok a, t1, w1) => (Ok a, t1, w1)
    | (Err e, t1, w1) => prepend t1 (handler e w1)
    end.

(** [try { m } finally { cleanup }]: an exception of [cleanup] replaces the
    outcome of [m]. *)
Definition try_finally {W A} (m : M W A) (cleanup : M W unit) : M W A :=
  fun w =>
    let '(r, t1, w1) := m w in
    match cleanup w1 with
    | (Ok _, t2, w2) => (r, t1 ++ t2, w2)
    | (Err e, t2, w2) => (Err e, t1 ++ t2, w2)
    end.

Declare Scope js_scope.
Delimit Scope js_scope with js.
Notation "x <- m ;; k" := (bind m (fun x => k))
  (at level 100, m at next level, k at level 200, right associativity) : js_scope.
Notation "m ;; k" := (bind m (fun _ => k))
  (at level 100, k at level 200, right associativity) : js_scope.
Local Open Scope js_scope.

(** The outcome, the trace and the final state of a run. *)
Definition outcome {W A} (x : result A * list Event * W) : result A := x.1.1.
Definition trace {W A} (x : result A * list Event * W) : list Event := x.1.2.
Definition final {W A} (x : result A * list Event * W) : W := x.2.

(** ** The program *)

(** [new Solver(apikey)] *)
Record Solver := { apikey : JsVal }.

(** [DEFAULT_CONFIG] of [index.js] *)
Definition DEFAULT_CONFIG : gmap string JsVal :=
  <[ "headless" := JBool false ]>
  (<[ "captchaApiKey" := JStr "YOUR_CAPTCHA_API_KEY_HERE" ]>
  (<[ "proxy" := JNull ]>
  (<[ "messageTemplates" :=
        JArr [ "Hello, I saw your post and wanted to connect!";
               "Hi there, I found your profile interesting and wanted to chat." ] ]> ∅))).

Definition push_success (results : Results) (targetUser : string) : Results :=
  {| success := success results ++ [targetUser]; failed := failed results |}.

Definition push_failed (results : Results) (entry : Failure) : Results :=
  {| success := success results; failed := failed results ++ [entry] |}.

Section Program.
Context {W : Type} (E : Env W).
Import Js Selectors.

(** *** Primitive steps *)

(** An awaited call whose value is not used: it returns or rejects. *)
Definition call (c : Call) : M W unit :=
  fun w =>
    match respond E c w with
    | (None, w') => (Ok tt, [Done c], w')
    | (Some msg, w') => (Err (Rejected msg), [Refused c msg], w')
    end.

(** [await new Promise(resolve => setTimeout(resolve, ...))]: never rejects. *)
Definition timer (c : Call) : M W unit :=
  fun w => (Ok tt, [Done c], (respond E c w).2).

(** A synchronous read of the world. *)
Definition observe {A} (f : W -> A) : M W A := fun w => (Ok (f w), [], w).

(** [page.evaluate] of a script that only reads the page. *)
Definition evaluate {A} (script : Script) (f : Document -> A) : M W A :=
  call (Evaluate script) ;; observe (fun w => f (document E w)).

(** [page.evaluate] of a script that clicks or types. *)
Definition evaluate_action (script : Script) : M W bool :=
  call (Evaluate script) ;; observe (script_result E).

(** *** redditUtils.js *)

Definition initBrowser (options : gmap string JsVal) : M W unit :=
  let proxy := if truthy (prop options "proxy") then Some (prop options "proxy") else None in
  call (Launch (prop options "headless") proxy) ;;
  call NewPage ;;
  call SetViewport ;;
  call SetUserAgent ;;
  ret tt.

(** [loginToReddit], from the navigation to the settle delay after the click. *)
Definition submitCredentials (username password : string) : M W unit :=
  call (Goto "https://www.reddit.com/login") ;;
  call (WaitForSelector login_username) ;;
  call (WaitForSelector login_password) ;;
  evaluate_action (FillUsername username) ;;
  evaluate_action (FillPassword password) ;;
  loginButtonClicked <- evaluate_action SubmitLoginForm ;;
  (if negb loginButtonClicked then
     timer (Sleep 2000) ;;
     secondAttempt <- evaluate_action ClickLoginButton ;;
     if negb secondAttempt
     then throw "Login button not found after comprehensive search"
     else ret tt
   else ret tt) ;;
  timer (Sleep 5000).

Definition no_solver_message : string :=
  "CAPTCHA challenge detected but no 2Captcha API key configured".

Definition handleCaptchaIfPresent (solver : option Solver) : M W unit :=
  captchaRequired <- evaluate CaptchaRequired Scripts.captchaRequired ;;
  if captchaRequired then
    match solver with
    | None => throw no_solver_message
    | Some solver =>
        sitekey <- evaluate Sitekey Scripts.sitekey ;;
        match sitekey with
        | None => throw "CAPTCHA sitekey not found"
        | Some sitekey =>
            if is_empty sitekey then throw "CAPTCHA sitekey not found"
            else
              pageurl <- observe (page_url E) ;;
              call (Recaptcha (apikey solver) sitekey pageurl) ;;
              result <- observe (solution E) ;;
              evaluate_action (InjectToken result) ;;
              call WaitForNavigation
        end
    end
  else ret tt.

Definition urlIndicatesSuccess (currentUrl : string) : bool :=
  negb (includes currentUrl "/login") &&
  negb (includes currentUrl "/register") &&
  negb (includes currentUrl "/error").

Definition verifyLoginSuccess : M W bool :=
  try_catch
    (try_catch (call WaitForNavigation) (fun _ => ret tt) ;;
     currentUrl <- observe (page_url E) ;;
     loginSuccess <- evaluate LoginIndicators Scripts.loginSuccess ;;
     let overallSuccess := urlIndicatesSuccess currentUrl || loginSuccess in
     if negb overallSuccess then
       timer (Sleep 3000) ;;
       retryVerification <- evaluate RetryVerification Scripts.quickCheck ;;
       if negb retryVerification then ret true else ret true
     else ret true)
    (fun _ => ret false).

Definition verification_failed_message : string :=
  "Login verification failed - incorrect credentials or Reddit is blocking the login".

(** [options.captchaApiKey ? new Solver(options.captchaApiKey) : null] *)
Definition newSolver (options : gmap string JsVal) : option Solver :=
  if truthy (prop options "captchaApiKey")
  then Some {| apikey := prop options "captchaApiKey" |} else None.

Definition loginToReddit (username password : string) (options : gmap string JsVal)
  : M W bool :=
  let solver := newSolver options in
  try_catch
    (submitCredentials username password ;;
     handleCaptchaIfPresent solver ;;
     loginSuccess <- verifyLoginSuccess ;;
     if negb loginSuccess then throw verification_failed_message else ret true)
    (fun error => rethrow error).

Definition extractChatUrl : M W (option string) :=
  call (WaitForSelector "button, a") ;;
  evaluate ChatUrl Scripts.chatUrl.

(** [sendMessageInChatInterface], up to the wait after the send click. *)
Definition composeAndSend (messageText : string) : M W unit :=
  try_catch (call (WaitForSelector "rs-message-composer")) (fun _ => ret tt) ;;
  timer (Sleep 2000) ;;
  messageSent <- evaluate_action (TypeMessage messageText) ;;
  (if negb messageSent then
     try_catch
       (evaluate_action ClickComposer ;;
        timer (Sleep 1000) ;;
        call (KeyboardType messageText))
       (fun _ =>
        evaluate_action ViewportDimensions ;;
        call MouseClick ;;
        timer (Sleep 500) ;;
        call (KeyboardType messageText))
   else ret tt) ;;
  timer (Sleep 1000) ;;
  sendButtonClicked <- evaluate_action ClickSend ;;
  (if negb sendButtonClicked then call (KeyboardPress "Enter") else ret tt) ;;
  timer (Sleep 2000).

Definition delivery_failed_message : string :=
  "Message delivery failed - Reddit may have blocked the message".

(** [sendMessageInChatInterface], the delivery verification that ends it. *)
Definition confirmDelivery : M W unit :=
  deliveryStatus <- evaluate DeliveryStatus Scripts.deliveryStatus ;;
  if String.eqb deliveryStatus "failed" then throw delivery_failed_message else ret tt.

Definition sendMessageInChatInterface (messageText : string) : M W unit :=
  composeAndSend messageText ;;
  confirmDelivery.

Definition profile_url (targetUser : string) : string :=
  "https://www.reddit.com/user/" +:+ targetUser.

Definition user_unavailable_message (targetUser userStatus : string) : string :=
  "User " +:+ targetUser +:+ " " +:+
  (if String.eqb userStatus "not_found" then "not found" else "account suspended").

Definition sendMessageToUser (targetUser messageText : string) : M W bool :=
  try_catch
    (call (Goto (profile_url targetUser)) ;;
     userStatus <- evaluate UserStatus Scripts.userStatus ;;
     (if negb (String.eqb userStatus "exists")
      then throw (user_unavailable_message targetUser userStatus)
      else ret tt) ;;
     chatUrl <- extractChatUrl ;;
     match chatUrl with
     | None => throw "Chat button not found or user has disabled messaging"
     | Some chatUrl =>
         if is_empty chatUrl
         then throw "Chat button not found or user has disabled messaging"
         else
           call (Goto chatUrl) ;;
           timer (Sleep 3000) ;;
           chatPageUrl <- observe (page_url E) ;;
           (if negb (includes chatPageUrl "chat.reddit.com")
            then throw ("Not on chat page. Current URL: " +:+ chatPageUrl)
            else ret tt) ;;
           sendMessageInChatInterface messageText ;;
           ret true
     end)
    (fun error => rethrow error).

(** [saveResults]: the directory is created if it can be, and the file is
    named by [path.join(resultsDir, ...)]. *)
Definition saveResults (data : Report) (prefix : string) : M W string :=
  try_catch (call (Mkdir "./results")) (fun _ => ret tt) ;;
  now <- observe (clock E) ;;
  let timestamp := replace_colon_dot now in
  let resultsFile := path_join "./results" (prefix +:+ "-" +:+ timestamp +:+ ".json") in
  call (WriteFile resultsFile data) ;;
  ret resultsFile.

(** *** index.js *)

(** The [catch] block of [redditMessenger]. *)
Definition report_failure {A} (options : gmap string JsVal) (targetUser : string)
    (error : Exn) : M W A :=
  now <- observe (clock E) ;;
  let failureResult :=
    FailedReport
      [ {| user := targetUser; error := message error; timestamp := now |} ]
      {| headless := prop options "headless"; proxyUsed := truthy (prop options "proxy") |} in
  saveResults failureResult "failed-message" ;;
  rethrow error.

(** [browser] is [null] until [initBrowser] has returned: an exception before
    that runs the [catch] block and skips the [close] of the [finally]
    block; from then on every exit runs both. *)
Definition redditMessenger (username password targetUser messageText : string)
    (config : gmap string JsVal) : M W bool :=
  let options := spread DEFAULT_CONFIG config in
  try_catch (initBrowser options) (report_failure options targetUser) ;;
  try_finally
    (try_catch
       (loginToReddit username password {[ "captchaApiKey" := prop options "captchaApiKey" ]} ;;
        sendMessageToUser targetUser messageText ;;
        now <- observe (clock E) ;;
        let result :=
          SingleReport [targetUser] messageText now
            {| headless := prop options "headless";
               proxyUsed := truthy (prop options "proxy") |} in
        saveResults result "single-message" ;;
        ret true)
       (report_failure options targetUser))
    (call Close).

(** *** The batch script *)

(** The target list read from the users file. *)
Definition parseUsers (usersData : string) : list string :=
  filter (fun line => negb (is_empty line) && negb (startsWith line "#") = true)
         (map trim (split "010"%char usersData)).

(** The [for] loop over [users]: [i] is the loop index and [remaining]
    bounds the iterations left; [users.length - i] of them are enough for
    the loop to end by its own test. *)
Fixpoint batch_for (users : list string) (messageText : string) (delay : JsVal)
    (remaining i : nat) (results : Results) : M W Results :=
  match remaining with
  | O => ret results
  | S remaining' =>
      if (i <? length users)%nat then
        let targetUser := nth i users EmptyString in
        results' <-
          try_catch
            (sendMessageToUser targetUser messageText ;;
             ret (push_success results targetUser))
            (fun error =>
             now <- observe (clock E) ;;
             ret (push_failed results
                    {| user := targetUser; error := message error; timestamp := now |})) ;;
        (if (i <? length users - 1)%nat then timer (Pace delay) else ret tt) ;;
        batch_for users messageText delay remaining' (S i) results'
      else ret results
  end.

Definition batchLoop (users : list string) (messageText : string) (delay : JsVal)
  : M W Results :=
  batch_for users messageText delay (length users) 0 {| success := []; failed := [] |}.

(** [browser] is [null] until [initBrowser] has returned; the [catch] block
    only logs and rethrows. *)
Definition processOptimizedBatch (username password usersFile messageText : string)
    (options : gmap string JsVal) : M W Results :=
  call (ReadFile usersFile) ;;
  usersData <- observe (file_data E) ;;
  let users := parseUsers usersData in
  initBrowser (<[ "headless" := JBool (not_false (prop options "headless")) ]>
               (<[ "proxy" := prop options "proxy" ]> ∅)) ;;
  try_finally
    (try_catch
       (loginToReddit username password {[ "captchaApiKey" := prop options "captchaApiKey" ]} ;;
        let delay := js_or (prop options "delay") (JNum 30000) in
        results <- batchLoop users messageText delay ;;
        saveResults (BatchReport results) "batch" ;;
        ret results)
       (fun error => rethrow error))
    (call Close).

End Program.

(** ** Notions used by the statements *)

Definition is_close (ev : Event) : bool :=
  match ev with Done Close | Refused Close _ => true | _ => false end.

Definition is_pace (ev : Event) : bool :=
  match ev with Done (Pace _) | Refused (Pace _) _ => true | _ => false end.

(** The segments of a batch trace, one per target, with the pacing delay
    between two of them and none after the last. *)
Fixpoint interleave (sep : Event) (segments : list (list Event)) : list Event :=
  match segments with
  | [] => []
  | [segment] => segment
  | segment :: more => segment ++ sep :: interleave sep more
  end.

Section Notions.
Context {W : Type} (E : Env W).

(** Every event of [m] satisfies [P] and every exception that leaves [m]
    satisfies [Q], from every state of the world. *)
Definition within {A} (P : Event -> Prop) (Q : Exn -> Prop) (m : M W A) : Prop :=
  forall w, Forall P (trace (m w)) /\ forall e, outcome (m w) = Err e -> Q e.

(** What one iteration of the batch loop adds to [results], given the run of
    [sendMessageToUser] for its target. *)
Definition record_outcome (results : Results) (targetUser : string)
    (run : result bool * list Event * W) : Results :=
  match outcome run with
  | Ok _ => push_success results targetUser
  | Err e =>
      push_failed results
        {| user := targetUser; error := message e; timestamp := clock E (final run) |}
  end.

(** The batch loop told target by target: attempt the head, record its
    outcome, pause if targets remain, go on with the tail. *)
Fixpoint replay (messageText : string) (delay : JsVal) (users : list string)
    (results : Results) (w : W) : Results * list Event * W :=
  match users with
  | [] => (results, [], w)
  | targetUser :: rest =>
      let run := sendMessageToUser E targetUser messageText w in
      let results' := record_outcome results targetUser run in
      let '(pause, w1) :=
        match rest with
        | [] => ([], final run)
        | _ => ([Done (Pace delay)], (respond E (Pace delay) (final run)).2)
        end in
      let '(results'', t, w2) := replay messageText delay rest results' w1 in
      (results'', trace run ++ pause ++ t, w2)
  end.

(** [segment] is the trace of a delivery attempt for [targetUser]. *)
Definition attempt_of (messageText targetUser : string) (segment : list Event) : Prop :=
  exists w, segment = trace (sendMessageToUser E targetUser messageText w).

End Notions.

(** *** The target list in the words of the specification *)

Module TargetList.

Fixpoint join (lines : list string) : string :=
  match lines with
  | [] => EmptyString
  | [line] => line
  | line :: more => line +:+ String "010" (join more)
  end.

Fixpoint all_chars (P : ascii -> bool) (s : string) : bool :=
  match s with
  | EmptyString => true
  | String c rest => P c && all_chars P rest
  end.

Definition first_char (s : string) : option ascii :=
  match s with EmptyString => None | String c _ => Some c end.

Fixpoint last_char (s : string) : option ascii :=
  match s with
  | EmptyString => None
  | String c EmptyString => Some c
  | String _ rest => last_char rest
  end.

Definition is_newline (c : ascii) : bool := Ascii.eqb c "010".

Definition no_newline (line : string) : Prop :=
  all_chars (fun c => negb (is_newline c)) line = true.

(** [lines] are the newline-delimited lines of [data]. *)
Definition Lines (data : string) (lines : list string) : Prop :=
  lines <> [] /\ join lines = data /\ Forall no_newline lines.

(** [t] is [line] without its surrounding whitespace. *)
Definition Trimmed (line t : string) : Prop :=
  exists before after,
    line = before +:+ t +:+ after /\
    all_chars Js.is_whitespace before = true /\
    all_chars Js.is_whitespace after = true /\
    (forall c, first_char t = Some c -> Js.is_whitespace c = false) /\
    (forall c, last_char t = Some c -> Js.is_whitespace c = false).

Definition is_comment (t : string) : Prop := first_char t = Some "#"%char.

(** [targets] are the trimmed lines, in order, without the blank ones and
    the comments. *)
Inductive Targets : list string -> list string -> Prop :=
| targets_nil : Targets [] []
| targets_blank line lines targets :
    Trimmed line EmptyString -> Targets lines targets ->
    Targets (line :: lines) targets
| targets_comment line t lines targets :
    Trimmed line t -> is_comment t -> Targets lines targets ->
    Targets (line :: lines) targets
| targets_keep line t lines targets :
    Trimmed line t -> t <> EmptyString -> ~ is_comment t -> Targets lines targets ->
    Targets (line :: lines) (t :: targets).

End TargetList.

(** ** A scripted web site, for concrete runs *)

Module Scripted.
Import Js Selectors.

Definition no_element : Element := {|
  href := EmptyString; src := EmptyString; textContent := EmptyString;
  rect_width := 0; rect_height := 0;
  style_display := "block"; style_visibility := "visible"
|}.

Definition page (text : string) (found : list (string * Element)) : Document := {|
  body_textContent := text;
  location_href := EmptyString;
  querySelector selector :=
    snd <$> List.find (fun entry => String.eqb (fst entry) selector) found;
  querySelectorAll selector :=
    snd <$> List.filter (fun entry => String.eqb (fst entry) selector) found
|}.

(** The world is the address the page is at. *)
Record Site := {
  pages : string -> Document;     (* the document served at an address *)
  landing : string;               (* where submitting the login form leads *)
  users_file : string;            (* the text of the users file *)
  rejects : Call -> option string (* the calls that fail, with their message *)
}.

Definition env (site : Site) : Env string := {|
  respond c url :=
    (rejects site c,
     match c with
     | Goto address => address
     | Evaluate SubmitLoginForm => landing site
     | _ => url
     end);
  document url := pages site url;
  script_result _ := true;
  page_url url := url;
  clock _ := "2024-05-01T10:00:00.000Z";
  file_data _ := users_file site;
  solution _ := "token"
|}.

Definition login_url : string := "https://www.reddit.com/login".
Definition home_url : string := "https://www.reddit.com/".
Definition chat_url (targetUser : string) : string :=
  "https://chat.reddit.com/user/" +:+ targetUser.

Definition chat_link (targetUser : string) : Element := {|
  href := chat_url targetUser; src := EmptyString; textContent := "Start Chat";
  rect_width := 80; rect_height := 32;
  style_display := "block"; style_visibility := "visible"
|}.

(** A profile with a chat button. *)
Definition profile (targetUser : string) : Document :=
  page ("u/" +:+ targetUser)
       [ ("reddit-chat-anchor a[aria-label=" +:+ quoted "Open chat" +:+ "]",
          chat_link targetUser) ].

Definition not_found_page : Document :=
  page "Sorry, nobody on Reddit goes by that name." [].

Definition suspended_page : Document :=
  page "This account has been suspended." [].

Definition blank_page : Document := page EmptyString [].

(** The login page while a visible reCAPTCHA is shown. *)
Definition recaptcha_frame : Element := {|
  href := EmptyString;
  src := "https://www.google.com/recaptcha/api2/anchor?ar=1&k=6LeTnxkTAAAAAN9QEuDZRpn90WwKk_R1TRW_g-JC&co=x";
  textContent := EmptyString;
  rect_width := 304; rect_height := 78;
  style_display := "block"; style_visibility := "visible"
|}.

Definition challenge_page : Document :=
  page "Log In"
       [ (recaptcha_iframe, recaptcha_frame);
         (active_challenge, no_element);
         (login_username, no_element) ].

(** The login page, still showing its form. *)
Definition login_page : Document :=
  page "Log In" [ (login_username, no_element); (login_form, no_element) ].

(** The site of the batch fixture: [A] and [C] have a chat button, [B] does
    not exist.  The users file names them between a comment, a blank line,
    padding and a trailing newline. *)
Definition fixture : Site := {|
  pages url :=
    if String.eqb url (profile_url "A") then profile "A"
    else if String.eqb url (profile_url "B") then not_found_page
    else if String.eqb url (profile_url "C") then profile "C"
    else blank_page;
  landing := home_url;
  users_file :=
    "A" +:+ String "010" ("# second batch" +:+ String "010" (String "010"
    ("  B " +:+ String "013" (String "010" ("C" +:+ String "010" EmptyString)))));
  rejects _ := None
|}.

(** A site on which the login form stays after submission, optionally with
    a challenge. *)
Definition stuck_on_login (challenge : bool) : Site := {|
  pages url :=
    if String.eqb url login_url
    then (if challenge then challenge_page else login_page)
    else blank_page;
  landing := login_url;
  users_file := "A";
  rejects _ := None
|}.

(** The fixture with some calls failing. *)
Definition failing (rejects : Call -> option string) : Site := {|
  pages := pages fixture;
  landing := landing fixture;
  users_file := users_file fixture;
  rejects := rejects
|}.

(** The fixture while the login page cannot be reached. *)
Definition login_unreachable : Site :=
  failing (fun c =>
    match c with
    | Goto url => if String.eqb url login_url then Some "net::ERR_CONNECTION_RESET" else None
    | _ => None
    end).

(** No option given, and an explicit [null] solving key. *)
Definition no_options : gmap string JsVal := ∅.
Definition null_key : gmap string JsVal := {[ "captchaApiKey" := JNull ]}.

(** The options object built by both runs for [loginToReddit]. *)
Definition login_options (options : gmap string JsVal) : gmap string JsVal :=
  {[ "captchaApiKey" := prop options "captchaApiKey" ]}.

(** The options object built by the batch run for [initBrowser]. *)
Definition batch_browser_options (options : gmap string JsVal) : gmap string JsVal :=
  <[ "headless" := JBool (not_false (prop options "headless")) ]>
    (<[ "proxy" := prop options "proxy" ]> ∅).

(** The calls of [initBrowser] on a site that rejects nothing. *)
Definition launched (headless : JsVal) : list Event :=
  [ Done (Launch headless None); Done NewPage; Done SetViewport; Done SetUserAgent ].

(** The calls of [submitCredentials] on a site that rejects nothing. *)
Definition submitted (username password : string) : list Event :=
  [ Done (Goto login_url);
    Done (WaitForSelector login_username);
    Done (WaitForSelector login_password);
    Done (Evaluate (FillUsername username));
    Done (Evaluate (FillPassword password));
    Done (Evaluate SubmitLoginForm);
    Done (Sleep 5000) ].

End Scripted.

(** ** Predicates on events and exceptions used by the statements *)

(** The two calls of [extractChatUrl]. *)
Definition is_chat_lookup (ev : Event) : bool :=
  match ev with
  | Done (WaitForSelector selector) | Refused (WaitForSelector selector) _ =>
      String.eqb selector "button, a"
  | Done (Evaluate ChatUrl) | Refused (Evaluate ChatUrl) _ => true
  | _ => false
  end.

(** Nothing but the [finally] blocks closes the browser, and nothing but the
    batch loop awaits the pacing delay. *)
Definition quiet (ev : Event) : Prop := is_close ev = false /\ is_pace ev = false.

(** The exception of the branch of [handleCaptchaIfPresent] without solver. *)
Definition not_hard_stop (e : Exn) : Prop := e <> Thrown no_solver_message.

(** The trace entry of a call, given the reply of the world. *)
Definition replied (c : Call) (reply : option string) : Event :=
  match reply with
  | None => Done c
  | Some msg => Refused c msg
  end.

(** The number of times the retry script of [verifyLoginSuccess] was run. *)
Definition retries (t : list Event) : nat :=
  length (List.filter
            (fun ev =>
               match ev with
               | Done (Evaluate RetryVerification) | Refused (Evaluate RetryVerification) _ => true
               | _ => false
               end) t).

(** The number of times the pacing delay of the batch loop was awaited. *)
Definition pauses (t : list Event) : nat := length (List.filter is_pace t).

(** The script that ends a delivery attempt, returning. *)
Definition delivery_check : Event := Done (Evaluate DeliveryStatus).

(** A navigation to a profile page. *)
Definition is_profile_visit (ev : Event) : bool :=
  match ev with
  | Done (Goto url) | Refused (Goto url) _ => Js.startsWith url "https://www.reddit.com/user/"
  | _ => false
  end.

(** An event that leaves the browser open. *)
Definition keeps_open (ev : Event) : Prop := is_close ev = false.

(** ** The composer search of [sendMessageInChatInterface] *)

Module Shadow.

(** An element as the search sees it: its [tagName], its classes, its
    children, and the children of its shadow root if it has one. *)
#[warnings="-register-all"]
Inductive Node :=
| node (tagName : string) (classList : list string)
       (children : list Node) (shadowRoot : option (list Node)).

Definition tagName (n : Node) : string :=
  match n with node tag _ _ _ => tag end.
Definition classList (n : Node) : list string :=
  match n with node _ classes _ _ => classes end.
Definition children (n : Node) : list Node :=
  match n with node _ _ kids _ => kids end.
Definition shadowRoot (n : Node) : option (list Node) :=
  match n with node _ _ _ root => root end.

(** The descendants of an element in document order, its shadow tree left
    out. *)
Fixpoint descendants (n : Node) : list Node :=
  match n with
  | node _ _ kids _ =>
      (fix over (l : list Node) : list Node :=
         match l with
         | [] => []
         | k :: more => k :: descendants k ++ over more
         end) kids
  end.

(** The elements below a list of roots, in document order. *)
Definition below (roots : list Node) : list Node :=
  flat_map (fun k => k :: descendants k) roots.

(** The three selectors of the search: a type selector or a class. *)
Inductive Selector :=
| ByTag (name : string)
| ByClass (class : string).

Definition matches (selector : Selector) (n : Node) : bool :=
  match selector with
  | ByTag name => String.eqb (Js.toLowerCase (tagName n)) name
  | ByClass class => existsb (String.eqb class) (classList n)
  end.

(** [element.querySelector(selector)] *)
Definition querySelector (element : Node) (selector : Selector) : option Node :=
  List.find (matches selector) (descendants element).

(** [shadowRoot.querySelector(selector)] *)
Definition queryRoot (root : list Node) (selector : Selector) : option Node :=
  List.find (matches selector) (below root).

(** [el.tagName.includes('-')] *)
Definition is_custom (n : Node) : bool := Js.includes (tagName n) "-".

Definition is_textarea (n : Node) : bool :=
  String.eqb (Js.toLowerCase (tagName n)) "textarea".

(** [for (const x of candidates) { const result = f(x); if (result) return result; }] *)
Fixpoint first_result (f : Node -> option Node) (candidates : list Node) : option Node :=
  match candidates with
  | [] => None
  | x :: more =>
      match f x with
      | Some result => Some result
      | None => first_result f more
      end
  end.

(** [findTextareaInShadowDom(element)]; [depth] bounds the nesting of the
    recursive calls, [None] is [null]. *)
Fixpoint findTextareaInShadowDom (depth : nat) (element : Node) : option Node :=
  match depth with
  | O => None
  | S depth' =>
      if is_textarea element then Some element
      else
        match querySelector element (ByTag "textarea") with
        | Some directTextarea => Some directTextarea
        | None =>
            match shadowRoot element with
            | None => None
            | Some root =>
                match queryRoot root (ByTag "textarea") with
                | Some shadowTextarea => Some shadowTextarea
                | None =>
                    match queryRoot root (ByTag "rs-textarea-auto-size") with
                    | Some nestedTextareaComponent =>
                        findTextareaInShadowDom depth' nestedTextareaComponent
                    | None =>
                        let in_box :=
                          match queryRoot root (ByClass "message-box") with
                          | Some messageBox =>
                              match querySelector messageBox (ByTag "textarea") with
                              | Some boxTextarea => Some boxTextarea
                              | None =>
                                  first_result (findTextareaInShadowDom depth')
                                    (List.filter is_custom (children messageBox))
                              end
                          | None => None
                          end in
                        match in_box with
                        | Some result => Some result
                        | None =>
                            first_result (findTextareaInShadowDom depth')
                              (List.filter is_custom root)
                        end
                    end
                end
            end
        end
  end.

(** The nesting height of an element, shadow trees included. *)
Fixpoint height (n : Node) : nat :=
  match n with
  | node _ _ kids root =>
      S (Nat.max
           ((fix over (l : list Node) : nat :=
               match l with
               | [] => O
               | k :: more => Nat.max (height k) (over more)
               end) kids)
           (match root with
            | None => O
            | Some top =>
                (fix over (l : list Node) : nat :=
                   match l with
                   | [] => O
                   | k :: more => Nat.max (height k) (over more)
                   end) top
            end))
  end.

Definition heights (l : list Node) : nat :=
  fold_right (fun k m => Nat.max (height k) m) O l.

(** The elements of the composed tree of [n]: [n], and what lies below it in
    its own tree and in the shadow trees. *)
Inductive inside : Node -> Node -> Prop :=
| inside_self n : inside n n
| inside_child n k m : In k (children n) -> inside m k -> inside m n
| inside_shadow n root k m :
    shadowRoot n = Some root -> In k root -> inside m k -> inside m n.

(** A composer whose shadow root holds the auto-size component, which holds
    the textarea in its own shadow root. *)
Definition the_textarea : Node := node "TEXTAREA" [] [] None.
Definition composer : Node :=
  node "RS-MESSAGE-COMPOSER" []
    []
    (Some [ node "DIV" ["message-box"]
              [ node "RS-TEXTAREA-AUTO-SIZE" [] [] (Some [ the_textarea ]) ]
              None ]).

End Shadow.

(** ** The command line of [index.js] *)

Module Cli.

(** What the command line decides: print the usage and exit, or run. *)
Inductive Action :=
| Usage
| Run (username password targetUser messageText : string) (config : gmap string JsVal).

(** [DEFAULT_CONFIG.messageTemplates[0]] *)
Definition first_template : string :=
  match prop DEFAULT_CONFIG "messageTemplates" with
  | JArr (template :: _) => template
  | _ => EmptyString
  end.

(** [args[i] || fallback] for an argument that may be missing. *)
Definition arg_or {A} (args : list string) (i : nat) (given : string -> A) (fallback : A) : A :=
  match nth_error args i with
  | Some a => if Js.is_empty a then fallback else given a
  | None => fallback
  end.

(** The argument handling, [args] being [process.argv.slice(2)]. *)
Definition parse (args : list string) : Action :=
  if (length args <? 3)%nat then Usage
  else
    Run (nth 0 args EmptyString) (nth 1 args EmptyString) (nth 2 args EmptyString)
        (arg_or args 3 (fun m => m) first_template)
        {[ "proxy" := arg_or args 4 JStr JNull ]}.

Section Main.
Context {W : Type} (E : Env W).

(** The body of [if (require.main === module)]: the exit code, the calls made
    and the state reached. *)
Definition main (args : list string) (w : W) : Z * list Event * W :=
  match parse args with
  | Usage => (1, [], w)
  | Run username password targetUser messageText config =>
      let '(r, t, w') :=
        redditMessenger E username password targetUser messageText config w in
      (match r with Ok _ => 0 | Err _ => 1 end, t, w')
  end.

End Main.
End Cli.

(** ** More predicates on events and targets *)

(** A call of the solving service. *)
Definition is_solver_call (ev : Event) : bool :=
  match ev with Done (Recaptcha _ _ _) | Refused (Recaptcha _ _ _) _ => true | _ => false end.

(** A name as [parseUsers] yields them: not empty, no whitespace at either
    end, no [#] in front, no newline. *)
Definition is_target (t : string) : Prop :=
  t <> EmptyString /\
  (forall c, TargetList.first_char t = Some c -> Js.is_whitespace c = false) /\
  (forall c, TargetList.last_char t = Some c -> Js.is_whitespace c = false) /\
  ~ TargetList.is_comment t /\
  TargetList.no_newline t.

(** [s] holds the character [c]. *)
Fixpoint has_char (c : ascii) (s : string) : bool :=
  match s with
  | EmptyString => false
  | String c' rest => Ascii.eqb c' c || has_char c rest
  end.

(** The characters that introduce a parameter in an address. *)
Definition is_mark (c : ascii) : bool := Ascii.eqb c "?" || Ascii.eqb c "&".

(** What one selector of [extractChatUrl] yields: the address of its first
    match if that is a chat address. *)
Definition chat_href (d : Document) (selector : string) : option string :=
  match querySelector d selector with
  | Some element =>
      if negb (Js.is_empty (href element)) && Js.includes (href element) "chat.reddit.com"
      then Some (href element) else None
  | None => None
  end.

(** The name of the result file for a prefix and a clock reading: the
    directory joined with the file name. *)
Definition results_file (prefix now : string) : string :=
  Js.path_join "./results" (prefix +:+ "-" +:+ Js.replace_colon_dot now +:+ ".json").

(** A verification script of [verifyLoginSuccess] that was rejected. *)
Definition is_verification_crash (ev : Event) : bool :=
  match ev with
  | Refused (Evaluate LoginIndicators) _ | Refused (Evaluate RetryVerification) _ => true
  | _ => false
  end.

(** A call of the solving service as [handleCaptchaIfPresent] makes it when
    the configured key is [key]: the key is truthy and passed on, the site
    key is not empty and holds no [&]. *)
Definition solver_call_ok (key : JsVal) (ev : Event) : Prop :=
  match ev with
  | Done (Recaptcha k googlekey _) | Refused (Recaptcha k googlekey _) _ =>
      truthy key = true /\ k = key /\
      googlekey <> EmptyString /\ has_char "&" googlekey = false
  | _ => True
  end.

Definition sitekey_missing_message : string := "CAPTCHA sitekey not found".

Definition no_chat_button_message : string :=
  "Chat button not found or user has disabled messaging".

Definition not_on_chat_page_message (chatPageUrl : string) : string :=
  "Not on chat page. Current URL: " +:+ chatPageUrl.

(** The call of a trace entry. *)
Definition call_of (ev : Event) : Call :=
  match ev with Done c | Refused c _ => c end.

(** What a run hands to the page: the credentials to their fields, the
    message to the composer, and [Enter] as the only key. *)
Definition carries (username password messageText : string) (c : Call) : Prop :=
  match c with
  | Evaluate (FillUsername usernameValue) => usernameValue = username
  | Evaluate (FillPassword passwordValue) => passwordValue = password
  | Evaluate (TypeMessage text) | KeyboardType text => text = messageText
  | KeyboardPress key => key = "Enter"
  | _ => True
  end.

(** A launch with the given [headless] value, and the proxy exactly when it
    is truthy. *)
Definition launches_with (headless proxy : JsVal) (c : Call) : Prop :=
  match c with
  | Launch h p => h = headless /\ p = (if truthy proxy then Some proxy else None)
  | _ => True
  end.

(** A pacing delay of the given length. *)
Definition paces_with (delay : JsVal) (c : Call) : Prop :=
  match c with
  | Pace d => d = delay
  | _ => True
  end.

Definition placeholder_key : JsVal := JStr "YOUR_CAPTCHA_API_KEY_HERE".

Definition no_results : Results := {| success := []; failed := [] |}.

(** The errors of a computation: every exception that leaves [m] is an
    [Error] of this code whose message satisfies [own], or the rejection of
    the last call made, a call that satisfies [R]. *)
Definition fails_with {W A} (own : string -> Prop) (R : Call -> Prop) (m : M W A) : Prop :=
  forall w e t w',
    m w = (Err e, t, w') ->
    (exists msg, e = Thrown msg /\ own msg) \/
    (exists c msg t0, t = t0 ++ [Refused c msg] /\ e = Rejected msg /\ R c).

Definition login_button_message : string :=
  "Login button not found after comprehensive search".

(** The error messages of [sendMessageToUser] itself. *)
Definition delivery_error (targetUser msg : string) : Prop :=
  msg = "User " +:+ targetUser +:+ " not found" \/
  msg = "User " +:+ targetUser +:+ " account suspended" \/
  msg = no_chat_button_message \/
  (exists chatPageUrl, msg = not_on_chat_page_message chatPageUrl) \/
  msg = delivery_failed_message.

(** The error messages of [loginToReddit] itself. *)
Definition login_error (msg : string) : Prop :=
  msg = login_button_message \/
  msg = no_solver_message \/
  msg = sitekey_missing_message \/
  msg = verification_failed_message.

(** The calls whose rejection [sendMessageToUser] never passes on as the
    last one: the wait for the composer and the click on it. *)
Definition tolerated_in_delivery (c : Call) : Prop :=
  c = WaitForSelector "rs-message-composer" \/ c = Evaluate ClickComposer.

(** ** The batch in the words of its description *)

Section BatchWords.
Context {W : Type} (E : Env W).

(** The delivery attempts of a batch: one run of [sendMessageToUser] per
    target, in the order of the list, the first from the state [w] and each
    next one from where the one before ended, after the pacing delay --
    whatever the outcome of the one before. *)
Inductive Attempts (messageText : string) (delay : JsVal)
  : W -> list string -> list (result bool * list Event * W) -> Prop :=
| attempts_none w : Attempts messageText delay w [] []
| attempts_last w targetUser :
    Attempts messageText delay w [targetUser]
      [sendMessageToUser E targetUser messageText w]
| attempts_next w targetUser next rest runs :
    Attempts messageText delay
      (respond E (Pace delay) (final (sendMessageToUser E targetUser messageText w))).2
      (next :: rest) runs ->
    Attempts messageText delay w (targetUser :: next :: rest)
      (sendMessageToUser E targetUser messageText w :: runs).

(** The targets whose attempt returned, in order. *)
Fixpoint succeeded (targets : list string) (runs : list (result bool * list Event * W))
  : list string :=
  match targets, runs with
  | targetUser :: targets', run :: runs' =>
      match outcome run with
      | Ok _ => targetUser :: succeeded targets' runs'
      | Err _ => succeeded targets' runs'
      end
  | _, _ => []
  end.

(** One failure entry per target whose attempt threw, in order: the target,
    the message of the error, and the clock read where the attempt ended. *)
Fixpoint failures (targets : list string) (runs : list (result bool * list Event * W))
  : list Failure :=
  match targets, runs with
  | targetUser :: targets', run :: runs' =>
      match outcome run with
      | Ok _ => failures targets' runs'
      | Err e =>
          {| user := targetUser; error := message e; timestamp := clock E (final run) |}
          :: failures targets' runs'
      end
  | _, _ => []
  end.

End BatchWords.

(** ** More scripted sites *)

Module Cases.
Import Js Selectors Scripted.

(** A challenge frame whose address names no site key. *)
Definition keyless_frame : Element := {|
  href := EmptyString;
  src := "https://www.google.com/recaptcha/api2/anchor?ar=1&co=x";
  textContent := EmptyString;
  rect_width := 304; rect_height := 78;
  style_display := "block"; style_visibility := "visible"
|}.

Definition keyless_challenge : Site := {|
  pages _ :=
    page "Log In"
      [ (recaptcha_iframe, keyless_frame);
        (active_challenge, no_element);
        (login_username, no_element) ];
  landing := login_url;
  users_file := "A";
  rejects _ := None
|}.

Definition some_solver : Solver := {| apikey := JStr "2captcha-key" |}.

(** The fixture while its chat addresses lead back to the login page. *)
Definition redirecting : Env string := {|
  respond c url :=
    (None,
     match c with
     | Goto address => if includes address "chat.reddit.com" then login_url else address
     | _ => url
     end);
  document url := pages fixture url;
  script_result _ := true;
  page_url url := url;
  clock _ := "2024-05-01T10:00:00.000Z";
  file_data _ := users_file fixture;
  solution _ := "token"
|}.

(** The fixture while the first verification script is rejected. *)
Definition crashed_verification : Site :=
  failing (fun c =>
    match c with
    | Evaluate LoginIndicators => Some "Execution context was destroyed"
    | _ => None
    end).

(** The fixture while the delivery status script is rejected. *)
Definition crashed_status : Site :=
  failing (fun c =>
    match c with
    | Evaluate DeliveryStatus => Some "Execution context was destroyed"
    | _ => None
    end).

(** The fixture while no page can be opened in the launched browser. *)
Definition no_new_page : Site :=
  failing (fun c => match c with NewPage => Some "Target closed" | _ => None end).

(** The fixture without its users file. *)
Definition unreadable : Site :=
  failing (fun c => match c with ReadFile _ => Some "ENOENT" | _ => None end).

(** The fixture with a users file that names nobody. *)
Definition comments_only : Site := {|
  pages := pages fixture;
  landing := landing fixture;
  users_file := "# nobody yet" +:+ String "010" (String "010" ("   " +:+ String "010" EmptyString));
  rejects _ := None
|}.

(** The selectors of [extractChatUrl] in the order they are tried. *)
Definition chat_selectors : list string := specificChatSelectors ++ fallbackSelectors.

Definition open_chat_selector : string :=
  "reddit-chat-anchor a[aria-label=" +:+ quoted "Open chat" +:+ "]".

(** The results of the batch on the fixture. *)
Definition fixture_results : Results :=
  {| success := ["A"; "C"];
     failed := [ {| user := "B"; error := "User B not found";
                    timestamp := "2024-05-01T10:00:00.000Z" |} ] |}.

Definition challenge_address : string := "https://www.google.com/recaptcha/api2/anchor".

End Cases.

(** ** Reasoning about computations *)

Section Laws.
Context {W : Type} (E : Env W).

Lemma bind_ok {A B} (m : M W A) (k : A -> M W B) w a t1 w1 :
  m w = (Ok a, t1, w1) -> bind m k w = prepend t1 (k a w1).
Proof. intros Hm. unfold bind. rewrite Hm. reflexivity. Qed.

Lemma outcome_prepend {A} t (x : result A * list Event * W) :
  outcome (prepend t x) = outcome x.
Proof. destruct x as [[r t'] w]. reflexivity. Qed.

Lemma trace_prepend {A} t (x : result A * list Event * W) :
  trace (prepend t x) = t ++ trace x.
Proof. destruct x as [[r t'] w]. reflexivity. Qed.

Lemma final_prepend {A} t (x : result A * list Event * W) :
  final (prepend t x) = final x.
Proof. destruct x as [[r t'] w]. reflexivity. Qed.

Lemma prepend_nil {A} (x : result A * list Event * W) : prepend [] x = x.
Proof. destruct x as [[r t'] w]. reflexivity. Qed.

Lemma bind_err {A B} (m : M W A) (k : A -> M W B) w e t1 w1 :
  m w = (Err e, t1, w1) -> bind m k w = (Err e, t1, w1).
Proof. intros Hm. unfold bind. rewrite Hm. reflexivity. Qed.

Lemma call_done c w w1 :
  respond E c w = (None, w1) -> call E c w = (Ok tt, [Done c], w1).
Proof. intros H. unfold call. rewrite H. reflexivity. Qed.

Lemma call_fail c w msg w1 :
  respond E c w = (Some msg, w1) -> call E c w = (Err (Rejected msg), [Refused c msg], w1).
Proof. intros H. unfold call. rewrite H. reflexivity. Qed.

Lemma evaluate_done {A} script (f : Document -> A) w w1 :
  respond E (Evaluate script) w = (None, w1) ->
  evaluate E script f w = (Ok (f (document E w1)), [Done (Evaluate script)], w1).
Proof. intros H. unfold evaluate, bind, observe. rewrite (call_done _ _ _ H). reflexivity. Qed.

Lemma evaluate_fail {A} script (f : Document -> A) w msg w1 :
  respond E (Evaluate script) w = (Some msg, w1) ->
  evaluate E script f w = (Err (Rejected msg), [Refused (Evaluate script) msg], w1).
Proof. intros H. unfold evaluate, bind, observe. rewrite (call_fail _ _ _ _ H). reflexivity. Qed.

Lemma try_catch_rethrow {A} (m : M W A) w :
  try_catch m (fun error => rethrow error) w = m w.
Proof.
  unfold try_catch, rethrow. destruct (m w) as [[[a|e] t] w1]; [reflexivity|].
  cbn. rewrite app_nil_r. reflexivity.
Qed.

Lemma try_catch_ok {A} (m : M W A) handler w a t w1 :
  m w = (Ok a, t, w1) -> try_catch m handler w = (Ok a, t, w1).
Proof. intros H. unfold try_catch. rewrite H. reflexivity. Qed.

Lemma try_catch_err {A} (m : M W A) handler w e t w1 :
  m w = (Err e, t, w1) -> try_catch m handler w = prepend t (handler e w1).
Proof. intros H. unfold try_catch. rewrite H. reflexivity. Qed.

Lemma triple_eta {A} (x : result A * list Event * W) :
  x = (outcome x, trace x, final x).
Proof. destruct x as [[r t] w]. reflexivity. Qed.

End Laws.

(** [within] follows the structure of a computation. *)
Section Within.
Context {W : Type} (E : Env W) (P : Event -> Prop) (Q : Exn -> Prop).

Lemma within_ret {A} (a : A) : within P Q (ret a : M W A).
Proof. intros w. split; [constructor | discriminate]. Qed.

Lemma within_observe {A} (f : W -> A) : within P Q (observe f).
Proof. intros w. split; [constructor | discriminate]. Qed.

Lemma within_throw {A} msg : Q (Thrown msg) -> within P Q (throw msg : M W A).
Proof. intros H w. split; [constructor | intros e [= <-]; exact H]. Qed.

Lemma within_rethrow {A} e : Q e -> within P Q (rethrow e : M W A).
Proof. intros H w. split; [constructor | intros e' [= <-]; exact H]. Qed.

Lemma within_call c :
  P (Done c) -> (forall msg, P (Refused c msg)) -> (forall msg, Q (Rejected msg)) ->
  within P Q (call E c).
Proof.
  intros Hd Hf Hq w. unfold call, trace, outcome.
  destruct (respond E c w) as [[msg|] w1]; simpl.
  - split; [repeat constructor; apply Hf | intros e [= <-]; apply Hq].
  - split; [repeat constructor; apply Hd | discriminate].
Qed.

Lemma within_timer c : P (Done c) -> within P Q (timer E c).
Proof. intros Hd w. split; [repeat constructor; exact Hd | discriminate]. Qed.

Lemma within_bind {A B} (m : M W A) (k : A -> M W B) :
  within P Q m -> (forall a, within P Q (k a)) -> within P Q (bind m k).
Proof.
  intros Hm Hk w. specialize (Hm w). unfold bind, trace, outcome in *.
  destruct (m w) as [[[a|e] t1] w1]; simpl in *.
  - specialize (Hk a w1). unfold trace, outcome in Hk.
    destruct (k a w1) as [[r t2] w2]; simpl in *.
    destruct Hm as [Hm _], Hk as [Hk1 Hk2].
    split; [apply Forall_app; split; assumption | exact Hk2].
  - destruct Hm as [Hm He]. split; [exact Hm | ].
    intros e' [= <-]. apply He. reflexivity.
Qed.

Lemma within_try_catch {A} (Q' : Exn -> Prop) (m : M W A) (handler : Exn -> M W A) :
  within P Q' m -> (forall e, Q' e -> within P Q (handler e)) ->
  within P Q (try_catch m handler).
Proof.
  intros Hm Hh w. specialize (Hm w). unfold try_catch, trace, outcome in *.
  destruct (m w) as [[[a|e] t1] w1]; simpl in *.
  - destruct Hm as [Hm _]. split; [exact Hm | discriminate].
  - destruct Hm as [Hm He]. specialize (Hh e (He e eq_refl) w1).
    unfold trace, outcome in Hh.
    destruct (handler e w1) as [[r t2] w2]; simpl in *.
    destruct Hh as [Hh1 Hh2].
    split; [apply Forall_app; split; assumption | exact Hh2].
Qed.

Lemma within_try_finally {A} (m : M W A) (cleanup : M W unit) :
  within P Q m -> within P Q cleanup -> within P Q (try_finally m cleanup).
Proof.
  intros Hm Hc w. specialize (Hm w). unfold try_finally, trace, outcome in *.
  destruct (m w) as [[r t1] w1]; simpl in *.
  specialize (Hc w1). unfold trace, outcome in Hc.
  destruct (cleanup w1) as [[[[]|e] t2] w2]; simpl in *;
    destruct Hm as [Hm1 Hm2], Hc as [Hc1 Hc2];
    (split; [apply Forall_app; split; assumption |]).
  - exact Hm2.
  - intros e' [= <-]. apply Hc2. reflexivity.
Qed.

End Within.

(** Decompose a [within] goal along the program text. *)
Ltac within_step :=
  lazymatch goal with
  | |- within _ _ (ret _) => apply within_ret
  | |- within _ _ (observe _) => apply within_observe
  | |- within _ _ (bind _ _) => apply within_bind; [ | intros ? ]
  | |- within _ _ (call _ _) => apply within_call
  | |- within _ _ (timer _ _) => apply within_timer
  | |- within _ _ (throw _) => apply within_throw
  | |- within _ _ (rethrow _) => apply within_rethrow
  | |- within _ _ (try_finally _ _) => apply within_try_finally
  | |- within ?P ?Q (try_catch _ (fun _ => ret _)) =>
      apply (within_try_catch P Q (fun _ => True)); [ | intros ? _ ]
  | |- within ?P ?Q (try_catch _ _) =>
      apply (within_try_catch P Q Q); [ | intros ? ? ]
  | |- within _ _ (if ?b then _ else _) => destruct b
  | |- within _ _ (match ?o with Some _ => _ | None => _ end) => destruct o
  | |- within _ _ (evaluate _ _ _) => unfold evaluate
  | |- within _ _ (evaluate_action _ _) => unfold evaluate_action
  end.

Ltac within_auto side := repeat within_step; intros; side.

Ltac quiet_side :=
  first [ exact I | assumption | split; reflexivity ].

Ltac hard_stop_side :=
  first [ exact I | assumption
        | unfold not_hard_stop, no_solver_message, user_unavailable_message;
          intros [= Heq]; cbn in Heq; discriminate Heq
        | unfold not_hard_stop; discriminate ].

Section Frames.
Context {W : Type} (E : Env W).

Lemma initBrowser_quiet options : within quiet (fun _ => True) (initBrowser E options).
Proof. unfold initBrowser. within_auto quiet_side. Qed.

Lemma submitCredentials_quiet username password :
  within quiet (fun _ => True) (submitCredentials E username password).
Proof. unfold submitCredentials. within_auto quiet_side. Qed.

Lemma handleCaptchaIfPresent_quiet solver :
  within quiet (fun _ => True) (handleCaptchaIfPresent E solver).
Proof. unfold handleCaptchaIfPresent. within_auto quiet_side. Qed.

Lemma verifyLoginSuccess_quiet : within quiet (fun _ => True) (verifyLoginSuccess E).
Proof. unfold verifyLoginSuccess. within_auto quiet_side. Qed.

Lemma loginToReddit_quiet username password options :
  within quiet (fun _ => True) (loginToReddit E username password options).
Proof.
  unfold loginToReddit.
  within_step.
  - within_step; [apply submitCredentials_quiet | ].
    within_step; [apply handleCaptchaIfPresent_quiet | ].
    within_step; [apply verifyLoginSuccess_quiet | ].
    within_auto quiet_side.
  - within_auto quiet_side.
Qed.

Lemma sendMessageToUser_quiet targetUser messageText :
  within quiet (fun _ => True) (sendMessageToUser E targetUser messageText).
Proof.
  unfold sendMessageToUser, extractChatUrl, sendMessageInChatInterface,
    composeAndSend, confirmDelivery.
  within_auto quiet_side.
Qed.

Lemma saveResults_quiet data prefix :
  within quiet (fun _ => True) (saveResults E data prefix).
Proof. unfold saveResults. within_auto quiet_side. Qed.

Lemma report_failure_quiet {A} options targetUser error :
  within quiet (fun _ => True) (report_failure E options targetUser error : M W A).
Proof.
  unfold report_failure.
  within_step; [within_step | ].
  within_step; [apply saveResults_quiet | within_auto quiet_side].
Qed.

(** With a solver at hand the branch without solver is not taken. *)
Lemma handleCaptchaIfPresent_solver solver :
  within (fun _ => True) not_hard_stop (handleCaptchaIfPresent E (Some solver)).
Proof. unfold handleCaptchaIfPresent. within_auto hard_stop_side. Qed.

Lemma submitCredentials_no_hard_stop username password :
  within (fun _ => True) not_hard_stop (submitCredentials E username password).
Proof. unfold submitCredentials. within_auto hard_stop_side. Qed.

Lemma verifyLoginSuccess_no_hard_stop :
  within (fun _ => True) not_hard_stop (verifyLoginSuccess E).
Proof. unfold verifyLoginSuccess. within_auto hard_stop_side. Qed.

Lemma sendMessageToUser_no_hard_stop targetUser messageText :
  within (fun _ => True) not_hard_stop (sendMessageToUser E targetUser messageText).
Proof.
  unfold sendMessageToUser, extractChatUrl, sendMessageInChatInterface,
    composeAndSend, confirmDelivery.
  within_auto hard_stop_side.
Qed.

Lemma saveResults_no_hard_stop data prefix :
  within (fun _ => True) not_hard_stop (saveResults E data prefix).
Proof. unfold saveResults. within_auto hard_stop_side. Qed.

Lemma report_failure_no_hard_stop {A} options targetUser error :
  not_hard_stop error ->
  within (fun _ => True) not_hard_stop (report_failure E options targetUser error : M W A).
Proof.
  intros Herr. unfold report_failure.
  within_step; [within_step | ].
  within_step; [apply saveResults_no_hard_stop | within_auto hard_stop_side].
Qed.

End Frames.

(** ** The batch loop, target by target *)

Section Loop.
Context {W : Type} (E : Env W).
Variables (messageText : string) (delay : JsVal).

Lemma batch_for_unfold users remaining i results :
  batch_for E users messageText delay (S remaining) i results =
  if (i <? length users)%nat then
    bind
      (try_catch
         (bind (sendMessageToUser E (nth i users EmptyString) messageText)
               (fun _ => ret (push_success results (nth i users EmptyString))))
         (fun error =>
          bind (observe (clock E))
               (fun now =>
                ret (push_failed results
                       {| user := nth i users EmptyString;
                          error := message error; timestamp := now |}))))
      (fun results' =>
       bind (if (i <? length users - 1)%nat then timer E (Pace delay) else ret tt)
            (fun _ => batch_for E users messageText delay remaining (S i) results'))
  else ret results.
Proof. reflexivity. Qed.

(** One iteration: the attempt is caught and recorded, whatever its outcome. *)
Lemma iteration_recorded targetUser results w :
  try_catch
    (bind (sendMessageToUser E targetUser messageText)
          (fun _ => ret (push_success results targetUser)))
    (fun error =>
     bind (observe (clock E))
          (fun now =>
           ret (push_failed results
                  {| user := targetUser; error := message error; timestamp := now |}))) w
  = (Ok (record_outcome E results targetUser (sendMessageToUser E targetUser messageText w)),
     trace (sendMessageToUser E targetUser messageText w),
     final (sendMessageToUser E targetUser messageText w)).
Proof.
  unfold try_catch, bind, record_outcome, outcome, trace, final, observe, ret.
  destruct (sendMessageToUser E targetUser messageText w) as [[[b|e] t] w1]; simpl;
    rewrite ?app_nil_r; reflexivity.
Qed.

(** The loop stops by its own test: iterations beyond [users.length - i] are
    never used. *)
Lemma batch_for_enough users n : forall i extra results w,
  n = (length users - i)%nat ->
  batch_for E users messageText delay (n + extra) i results w =
  batch_for E users messageText delay n i results w.
Proof.
  induction n as [|n IH]; intros i extra results w Hn.
  - destruct extra as [|extra]; [reflexivity|].
    simpl Nat.add. rewrite batch_for_unfold.
    destruct (Nat.ltb_spec i (length users)); [lia | reflexivity].
  - simpl Nat.add. rewrite !batch_for_unfold.
    destruct (Nat.ltb_spec i (length users)); [|reflexivity].
    rewrite !(bind_ok _ _ _ _ _ _ (iteration_recorded _ _ _)).
    f_equal.
    destruct (i <? length users - 1)%nat;
      erewrite !bind_ok by reflexivity; rewrite IH by lia; reflexivity.
Qed.

Lemma batch_for_replay rest : forall done results w,
  batch_for E (done ++ rest) messageText delay (length rest) (length done) results w =
  let '(results', t, w') := replay E messageText delay rest results w in
  (Ok results', t, w').
Proof.
  induction rest as [|targetUser rest IH]; intros done results w.
  - reflexivity.
  - cbn [length replay]. rewrite batch_for_unfold.
    assert (Hnth : nth (length done) (done ++ targetUser :: rest) EmptyString = targetUser).
    { rewrite app_nth2 by lia. rewrite Nat.sub_diag. reflexivity. }
    rewrite Hnth. rewrite length_app. cbn [length].
    destruct (Nat.ltb_spec (length done) (length done + S (length rest))); [|lia].
    rewrite (bind_ok _ _ _ _ _ _ (iteration_recorded _ _ _)).
    specialize (IH (done ++ [targetUser])).
    rewrite <- app_assoc, length_app in IH. cbn [length app] in IH.
    replace (length done + 1)%nat with (S (length done)) in IH by lia.
    destruct rest as [|next rest].
    + match goal with
      | |- context [(?a <? ?b)%nat] => destruct (Nat.ltb_spec a b); [cbn [length] in *; lia|]
      end.
      erewrite bind_ok by reflexivity. rewrite IH.
      cbn [replay]. unfold outcome, trace, final. cbn. rewrite !app_nil_r. reflexivity.
    + match goal with
      | |- context [(?a <? ?b)%nat] => destruct (Nat.ltb_spec a b); [|cbn [length] in *; lia]
      end.
      erewrite bind_ok by reflexivity. rewrite IH.
      destruct (replay E messageText delay (next :: rest)
                  (record_outcome E results targetUser
                     (sendMessageToUser E targetUser messageText w))
                  (respond E (Pace delay)
                     (final (sendMessageToUser E targetUser messageText w))).2)
        as [[results' t] w'].
      reflexivity.
Qed.

Lemma batchLoop_replay users w :
  batchLoop E users messageText delay w =
  let '(results, t, w') :=
    replay E messageText delay users {| success := []; failed := [] |} w in
  (Ok results, t, w').
Proof. unfold batchLoop. apply (batch_for_replay users []). Qed.

(** The replay keeps what was recorded and adds one entry per target. *)
Lemma replay_results users : forall results w,
  exists added_ok added_failed,
    (replay E messageText delay users results w).1.1 =
      {| success := success results ++ added_ok;
         failed := failed results ++ added_failed |} /\
    Permutation (added_ok ++ map user added_failed) users.
Proof.
  induction users as [|targetUser rest IH]; intros results w.
  - exists [], []. cbn. rewrite !app_nil_r. destruct results; split; [reflexivity|constructor].
  - cbn [replay].
    set (run := sendMessageToUser E targetUser messageText w).
    set (pause := match rest with [] => _ | _ => _ end).
    destruct pause as [pause w1].
    destruct (IH (record_outcome E results targetUser run) w1) as (oks & fails & Heq & Hperm).
    destruct (replay E messageText delay rest (record_outcome E results targetUser run) w1)
      as [[results' t] w2].
    cbn in Heq |- *. subst results'.
    unfold record_outcome. destruct (outcome run) as [b|e]; cbn.
    + exists (targetUser :: oks), fails. rewrite <- !app_assoc. split; [reflexivity|].
      cbn. constructor. exact Hperm.
    + eexists oks, (_ :: fails). rewrite <- !app_assoc. split; [reflexivity|].
      cbn. symmetry. apply Permutation_cons_app. symmetry. exact Hperm.
Qed.

(** The trace of the replay: one attempt per target, in order, and the
    pacing delay between two attempts. *)
Lemma replay_trace users : forall results w,
  exists segments,
    Forall2 (attempt_of E messageText) users segments /\
    (replay E messageText delay users results w).1.2 = interleave (Done (Pace delay)) segments.
Proof.
  induction users as [|targetUser rest IH]; intros results w.
  - exists []. split; [constructor | reflexivity].
  - cbn [replay].
    set (run := sendMessageToUser E targetUser messageText w).
    destruct rest as [|next rest].
    + exists [trace run]. split.
      * repeat constructor. exists w. reflexivity.
      * cbn. rewrite app_nil_r. reflexivity.
    + set (w1 := (respond E (Pace delay) (final run)).2).
      destruct (IH (record_outcome E results targetUser run) w1) as (segments & Hall & Heq).
      destruct (replay E messageText delay (next :: rest)
                  (record_outcome E results targetUser run) w1) as [[results' t] w2].
      cbn in Heq. subst t.
      exists (trace run :: segments). split.
      * constructor; [exists w; reflexivity | exact Hall].
      * cbn [fst snd]. inversion Hall; subst. reflexivity.
Qed.

End Loop.

(** ** Delivery to one target *)

Lemma userStatus_cases d :
  Scripts.userStatus d = "not_found" \/ Scripts.userStatus d = "suspended" \/
  Scripts.userStatus d = "exists".
Proof.
  unfold Scripts.userStatus.
  destruct (Js.includes _ _); [auto|]. destruct (Js.includes _ _); auto.
Qed.

Section Delivery.
Context {W : Type} (E : Env W).

(** C3. A target whose profile is classified not_found or suspended makes
    [sendMessageToUser] throw its descriptive error right after the
    classification: the run consists of the navigation and the status script
    only.  Conversely, a run in which a call of [extractChatUrl] occurs has
    classified the profile as exists. *)
Theorem unavailable_target_fails_before_chat_lookup targetUser messageText w :
  let run := sendMessageToUser E targetUser messageText w in
  (forall w0 w1,
     respond E (Goto (profile_url targetUser)) w = (None, w0) ->
     respond E (Evaluate UserStatus) w0 = (None, w1) ->
     let userStatus := Scripts.userStatus (document E w1) in
     userStatus = "not_found" \/ userStatus = "suspended" ->
     run = (Err (Thrown ("User " +:+ targetUser +:+ " " +:+
                         (if String.eqb userStatus "not_found"
                          then "not found" else "account suspended"))),
            [Done (Goto (profile_url targetUser)); Done (Evaluate UserStatus)],
            w1) /\
     Forall (fun ev => is_chat_lookup ev = false) (trace run)) /\
  (forall ev,
     In ev (trace run) -> is_chat_lookup ev = true ->
     exists w0 w1,
       respond E (Goto (profile_url targetUser)) w = (None, w0) /\
       respond E (Evaluate UserStatus) w0 = (None, w1) /\
       Scripts.userStatus (document E w1) = "exists").
Proof.
  cbn zeta. unfold sendMessageToUser. rewrite try_catch_rethrow. split.
  - intros w0 w1 Hgoto Hstatus Hclass.
    erewrite bind_ok by (apply call_done; eassumption).
    erewrite bind_ok by (apply evaluate_done; eassumption).
    assert (Hne : String.eqb (Scripts.userStatus (document E w1)) "exists" = false).
    { destruct Hclass as [-> | ->]; reflexivity. }
    rewrite Hne. cbn [negb].
    erewrite bind_err by reflexivity.
    cbn. split; [reflexivity|]. repeat constructor.
  - intros ev Hin Hlookup.
    destruct (respond E (Goto (profile_url targetUser)) w) as [[msg|] w0] eqn:Hgoto.
    { erewrite bind_err in Hin by (apply call_fail; eassumption).
      cbn in Hin. destruct Hin as [<- | []]. discriminate Hlookup. }
    erewrite bind_ok in Hin by (apply call_done; eassumption).
    destruct (respond E (Evaluate UserStatus) w0) as [[msg|] w1] eqn:Hstatus.
    { erewrite bind_err in Hin by (apply evaluate_fail; eassumption).
      cbn in Hin. destruct Hin as [<- | [<- | []]]; discriminate Hlookup. }
    exists w0, w1. split; [reflexivity|]. split; [exact Hstatus|].
    erewrite bind_ok in Hin by (apply evaluate_done; eassumption).
    destruct (userStatus_cases (document E w1)) as [Hs | [Hs | Hs]]; [| |exact Hs].
    all: rewrite Hs in Hin; cbn [String.eqb Ascii.eqb Bool.eqb negb] in Hin.
    all: erewrite bind_err in Hin by reflexivity.
    all: cbn in Hin; destruct Hin as [<- | [<- | []]]; discriminate Hlookup.
Qed.

End Delivery.

(** ** Closing the browser *)

Section Closing.
Context {W : Type} (E : Env W).

(** The [finally] block of both entry points: [browser.close()] is the last
    call, and only its own failure changes the outcome. *)
Lemma try_finally_close {A} (m : M W A) w r t w1 :
  m w = (r, t, w1) ->
  exists ev r' w2,
    try_finally m (call E Close) w = (r', t ++ [ev], w2) /\
    is_close ev = true /\
    (ev = Done Close -> r' = r) /\
    (forall a, r' = Ok a -> r = Ok a) /\
    (forall e, r = Err e -> exists e', r' = Err e').
Proof.
  intros Hm. unfold try_finally, call. rewrite Hm.
  destruct (respond E Close w1) as [[msg|] w2].
  - exists (Refused Close msg), (Err (Rejected msg)), w2.
    repeat split; try discriminate. intros e _. eauto.
  - exists (Done Close), r, w2. repeat split; auto. intros e ->. eauto.
Qed.

End Closing.

(** ** Logging in *)

Section Login.
Context {W : Type} (E : Env W).

Lemma handleCaptchaIfPresent_hard_stop w w1 :
  respond E (Evaluate CaptchaRequired) w = (None, w1) ->
  Scripts.captchaRequired (document E w1) = true ->
  handleCaptchaIfPresent E None w =
  (Err (Thrown no_solver_message), [Done (Evaluate CaptchaRequired)], w1).
Proof.
  intros Hdetect Hreq. unfold handleCaptchaIfPresent.
  erewrite bind_ok by (apply evaluate_done; eassumption).
  rewrite Hreq. reflexivity.
Qed.

(** An exception of [loginToReddit] ends the batch run: the browser is
    closed and no target is attempted. *)
Lemma batch_login_failure username password usersFile messageText options
    w w1 t0 w2 e t1 w3 :
  respond E (ReadFile usersFile) w = (None, w1) ->
  initBrowser E (<[ "headless" := JBool (not_false (prop options "headless")) ]>
                 (<[ "proxy" := prop options "proxy" ]> ∅)) w1 = (Ok tt, t0, w2) ->
  loginToReddit E username password {[ "captchaApiKey" := prop options "captchaApiKey" ]} w2
    = (Err e, t1, w3) ->
  exists e' ev w4,
    processOptimizedBatch E username password usersFile messageText options w =
      (Err e', Done (ReadFile usersFile) :: t0 ++ t1 ++ [ev], w4) /\
    is_close ev = true /\ (ev = Done Close -> e' = e).
Proof.
  intros Hread Hinit Hlogin. unfold processOptimizedBatch.
  erewrite bind_ok by (apply call_done; eassumption).
  erewrite bind_ok by reflexivity.
  erewrite bind_ok by eassumption.
  match goal with
  | |- context [try_finally ?m _ ?w0] =>
      destruct (try_finally_close E m w0 (Err e) t1 w3)
        as (ev & r' & w4 & Hrun & Hclose & Hsame & _ & Herr);
        [ rewrite try_catch_rethrow; erewrite bind_err by eassumption; reflexivity | ]
  end.
  destruct (Herr e eq_refl) as [e' ->].
  exists e', ev, w4. rewrite Hrun. cbn. split; [reflexivity|]. split; [exact Hclose|].
  intros Hev. specialize (Hsame Hev). congruence.
Qed.

(** The same for the single-message run, whose [catch] block first writes
    the failure record. *)
Lemma messenger_login_failure username password targetUser messageText config
    w t0 w1 e t1 w2 :
  let options := spread DEFAULT_CONFIG config in
  initBrowser E options w = (Ok tt, t0, w1) ->
  loginToReddit E username password {[ "captchaApiKey" := prop options "captchaApiKey" ]} w1
    = (Err e, t1, w2) ->
  exists e' ev w3,
    redditMessenger E username password targetUser messageText config w =
      (Err e',
       t0 ++ t1 ++
       trace (report_failure E options targetUser e (A := bool) w2) ++ [ev], w3) /\
    is_close ev = true.
Proof.
  intros options Hinit Hlogin. unfold redditMessenger. fold options.
  erewrite bind_ok by (apply try_catch_ok; eassumption).
  match goal with
  | |- context [try_finally ?m _ ?w0] =>
      destruct (try_finally_close E m w0 _ _ _ (triple_eta _))
        as (ev & r' & w3 & Hrun & Hclose & _ & _ & Herr)
  end.
  rewrite Hrun. clear Hrun.
  erewrite try_catch_err in * by (erewrite bind_err by eassumption; reflexivity).
  rewrite outcome_prepend, trace_prepend in *.
  assert (Hfail : exists e0, outcome (report_failure E options targetUser e (A := bool) w2) = Err e0).
  { unfold report_failure. erewrite bind_ok by reflexivity. rewrite prepend_nil.
    unfold bind. destruct (saveResults E _ _ _) as [[[file|e0] t] w'].
    - rewrite outcome_prepend. eexists. reflexivity.
    - eexists. reflexivity. }
  destruct Hfail as [e0 Hfail]. destruct (Herr e0 Hfail) as [e' ->].
  exists e', ev, w3. cbn. rewrite <- !app_assoc. split; [reflexivity | exact Hclose].
Qed.

(** C4. When the detection script reports an active challenge and there is
    no solver, [handleCaptchaIfPresent] throws its error at once: the run of
    the function is the detection script alone, so neither the site-key
    script, nor the solving service, nor the token submission is reached.
    The error leaves [loginToReddit] unchanged and ends both kinds of run,
    which close the browser without attempting a delivery. *)
Theorem challenge_without_solver_is_fatal w w1 :
  respond E (Evaluate CaptchaRequired) w = (None, w1) ->
  Scripts.captchaRequired (document E w1) = true ->
  handleCaptchaIfPresent E None w =
    (Err (Thrown no_solver_message), [Done (Evaluate CaptchaRequired)], w1) /\
  (forall username password options w0 t0,
     truthy (prop options "captchaApiKey") = false ->
     submitCredentials E username password w0 = (Ok tt, t0, w) ->
     loginToReddit E username password options w0 =
       (Err (Thrown no_solver_message), t0 ++ [Done (Evaluate CaptchaRequired)], w1)) /\
  (forall username password usersFile messageText options wa wb ti w0 t0,
     truthy (prop options "captchaApiKey") = false ->
     respond E (ReadFile usersFile) wa = (None, wb) ->
     initBrowser E (<[ "headless" := JBool (not_false (prop options "headless")) ]>
                    (<[ "proxy" := prop options "proxy" ]> ∅)) wb = (Ok tt, ti, w0) ->
     submitCredentials E username password w0 = (Ok tt, t0, w) ->
     exists e ev wz,
       processOptimizedBatch E username password usersFile messageText options wa =
         (Err e,
          Done (ReadFile usersFile) :: ti ++ (t0 ++ [Done (Evaluate CaptchaRequired)]) ++ [ev],
          wz) /\
       is_close ev = true /\ (ev = Done Close -> e = Thrown no_solver_message)) /\
  (forall username password targetUser messageText config wa ti w0 t0,
     truthy (prop (spread DEFAULT_CONFIG config) "captchaApiKey") = false ->
     initBrowser E (spread DEFAULT_CONFIG config) wa = (Ok tt, ti, w0) ->
     submitCredentials E username password w0 = (Ok tt, t0, w) ->
     exists e ev wz,
       redditMessenger E username password targetUser messageText config wa =
         (Err e,
          ti ++ (t0 ++ [Done (Evaluate CaptchaRequired)]) ++
          trace (report_failure E (spread DEFAULT_CONFIG config) targetUser
                   (Thrown no_solver_message) (A := bool) w1) ++ [ev],
          wz) /\
       is_close ev = true).
Proof.
  intros Hdetect Hreq.
  pose proof (handleCaptchaIfPresent_hard_stop w w1 Hdetect Hreq) as Hstop.
  assert (Hlogin : forall username password options w0 t0,
     truthy (prop options "captchaApiKey") = false ->
     submitCredentials E username password w0 = (Ok tt, t0, w) ->
     loginToReddit E username password options w0 =
       (Err (Thrown no_solver_message), t0 ++ [Done (Evaluate CaptchaRequired)], w1)).
  { intros username password options w0 t0 Hkey Hsubmit.
    unfold loginToReddit, newSolver. rewrite Hkey, try_catch_rethrow.
    erewrite bind_ok by eassumption.
    erewrite bind_err by eassumption. reflexivity. }
  split; [exact Hstop|]. split; [exact Hlogin|]. split.
  - intros username password usersFile messageText options wa wb ti w0 t0 Hkey Hread Hinit Hsubmit.
    eapply batch_login_failure; [eassumption | eassumption | ].
    apply Hlogin; [ | eassumption].
    unfold prop in *. rewrite lookup_singleton_eq. exact Hkey.
  - intros username password targetUser messageText config wa ti w0 t0 Hkey Hinit Hsubmit.
    eapply messenger_login_failure; [eassumption | ].
    apply Hlogin; [ | eassumption].
    unfold prop in *. rewrite lookup_singleton_eq. exact Hkey.
Qed.

End Login.

(** ** Verifying the login *)

Section Verification.
Context {W : Type} (E : Env W).

Lemma wait_for_navigation_caught w nav wn :
  respond E WaitForNavigation w = (nav, wn) ->
  try_catch (call E WaitForNavigation) (fun _ => ret tt) w =
  (Ok tt, [replied WaitForNavigation nav], wn).
Proof.
  intros H. unfold try_catch, call. rewrite H. destruct nav; reflexivity.
Qed.

(** C5. When the first check (URL or DOM) and the retry both come out false,
    and neither script raised an exception, [verifyLoginSuccess] returns
    [true]; the retry script ran once. *)
Theorem inconclusive_verification_is_success w nav wn w1 w3 :
  respond E WaitForNavigation w = (nav, wn) ->
  respond E (Evaluate LoginIndicators) wn = (None, w1) ->
  urlIndicatesSuccess (page_url E wn) || Scripts.loginSuccess (document E w1) = false ->
  respond E (Evaluate RetryVerification) (respond E (Sleep 3000) w1).2 = (None, w3) ->
  Scripts.quickCheck (document E w3) = false ->
  verifyLoginSuccess E w =
    (Ok true,
     [replied WaitForNavigation nav; Done (Evaluate LoginIndicators);
      Done (Sleep 3000); Done (Evaluate RetryVerification)],
     w3) /\
  retries (trace (verifyLoginSuccess E w)) = 1%nat.
Proof.
  intros Hnav Hfirst Hincon Hretry Hquick.
  assert (Hrun : verifyLoginSuccess E w =
    (Ok true,
     [replied WaitForNavigation nav; Done (Evaluate LoginIndicators);
      Done (Sleep 3000); Done (Evaluate RetryVerification)],
     w3)).
  { unfold verifyLoginSuccess. apply try_catch_ok.
    erewrite bind_ok by (apply wait_for_navigation_caught; eassumption).
    erewrite bind_ok by reflexivity.
    erewrite bind_ok by (apply evaluate_done; eassumption).
    rewrite Hincon. cbn [negb].
    erewrite bind_ok by reflexivity.
    erewrite bind_ok by (apply evaluate_done; eassumption).
    rewrite Hquick. reflexivity. }
  split; [exact Hrun|]. rewrite Hrun. destruct nav; reflexivity.
Qed.

(** An exception of the DOM script is caught by [verifyLoginSuccess], which
    then answers [false], whatever the address is. *)
Lemma verifyLoginSuccess_script_exception w nav wn msg w1 :
  respond E WaitForNavigation w = (nav, wn) ->
  respond E (Evaluate LoginIndicators) wn = (Some msg, w1) ->
  verifyLoginSuccess E w =
    (Ok false,
     [replied WaitForNavigation nav; Refused (Evaluate LoginIndicators) msg], w1).
Proof.
  intros Hnav Hfirst. unfold verifyLoginSuccess.
  erewrite try_catch_err.
  - cbn. rewrite app_nil_r. reflexivity.
  - erewrite bind_ok by (apply wait_for_navigation_caught; eassumption).
    erewrite bind_ok by reflexivity.
    erewrite bind_err by (apply evaluate_fail; eassumption). reflexivity.
Qed.


End Verification.

(** ** Confirming the delivery *)

Section LastCall.
Context {W : Type}.

(** When the last call of [m ;; k] is one that [m] never makes, [m] has
    returned and the call is the last one of [k]. *)
Lemma last_bind {A B} (ev0 : Event) Q (m : M W A) (k : A -> M W B) w :
  within (fun ev => ev <> ev0) Q m ->
  last (trace (bind m k w)) = Some ev0 ->
  exists a t1 w1,
    m w = (Ok a, t1, w1) /\ bind m k w = prepend t1 (k a w1) /\
    last (trace (k a w1)) = Some ev0.
Proof.
  intros Hm Hlast. destruct (Hm w) as [Hall _]. unfold bind in *.
  destruct (m w) as [[[a|e] t1] w1]; cbn in Hall.
  - exists a, t1, w1. split; [reflexivity|]. split; [reflexivity|].
    rewrite trace_prepend in Hlast.
    destruct (trace (k a w1)) as [|ev t2] eqn:Ht2.
    + rewrite app_nil_r in Hlast. apply last_Some in Hlast as [t Ht]. subst t1.
      apply Forall_app in Hall as [_ Hall]. inversion Hall; subst. congruence.
    + rewrite last_app in Hlast. cbn [last] in Hlast |- *.
      destruct (last (ev :: t2)) eqn:Hl; [exact Hlast|].
      apply last_None in Hl. discriminate.
  - cbn in Hlast. apply last_Some in Hlast as [t Ht]. subst t1.
    apply Forall_app in Hall as [_ Hall]. inversion Hall; subst. congruence.
Qed.

End LastCall.

Ltac differs_side :=
  first [ exact I | assumption | intros; discriminate ].

(** Peel the first step off a run that ends with the delivery check. *)
Ltac peel Hlast :=
  let H := fresh "Hlast" in
  match type of Hlast with
  | last (trace (bind ?m ?k ?w)) = Some _ =>
      let Hw := fresh "Hw" in
      assert (Hw : within (fun x => x <> Done (Evaluate DeliveryStatus)) (fun _ => True) m)
        by (unfold extractChatUrl; within_auto differs_side);
      destruct (last_bind _ _ _ _ _ Hw Hlast) as (? & ? & ? & _ & -> & H);
      clear Hlast Hw; rename H into Hlast;
      rewrite ?outcome_prepend, ?final_prepend
  end.

Section Confirmation.
Context {W : Type} (E : Env W).

Lemma composeAndSend_no_check messageText :
  within (fun ev => ev <> delivery_check) (fun _ => True) (composeAndSend E messageText).
Proof. unfold composeAndSend. within_auto differs_side. Qed.

Lemma confirmDelivery_run w w1 :
  respond E (Evaluate DeliveryStatus) w = (None, w1) ->
  confirmDelivery E w =
  ((if String.eqb (Scripts.deliveryStatus (document E w1)) "failed"
    then Err (Thrown delivery_failed_message) else Ok tt),
   [Done (Evaluate DeliveryStatus)], w1).
Proof.
  intros H. unfold confirmDelivery.
  erewrite bind_ok by (apply evaluate_done; eassumption).
  destruct (String.eqb _ _); reflexivity.
Qed.

Lemma deliveryStatus_failed d :
  Scripts.deliveryStatus d = "failed" <->
  Js.includes (body_textContent d) "Failed to send" = true \/
  Js.includes (body_textContent d) "Message failed" = true.
Proof.
  unfold Scripts.deliveryStatus.
  destruct (Js.includes (body_textContent d) "Failed to send");
    destruct (Js.includes (body_textContent d) "Message failed"); cbn [orb].
  1-3: split; auto.
  split; [|intros [|]; discriminate].
  destruct (_ || _); discriminate.
Qed.

(** A run of [confirmDelivery] that ends with its script returning has
    decided on the status alone. *)
Lemma confirmDelivery_last w :
  last (trace (confirmDelivery E w)) = Some delivery_check ->
  Scripts.deliveryStatus (document E (final (confirmDelivery E w))) <> "failed" ->
  outcome (confirmDelivery E w) = Ok tt.
Proof.
  destruct (respond E (Evaluate DeliveryStatus) w) as [[msg|] w1] eqn:H.
  - unfold confirmDelivery. erewrite bind_err by (apply evaluate_fail; eassumption).
    cbn. discriminate.
  - rewrite (confirmDelivery_run _ _ H). cbn. intros _ Hne.
    destruct (String.eqb_spec (Scripts.deliveryStatus (document E w1)) "failed");
      [contradiction | reflexivity].
Qed.

Lemma sendMessageInChatInterface_last messageText w :
  let run := sendMessageInChatInterface E messageText w in
  last (trace run) = Some delivery_check ->
  Scripts.deliveryStatus (document E (final run)) <> "failed" ->
  outcome run = Ok tt.
Proof.
  cbn zeta. unfold sendMessageInChatInterface. intros Hlast.
  destruct (last_bind _ _ _ _ _ (composeAndSend_no_check messageText) Hlast)
    as ([] & t1 & w1 & _ & -> & Hlast').
  rewrite outcome_prepend, final_prepend. apply confirmDelivery_last. exact Hlast'.
Qed.

Lemma sendMessageToUser_last targetUser messageText w :
  let run := sendMessageToUser E targetUser messageText w in
  last (trace run) = Some delivery_check ->
  Scripts.deliveryStatus (document E (final run)) <> "failed" ->
  outcome run = Ok true.
Proof.
  cbn zeta. unfold sendMessageToUser. rewrite try_catch_rethrow.
  intros Hlast.
  peel Hlast. peel Hlast. peel Hlast. peel Hlast.
  match type of Hlast with context [match ?o with Some _ => _ | None => _ end] =>
    destruct o as [chatUrl|]; [|discriminate Hlast] end.
  destruct (Js.is_empty chatUrl); [discriminate Hlast|].
  peel Hlast. peel Hlast. peel Hlast. peel Hlast.
  intros Hne. unfold bind in *.
  pose proof (sendMessageInChatInterface_last messageText) as Hsend. cbn zeta in Hsend.
  match type of Hlast with context [sendMessageInChatInterface E messageText ?w0] =>
    specialize (Hsend w0);
    destruct (sendMessageInChatInterface E messageText w0) as [[[[]|e] t] w'] eqn:Hrun
  end.
  - reflexivity.
  - cbn in *. specialize (Hsend Hlast Hne). discriminate Hsend.
Qed.

(** A status script that raises an exception makes the check fail with that
    exception, whatever the page text is. *)
Lemma confirmDelivery_script_exception w msg w1 :
  respond E (Evaluate DeliveryStatus) w = (Some msg, w1) ->
  confirmDelivery E w =
  (Err (Rejected msg), [Refused (Evaluate DeliveryStatus) msg], w1).
Proof.
  intros H. unfold confirmDelivery.
  erewrite bind_err by (apply evaluate_fail; eassumption). reflexivity.
Qed.

End Confirmation.

(** ** The two entry points *)

Lemma within_mono {W A} (P P' : Event -> Prop) (Q Q' : Exn -> Prop) (m : M W A) :
  (forall ev, P ev -> P' ev) -> (forall e, Q e -> Q' e) ->
  within P Q m -> within P' Q' m.
Proof.
  intros HP HQ Hm w. destruct (Hm w) as [H1 H2]. split.
  - eapply Forall_impl; [exact H1 | exact HP].
  - intros e He. apply HQ, H2, He.
Qed.

Section EntryPoints.
Context {W : Type} (E : Env W).

Lemma quiet_open {A} (m : M W A) :
  within quiet (fun _ => True) m -> within keeps_open (fun _ => True) m.
Proof. apply within_mono; [intros ev [H _]; exact H | trivial]. Qed.

Lemma batch_for_open users messageText delay remaining : forall i results,
  within keeps_open (fun _ => True) (batch_for E users messageText delay remaining i results).
Proof.
  induction remaining as [|remaining IH]; intros i results.
  - apply within_ret.
  - rewrite batch_for_unfold. within_step; [|apply within_ret].
    within_step.
    + within_step; [|within_auto ltac:(exact I)].
      within_step; [apply quiet_open, sendMessageToUser_quiet | apply within_ret].
    + within_step; [|apply IH].
      within_auto ltac:(first [exact I | reflexivity]).
Qed.

Lemma messenger_body_open username password targetUser messageText options :
  within keeps_open (fun _ => True)
    (try_catch
       (bind (loginToReddit E username password
                {[ "captchaApiKey" := prop options "captchaApiKey" ]})
          (fun _ =>
           bind (sendMessageToUser E targetUser messageText)
             (fun _ =>
              bind (observe (clock E))
                (fun now =>
                 bind (saveResults E
                         (SingleReport [targetUser] messageText now
                            {| headless := prop options "headless";
                               proxyUsed := truthy (prop options "proxy") |})
                         "single-message")
                   (fun _ => ret true)))))
       (report_failure E options targetUser)).
Proof.
  within_step; [|apply quiet_open, report_failure_quiet].
  within_step; [apply quiet_open, loginToReddit_quiet|].
  within_step; [apply quiet_open, sendMessageToUser_quiet|].
  within_step; [within_step|].
  within_step; [apply quiet_open, saveResults_quiet | apply within_ret].
Qed.

Lemma batch_body_open username password messageText users options :
  within keeps_open (fun _ => True)
    (try_catch
       (bind (loginToReddit E username password
                {[ "captchaApiKey" := prop options "captchaApiKey" ]})
          (fun _ =>
           bind (batchLoop E users messageText (js_or (prop options "delay") (JNum 30000)))
             (fun results =>
              bind (saveResults E (BatchReport results) "batch")
                (fun _ => ret results))))
       (fun error => rethrow error)).
Proof.
  within_step; [|within_step; exact I].
  within_step; [apply quiet_open, loginToReddit_quiet|].
  within_step; [apply batch_for_open|].
  within_step; [apply quiet_open, saveResults_quiet | apply within_ret].
Qed.

(** Once [initBrowser] has returned the session, every run of either entry
    point ends with [browser.close()]: whatever happens in between -- a
    normal return, an exception of the login, of a delivery or of the
    result file -- the close is the last call of the run, and the only
    close. *)
Lemma browser_closed_after_setup :
  (forall username password targetUser messageText config w t0 w1,
     initBrowser E (spread DEFAULT_CONFIG config) w = (Ok tt, t0, w1) ->
     exists t ev,
       trace (redditMessenger E username password targetUser messageText config w)
         = t0 ++ t ++ [ev] /\
       is_close ev = true /\
       Forall (fun x => is_close x = false) (t0 ++ t)) /\
  (forall username password usersFile messageText options w w1 t0 w2,
     respond E (ReadFile usersFile) w = (None, w1) ->
     initBrowser E (<[ "headless" := JBool (not_false (prop options "headless")) ]>
                    (<[ "proxy" := prop options "proxy" ]> ∅)) w1 = (Ok tt, t0, w2) ->
     exists t ev,
       trace (processOptimizedBatch E username password usersFile messageText options w)
         = Done (ReadFile usersFile) :: t0 ++ t ++ [ev] /\
       is_close ev = true /\
       Forall (fun x => is_close x = false) (Done (ReadFile usersFile) :: t0 ++ t)).
Proof.
  split.
  - intros username password targetUser messageText config w t0 w1 Hinit.
    unfold redditMessenger.
    erewrite bind_ok by (apply try_catch_ok; eassumption).
    match goal with
    | |- context [try_finally ?m _ ?w0] =>
        destruct (try_finally_close E m w0 _ _ _ (triple_eta _))
          as (ev & r' & w3 & Hrun & Hclose & _);
        pose proof (proj1 (messenger_body_open username password targetUser messageText
                             (spread DEFAULT_CONFIG config) w0)) as Hbody
    end.
    rewrite Hrun. eexists _, ev. split; [reflexivity|]. split; [exact Hclose|].
    apply Forall_app. split; [|exact Hbody].
    pose proof (proj1 (initBrowser_quiet E (spread DEFAULT_CONFIG config) w)) as Hq.
    rewrite Hinit in Hq. eapply Forall_impl; [exact Hq | intros x [Hx _]; exact Hx].
  - intros username password usersFile messageText options w w1 t0 w2 Hread Hinit.
    unfold processOptimizedBatch.
    erewrite bind_ok by (apply call_done; eassumption).
    erewrite bind_ok by reflexivity.
    erewrite bind_ok by eassumption.
    match goal with
    | |- context [try_finally ?m _ ?w0] =>
        destruct (try_finally_close E m w0 _ _ _ (triple_eta _))
          as (ev & r' & w3 & Hrun & Hclose & _);
        pose proof (proj1 (batch_body_open username password messageText
                             (parseUsers (file_data E w1)) options w0)) as Hbody
    end.
    rewrite Hrun. eexists _, ev. split; [reflexivity|]. split; [exact Hclose|].
    constructor; [reflexivity|].
    apply Forall_app. split; [|exact Hbody].
    match type of Hinit with initBrowser E ?o w1 = _ =>
      pose proof (proj1 (initBrowser_quiet E o w1)) as Hq; rewrite Hinit in Hq end.
    eapply Forall_impl; [exact Hq | intros x [Hx _]; exact Hx].
Qed.

(** Before [initBrowser] has returned there is no session to close: a run in
    which it throws makes no [close] call, also when the launch itself had
    succeeded. *)
Lemma no_session_no_close username password targetUser messageText config w e t0 w1 :
  initBrowser E (spread DEFAULT_CONFIG config) w = (Err e, t0, w1) ->
  Forall (fun x => is_close x = false)
    (trace (redditMessenger E username password targetUser messageText config w)).
Proof.
  intros Hinit. unfold redditMessenger.
  pose proof (proj1 (quiet_open _ (report_failure_quiet E (A := unit)
                       (spread DEFAULT_CONFIG config) targetUser e) w1)) as Hrep.
  pose proof (proj1 (quiet_open _ (initBrowser_quiet E (spread DEFAULT_CONFIG config)) w)) as Hq.
  rewrite Hinit in Hq. cbn in Hq.
  assert (Hfail : exists e0 t w2,
            report_failure E (spread DEFAULT_CONFIG config) targetUser e (A := unit) w1
            = (Err e0, t, w2)).
  { unfold report_failure. erewrite bind_ok by reflexivity. rewrite prepend_nil.
    unfold bind. destruct (saveResults E _ _ _) as [[[file|e0] t] w']; cbn; eauto. }
  destruct Hfail as (e0 & t & w2 & Hfail). rewrite Hfail in Hrep. cbn in Hrep.
  erewrite bind_err by (erewrite try_catch_err by eassumption; rewrite Hfail; reflexivity).
  cbn. apply Forall_app. split; assumption.
Qed.

End EntryPoints.

(** ** The batch run *)

Lemma pauses_app t1 t2 : pauses (t1 ++ t2) = (pauses t1 + pauses t2)%nat.
Proof. unfold pauses. rewrite List.filter_app, length_app. reflexivity. Qed.

Lemma pauses_none t : Forall (fun ev => is_pace ev = false) t -> pauses t = 0%nat.
Proof.
  unfold pauses. induction 1 as [|ev t Hev _ IH]; [reflexivity|].
  cbn. rewrite Hev. exact IH.
Qed.

Lemma pauses_pace delay t : pauses (Done (Pace delay) :: t) = S (pauses t).
Proof. reflexivity. Qed.

Lemma interleave_cons sep (segment next : list Event) more :
  interleave sep (segment :: next :: more) = segment ++ sep :: interleave sep (next :: more).
Proof. reflexivity. Qed.

Lemma pauses_interleave delay segments :
  Forall (Forall (fun ev => is_pace ev = false)) segments ->
  pauses (interleave (Done (Pace delay)) segments) = (length segments - 1)%nat.
Proof.
  induction 1 as [|segment more Hseg Hmore IH]; [reflexivity|].
  destruct more as [|next more].
  - cbn. apply pauses_none, Hseg.
  - rewrite interleave_cons, pauses_app, (pauses_none _ Hseg), pauses_pace, IH.
    cbn [length]. lia.
Qed.

Section Batch.
Context {W : Type} (E : Env W).

Lemma attempt_has_no_pause messageText targetUser segment :
  attempt_of E messageText targetUser segment ->
  Forall (fun ev => is_pace ev = false) segment.
Proof.
  intros [w ->].
  eapply Forall_impl; [apply (sendMessageToUser_quiet E targetUser messageText w)|].
  intros ev [_ H]. exact H.
Qed.

Lemma attempt_starts_at_profile messageText targetUser segment :
  attempt_of E messageText targetUser segment ->
  exists reply rest, segment = replied (Goto (profile_url targetUser)) reply :: rest.
Proof.
  intros [w ->]. unfold sendMessageToUser. rewrite try_catch_rethrow.
  destruct (respond E (Goto (profile_url targetUser)) w) as [[msg|] w0] eqn:Hgoto.
  - erewrite bind_err by (apply call_fail; eassumption).
    exists (Some msg), []. reflexivity.
  - erewrite bind_ok by (apply call_done; eassumption).
    rewrite trace_prepend. exists None. eexists. reflexivity.
Qed.

Lemma batchLoop_trace users messageText delay w :
  exists segments,
    Forall2 (attempt_of E messageText) users segments /\
    trace (batchLoop E users messageText delay w) = interleave (Done (Pace delay)) segments.
Proof.
  rewrite batchLoop_replay.
  destruct (replay_trace E messageText delay users {| success := []; failed := [] |} w)
    as (segments & Hall & Heq).
  exists segments. split; [exact Hall|].
  destruct (replay E messageText delay users _ w) as [[results t] w']. exact Heq.
Qed.

Lemma batchLoop_results users messageText delay w :
  exists results,
    outcome (batchLoop E users messageText delay w) = Ok results /\
    Permutation (success results ++ map user (failed results)) users.
Proof.
  rewrite batchLoop_replay.
  destruct (replay_results E messageText delay users {| success := []; failed := [] |} w)
    as (oks & fails & Heq & Hperm).
  destruct (replay E messageText delay users _ w) as [[results t] w'].
  cbn in Heq. subst results. eexists. split; [reflexivity|]. exact Hperm.
Qed.

(** The trace of the loop is the attempts of the targets, in order,
    separated by the pacing delay; the delay is awaited [users.length - 1]
    times (no time for an empty list) and the trace does not end with it. *)
Lemma pacing_between_targets users messageText delay w :
  exists segments,
    Forall2 (attempt_of E messageText) users segments /\
    Forall (Forall (fun ev => is_pace ev = false)) segments /\
    trace (batchLoop E users messageText delay w) =
      interleave (Done (Pace delay)) segments /\
    pauses (trace (batchLoop E users messageText delay w)) = (length users - 1)%nat.
Proof.
  destruct (batchLoop_trace users messageText delay w) as (segments & Hall & Htrace).
  assert (Hquiet : Forall (Forall (fun ev => is_pace ev = false)) segments).
  { clear Htrace. induction Hall as [|u seg us segs Hu _ IH]; constructor.
    - eapply attempt_has_no_pause, Hu.
    - exact IH. }
  exists segments. repeat split; try assumption.
  rewrite Htrace, (pauses_interleave _ _ Hquiet).
  rewrite (Forall2_length _ _ _ Hall). reflexivity.
Qed.

End Batch.


(** ** The users file *)

Module TargetListFacts.
Import Js TargetList.

Lemma append_cons c s t : String c s +:+ t = String c (s +:+ t).
Proof. reflexivity. Qed.

Lemma split_not_nil sep s : split sep s <> [].
Proof.
  destruct s as [|c rest]; cbn; [discriminate|].
  destruct (Ascii.eqb c sep); [discriminate|].
  destruct (split sep rest); discriminate.
Qed.

Lemma join_cons line next more :
  join (line :: next :: more) = line +:+ String "010" (join (next :: more)).
Proof. reflexivity. Qed.

Lemma join_split s : join (split "010" s) = s.
Proof.
  induction s as [|c rest IH]; [reflexivity|].
  cbn [split]. destruct (Ascii.eqb_spec c "010") as [->|Hc].
  - pose proof (split_not_nil "010" rest) as Hne.
    destruct (split "010" rest) as [|l ls]; [contradiction|].
    rewrite join_cons, IH. reflexivity.
  - pose proof (split_not_nil "010" rest) as Hne.
    destruct (split "010" rest) as [|l ls]; [contradiction|].
    destruct ls as [|l2 ls].
    + cbn in *. rewrite IH. reflexivity.
    + rewrite join_cons in *. rewrite <- IH. reflexivity.
Qed.

Lemma split_no_newline s : Forall no_newline (split "010" s).
Proof.
  induction s as [|c rest IH]; [repeat constructor|].
  cbn [split]. destruct (Ascii.eqb_spec c "010") as [->|Hc].
  - constructor; [reflexivity | exact IH].
  - destruct (split "010" rest) as [|l ls]; [repeat constructor|].
    + unfold no_newline, is_newline. cbn.
      destruct (Ascii.eqb_spec c "010"); [contradiction | reflexivity].
    + inversion IH; subst. constructor; [|assumption].
      unfold no_newline, is_newline in *. cbn.
      destruct (Ascii.eqb_spec c "010"); [contradiction | assumption].
Qed.

Lemma split_line line : no_newline line -> split "010" line = [line].
Proof.
  unfold no_newline, is_newline.
  induction line as [|c rest IH]; [reflexivity|]. cbn.
  destruct (Ascii.eqb c "010"); [discriminate|]. cbn. intros H.
  rewrite (IH H). reflexivity.
Qed.

Lemma split_line_newline line rest :
  no_newline line -> split "010" (line +:+ String "010" rest) = line :: split "010" rest.
Proof.
  unfold no_newline, is_newline.
  induction line as [|c line IH]; [reflexivity|]. rewrite append_cons. cbn.
  destruct (Ascii.eqb c "010"); [discriminate|]. cbn. intros H.
  rewrite (IH H). reflexivity.
Qed.

Lemma split_join lines :
  lines <> [] -> Forall no_newline lines -> split "010" (join lines) = lines.
Proof.
  induction lines as [|line more IH]; [contradiction|].
  intros _ Hall. inversion Hall as [|? ? Hline Hmore]; subst.
  destruct more as [|next more].
  - apply split_line, Hline.
  - rewrite join_cons, split_line_newline by exact Hline.
    rewrite IH; [reflexivity | discriminate | exact Hmore].
Qed.

Lemma Lines_unique data lines : Lines data lines <-> lines = split "010" data.
Proof.
  split.
  - intros (Hne & Hjoin & Hall). subst data. symmetry. apply split_join; assumption.
  - intros ->. split; [apply split_not_nil|]. split; [apply join_split|].
    apply split_no_newline.
Qed.

(** *** Trimming *)

Lemma append_nil s : EmptyString +:+ s = s.
Proof. reflexivity. Qed.

Lemma trimStart_spec s :
  exists before,
    s = before +:+ trimStart s /\ all_chars is_whitespace before = true /\
    (forall c, first_char (trimStart s) = Some c -> is_whitespace c = false).
Proof.
  induction s as [|c rest (before & Heq & Hws & Hfirst)].
  - exists EmptyString. repeat split. discriminate.
  - cbn [trimStart]. destruct (is_whitespace c) eqn:Hc.
    + exists (String c before). rewrite append_cons, <- Heq. cbn [all_chars].
      rewrite Hc, Hws. repeat split. exact Hfirst.
    + exists EmptyString. repeat split. cbn. intros c' [= <-]. exact Hc.
Qed.

Lemma trimEnd_spec s :
  exists after,
    s = trimEnd s +:+ after /\ all_chars is_whitespace after = true /\
    (forall c, last_char (trimEnd s) = Some c -> is_whitespace c = false) /\
    (forall c, first_char (trimEnd s) = Some c -> first_char s = Some c).
Proof.
  induction s as [|c rest (after & Heq & Hws & Hlast & Hfirst)].
  - exists EmptyString. repeat split; discriminate.
  - cbn [trimEnd]. destruct (trimEnd rest) as [|c' t] eqn:Ht.
    + rewrite append_nil in Heq. subst after.
      destruct (is_whitespace c) eqn:Hc.
      * exists (String c rest). rewrite append_nil. cbn [all_chars]. rewrite Hc, Hws.
        repeat split; discriminate.
      * exists rest. rewrite append_cons, append_nil.
        repeat split; [assumption | |].
        -- intros c0 [= <-]. exact Hc.
        -- intros c0 H. exact H.
    + exists after. rewrite append_cons, <- Heq. repeat split; [assumption | |].
      * intros c0 H. apply Hlast. exact H.
      * intros c0 H. exact H.
Qed.

Lemma trim_Trimmed line : Trimmed line (trim line).
Proof.
  unfold trim.
  destruct (trimStart_spec line) as (before & Heq & Hbefore & Hfirst).
  destruct (trimEnd_spec (trimStart line)) as (after & Heq' & Hafter & Hlast & Hkeep).
  exists before, after. split; [|repeat split; try assumption].
  - rewrite <- Heq'. exact Heq.
  - intros c Hc. apply Hfirst, Hkeep, Hc.
Qed.

Lemma trimStart_whitespace before s :
  all_chars is_whitespace before = true -> trimStart (before +:+ s) = trimStart s.
Proof.
  induction before as [|c before IH]; [reflexivity|]. rewrite append_cons. cbn.
  destruct (is_whitespace c); [|discriminate]. cbn. exact IH.
Qed.

Lemma trimStart_id s :
  (forall c, first_char s = Some c -> is_whitespace c = false) -> trimStart s = s.
Proof.
  destruct s as [|c rest]; [reflexivity|]. cbn. intros H.
  rewrite (H c eq_refl). reflexivity.
Qed.

Lemma trimEnd_whitespace after : all_chars is_whitespace after = true ->
  trimEnd after = EmptyString.
Proof.
  induction after as [|c after IH]; [reflexivity|]. cbn.
  destruct (is_whitespace c); [|discriminate]. cbn. intros H. rewrite (IH H). reflexivity.
Qed.

Lemma trimEnd_app t after :
  all_chars is_whitespace after = true ->
  (forall c, last_char t = Some c -> is_whitespace c = false) ->
  trimEnd (t +:+ after) = t.
Proof.
  intros Hafter. induction t as [|c t IH]; intros Hlast.
  - apply trimEnd_whitespace, Hafter.
  - rewrite append_cons. cbn [trimEnd]. destruct t as [|c' t].
    + rewrite append_nil, (trimEnd_whitespace _ Hafter).
      rewrite (Hlast c eq_refl). reflexivity.
    + rewrite IH; [reflexivity|]. intros c0 H. apply Hlast. exact H.
Qed.

Lemma Trimmed_unique line t : Trimmed line t <-> t = trim line.
Proof.
  split; [|intros ->; apply trim_Trimmed].
  intros (before & after & -> & Hbefore & Hafter & Hfirst & Hlast).
  unfold trim. rewrite trimStart_whitespace by exact Hbefore.
  destruct t as [|c t].
  - rewrite append_nil.
    assert (Hws : all_chars is_whitespace (trimStart after) = true).
    { clear -Hafter. induction after as [|c after IH]; [reflexivity|].
      cbn in *. destruct (is_whitespace c); [|discriminate]. apply IH, Hafter. }
    rewrite (trimEnd_whitespace _ Hws). reflexivity.
  - rewrite trimStart_id.
    + symmetry. apply trimEnd_app; assumption.
    + cbn. intros c0 [= <-]. apply Hfirst. reflexivity.
Qed.

(** *** Blank lines and comments *)

Lemma startsWith_hash t : startsWith t "#" = true <-> is_comment t.
Proof.
  unfold startsWith, is_comment. destruct t as [|c rest].
  - split; discriminate.
  - change (String.prefix "#" (String c rest))
      with (if ascii_dec "#" c then String.prefix EmptyString rest else false).
    cbn [first_char].
    destruct (ascii_dec "#" c) as [<-|Hne].
    + destruct rest; split; reflexivity.
    + split; [discriminate | intros [= H]; congruence].
Qed.

Lemma Targets_parse lines :
  Targets lines
    (filter (fun line => negb (is_empty line) && negb (startsWith line "#") = true)
            (map trim lines)).
Proof.
  induction lines as [|line lines IH]; [constructor|].
  cbn [map]. rewrite filter_cons.
  pose proof (trim_Trimmed line) as Htrim.
  destruct (trim line) as [|c t] eqn:Ht.
  - cbn. destruct (decide _) as [H|_]; [discriminate H|].
    apply targets_blank; assumption.
  - destruct (startsWith (String c t) "#") eqn:Hhash.
    + cbn [is_empty negb andb]. destruct (decide _) as [H|_]; [discriminate H|].
      eapply targets_comment; [exact Htrim | apply startsWith_hash, Hhash | exact IH].
    + cbn [is_empty negb andb]. destruct (decide _) as [_|H]; [|contradiction].
      eapply targets_keep; [exact Htrim | discriminate | | exact IH].
      intros Hc. apply startsWith_hash in Hc. congruence.
Qed.

Lemma Targets_unique lines targets :
  Targets lines targets ->
  targets = filter (fun line => negb (is_empty line) && negb (startsWith line "#") = true)
                   (map trim lines).
Proof.
  induction 1 as [|line lines targets Ht _ IH|line t lines targets Ht Hc _ IH
                  |line t lines targets Ht Hne Hc _ IH];
    [reflexivity| | |]; cbn [map]; rewrite filter_cons;
    apply Trimmed_unique in Ht; rewrite <- Ht.
  - cbn. destruct (decide _) as [H|_]; [discriminate H | exact IH].
  - apply startsWith_hash in Hc. rewrite Hc, andb_false_r.
    destruct (decide _) as [H|_]; [discriminate H | exact IH].
  - assert (Hs : startsWith t "#" = false).
    { destruct (startsWith t "#") eqn:Hs; [|reflexivity].
      apply startsWith_hash in Hs. contradiction. }
    rewrite Hs. destruct t; [contradiction|]. cbn.
    destruct (decide _) as [_|H]; [|contradiction]. rewrite IH. reflexivity.
Qed.

End TargetListFacts.

Section Order.
Context {W : Type} (E : Env W).

Lemma saveResults_stays data prefix :
  within (fun ev => is_profile_visit ev = false /\ is_pace ev = false) (fun _ => True)
    (saveResults E data prefix).
Proof. unfold saveResults. within_auto ltac:(first [exact I | split; reflexivity]). Qed.

(** The batch run after a successful login: the attempts of the targets in
    the order of the list, then the result file and the close. *)
Lemma batch_run_trace username password usersFile messageText options w w1 t0 w2 b t1 w3 :
  respond E (ReadFile usersFile) w = (None, w1) ->
  initBrowser E (<[ "headless" := JBool (not_false (prop options "headless")) ]>
                 (<[ "proxy" := prop options "proxy" ]> ∅)) w1 = (Ok tt, t0, w2) ->
  loginToReddit E username password
    {[ "captchaApiKey" := prop options "captchaApiKey" ]} w2 = (Ok b, t1, w3) ->
  exists segments tail,
    Forall2 (attempt_of E messageText) (parseUsers (file_data E w1)) segments /\
    trace (processOptimizedBatch E username password usersFile messageText options w) =
      Done (ReadFile usersFile) :: t0 ++ t1 ++
      interleave (Done (Pace (js_or (prop options "delay") (JNum 30000)))) segments ++ tail /\
    Forall (fun ev => is_profile_visit ev = false /\ is_pace ev = false) tail.
Proof.
  intros Hread Hinit Hlogin. unfold processOptimizedBatch.
  erewrite bind_ok by (apply call_done; eassumption).
  erewrite bind_ok by reflexivity.
  erewrite bind_ok by eassumption.
  set (users := parseUsers (file_data E w1)).
  set (delay := js_or (prop options "delay") (JNum 30000)).
  match goal with
  | |- context [try_finally ?m _ ?w0] =>
      destruct (try_finally_close E m w0 _ _ _ (triple_eta _))
        as (ev & r' & w5 & Hrun & Hclose & _)
  end.
  rewrite Hrun. clear Hrun. rewrite try_catch_rethrow.
  erewrite bind_ok by eassumption.
  destruct (batchLoop_results E users messageText delay w3) as (results & Hok & _).
  destruct (batchLoop_trace E users messageText delay w3) as (segments & Hall & Htrace).
  erewrite (bind_ok (batchLoop E users messageText delay))
    by (rewrite (triple_eta (batchLoop E users messageText delay w3)), Hok; reflexivity).
  rewrite Htrace.
  set (saved := bind (saveResults E (BatchReport results) "batch") (fun _ => ret results)
                  (final (batchLoop E users messageText delay w3))).
  exists segments, (trace saved ++ [ev]). split; [exact Hall|]. split.
  - rewrite !trace_prepend. cbn. rewrite <- !app_assoc. reflexivity.
  - apply Forall_app. split.
    + apply (within_bind (fun ev => is_profile_visit ev = false /\ is_pace ev = false)
               (fun _ => True)).
      * apply saveResults_stays.
      * intros. apply within_ret.
    + repeat constructor; destruct ev as [[]|[]]; try discriminate Hclose; reflexivity.
Qed.

(** The pauses of a whole batch run are those of its loop. *)
Lemma batch_run_pauses username password usersFile messageText options w w1 t0 w2 b t1 w3 :
  respond E (ReadFile usersFile) w = (None, w1) ->
  initBrowser E (<[ "headless" := JBool (not_false (prop options "headless")) ]>
                 (<[ "proxy" := prop options "proxy" ]> ∅)) w1 = (Ok tt, t0, w2) ->
  loginToReddit E username password
    {[ "captchaApiKey" := prop options "captchaApiKey" ]} w2 = (Ok b, t1, w3) ->
  pauses (trace (processOptimizedBatch E username password usersFile messageText options w))
  = (length (parseUsers (file_data E w1)) - 1)%nat.
Proof.
  intros Hread Hinit Hlogin.
  destruct (batch_run_trace username password usersFile messageText options
              w w1 t0 w2 b t1 w3 Hread Hinit Hlogin)
    as (segments & tail & Hall & -> & Htail).
  assert (Hsegments : Forall (Forall (fun ev => is_pace ev = false)) segments).
  { clear -Hall. induction Hall as [|u seg us segs Hu _ IH]; constructor.
    - eapply attempt_has_no_pause, Hu.
    - exact IH. }
  assert (Ht0 : Forall (fun ev => is_pace ev = false) t0).
  { match type of Hinit with initBrowser E ?o w1 = _ =>
      pose proof (proj1 (initBrowser_quiet E o w1)) as Hq; rewrite Hinit in Hq end.
    eapply Forall_impl; [exact Hq | intros ev [_ H]; exact H]. }
  assert (Ht1 : Forall (fun ev => is_pace ev = false) t1).
  { match type of Hlogin with loginToReddit E ?u ?p ?o w2 = _ =>
      pose proof (proj1 (loginToReddit_quiet E u p o w2)) as Hq; rewrite Hlogin in Hq end.
    eapply Forall_impl; [exact Hq | intros ev [_ H]; exact H]. }
  assert (Htail' : Forall (fun ev => is_pace ev = false) tail).
  { eapply Forall_impl; [exact Htail | intros ev [_ H]; exact H]. }
  change (Done (ReadFile usersFile) :: ?t) with ([Done (ReadFile usersFile)] ++ t).
  rewrite !pauses_app, (pauses_none _ Ht0), (pauses_none _ Ht1), (pauses_none _ Htail').
  rewrite (pauses_interleave _ _ Hsegments), (Forall2_length _ _ _ Hall).
  cbn. lia.
Qed.

End Order.

(** C6. For every batch of K targets the pacing delay is awaited K-1 times
    (no time when the list is empty), between the attempts of two
    consecutive targets and not after the last one, whether the attempts
    succeed or fail; the same count holds for the whole run once the login
    has succeeded.  On the fixture site, where A and C can be messaged and B
    does not exist, the run records A and C as successes and B as the
    failure, and pauses twice: after A and after B. *)
Theorem pacing_delay_between_targets_only :
  (forall W (E : Env W) users messageText delay w,
     exists segments,
       Forall2 (attempt_of E messageText) users segments /\
       Forall (Forall (fun ev => is_pace ev = false)) segments /\
       trace (batchLoop E users messageText delay w) =
         interleave (Done (Pace delay)) segments /\
       pauses (trace (batchLoop E users messageText delay w)) = (length users - 1)%nat) /\
  (forall W (E : Env W) username password usersFile messageText options
          w w1 t0 w2 b t1 w3,
     respond E (ReadFile usersFile) w = (None, w1) ->
     initBrowser E (<[ "headless" := JBool (not_false (prop options "headless")) ]>
                    (<[ "proxy" := prop options "proxy" ]> ∅)) w1 = (Ok tt, t0, w2) ->
     loginToReddit E username password
       {[ "captchaApiKey" := prop options "captchaApiKey" ]} w2 = (Ok b, t1, w3) ->
     pauses (trace (processOptimizedBatch E username password usersFile messageText
                      options w))
     = (length (parseUsers (file_data E w1)) - 1)%nat) /\
  (let run :=
     processOptimizedBatch (Scripted.env Scripted.fixture) "me" "secret" "users.txt" "Hello" ∅
       Scripted.home_url in
   outcome run =
     Ok {| success := ["A"; "C"];
           failed := [ {| user := "B"; error := "User B not found";
                          timestamp := "2024-05-01T10:00:00.000Z" |} ] |} /\
   pauses (trace run) = 2%nat /\
   List.filter (fun ev => is_pace ev || is_profile_visit ev) (trace run) =
     [ Done (Goto (profile_url "A")); Done (Pace (JNum 30000));
       Done (Goto (profile_url "B")); Done (Pace (JNum 30000));
       Done (Goto (profile_url "C")) ]).
Proof.
  split; [|split].
  - intros. apply pacing_between_targets.
  - intros. eapply batch_run_pauses; eassumption.
  - vm_compute. repeat split.
Qed.

(** C9. The parsed target list is the list the words describe: the
    newline-delimited lines of the file, each without its surrounding
    whitespace, in order, without the blank lines and the comments -- and it
    is the only such list.  The batch run attempts the targets in the order
    of that list, each attempt starting at the profile of its target. *)
Theorem parsed_targets_follow_the_file :
  (forall data,
     (exists lines,
        TargetList.Lines data lines /\ TargetList.Targets lines (parseUsers data)) /\
     (forall lines targets,
        TargetList.Lines data lines -> TargetList.Targets lines targets ->
        targets = parseUsers data)) /\
  (forall W (E : Env W) username password usersFile messageText options
          w w1 t0 w2 b t1 w3,
     respond E (ReadFile usersFile) w = (None, w1) ->
     initBrowser E (<[ "headless" := JBool (not_false (prop options "headless")) ]>
                    (<[ "proxy" := prop options "proxy" ]> ∅)) w1 = (Ok tt, t0, w2) ->
     loginToReddit E username password
       {[ "captchaApiKey" := prop options "captchaApiKey" ]} w2 = (Ok b, t1, w3) ->
     exists segments tail,
       Forall2
         (fun targetUser segment =>
            attempt_of E messageText targetUser segment /\
            exists reply rest,
              segment = replied (Goto (profile_url targetUser)) reply :: rest)
         (parseUsers (file_data E w1)) segments /\
       trace (processOptimizedBatch E username password usersFile messageText options w) =
         Done (ReadFile usersFile) :: t0 ++ t1 ++
         interleave (Done (Pace (js_or (prop options "delay") (JNum 30000)))) segments ++
         tail /\
       Forall (fun ev => is_profile_visit ev = false) tail).
Proof.
  split.
  - intros data. split.
    + exists (Js.split "010" data). split.
      * apply TargetListFacts.Lines_unique. reflexivity.
      * apply TargetListFacts.Targets_parse.
    + intros lines targets Hlines Htargets.
      apply TargetListFacts.Lines_unique in Hlines. subst lines.
      apply TargetListFacts.Targets_unique, Htargets.
  - intros W E username password usersFile messageText options w w1 t0 w2 b t1 w3
           Hread Hinit Hlogin.
    destruct (batch_run_trace E username password usersFile messageText options
                w w1 t0 w2 b t1 w3 Hread Hinit Hlogin)
      as (segments & tail & Hall & Htrace & Htail).
    exists segments, tail. split; [|split; [exact Htrace|]].
    + eapply Forall2_impl; [exact Hall|].
      intros targetUser segment Hseg. split; [exact Hseg|].
      eapply attempt_starts_at_profile, Hseg.
    + eapply Forall_impl; [exact Htail | intros ev [H _]; exact H].
Qed.

(** ** The default solving key *)

Lemma default_captchaApiKey :
  DEFAULT_CONFIG !! "captchaApiKey" = Some (JStr "YOUR_CAPTCHA_API_KEY_HERE").
Proof. reflexivity. Qed.

Lemma merged_captchaApiKey config :
  prop (spread DEFAULT_CONFIG config) "captchaApiKey" =
  match config !! "captchaApiKey" with
  | Some v => v
  | None => JStr "YOUR_CAPTCHA_API_KEY_HERE"
  end.
Proof.
  unfold prop, spread. destruct (config !! "captchaApiKey") as [v|] eqn:Hkey.
  - erewrite lookup_union_Some_l by eassumption. reflexivity.
  - rewrite lookup_union_r by assumption. rewrite default_captchaApiKey. reflexivity.
Qed.

Section Solver.
Context {W : Type} (E : Env W).

Lemma loginToReddit_with_solver username password options :
  truthy (prop options "captchaApiKey") = true ->
  within (fun _ => True) not_hard_stop (loginToReddit E username password options).
Proof.
  intros Hkey. unfold loginToReddit, newSolver. rewrite Hkey.
  within_step.
  - within_step; [apply submitCredentials_no_hard_stop|].
    within_step; [apply handleCaptchaIfPresent_solver|].
    within_step; [apply verifyLoginSuccess_no_hard_stop|].
    within_auto hard_stop_side.
  - within_auto hard_stop_side.
Qed.

Lemma redditMessenger_with_solver username password targetUser messageText config :
  truthy (prop (spread DEFAULT_CONFIG config) "captchaApiKey") = true ->
  within (fun _ => True) not_hard_stop
    (redditMessenger E username password targetUser messageText config).
Proof.
  intros Hkey. unfold redditMessenger.
  within_step.
  - within_step.
    + unfold initBrowser. within_auto hard_stop_side.
    + apply report_failure_no_hard_stop. assumption.
  - within_step; [|within_auto hard_stop_side].
    within_step; [|apply report_failure_no_hard_stop; assumption].
    within_step.
    { apply loginToReddit_with_solver. unfold prop at 1.
      rewrite lookup_singleton_eq. exact Hkey. }
    within_step; [apply sendMessageToUser_no_hard_stop|].
    within_step; [within_step|].
    within_step; [apply saveResults_no_hard_stop | apply within_ret].
Qed.

End Solver.

(** C10. A [config] without a [captchaApiKey] property leaves the
    placeholder of [DEFAULT_CONFIG] in the merged options; it is truthy, so
    [loginToReddit] builds a solver and no run of [redditMessenger] ends
    with the error of the branch without solver.  A run that does end with
    that error was given a [captchaApiKey] property with a falsy value. *)
Theorem default_key_rules_out_the_hard_stop :
  (forall config,
     config !! "captchaApiKey" = None ->
     prop (spread DEFAULT_CONFIG config) "captchaApiKey" = JStr "YOUR_CAPTCHA_API_KEY_HERE" /\
     truthy (prop (spread DEFAULT_CONFIG config) "captchaApiKey") = true /\
     newSolver {[ "captchaApiKey" := prop (spread DEFAULT_CONFIG config) "captchaApiKey" ]} =
       Some {| apikey := JStr "YOUR_CAPTCHA_API_KEY_HERE" |} /\
     forall W (E : Env W) username password targetUser messageText w,
       outcome (redditMessenger E username password targetUser messageText config w)
         <> Err (Thrown no_solver_message)) /\
  (forall W (E : Env W) username password targetUser messageText config w,
     outcome (redditMessenger E username password targetUser messageText config w)
       = Err (Thrown no_solver_message) ->
     exists v, config !! "captchaApiKey" = Some v /\ truthy v = false).
Proof.
  split.
  - intros config Hkey.
    pose proof (merged_captchaApiKey config) as Hmerged. rewrite Hkey in Hmerged.
    rewrite Hmerged. split; [reflexivity|]. split; [reflexivity|]. split.
    + unfold newSolver, prop. rewrite lookup_singleton_eq. reflexivity.
    + intros W E username password targetUser messageText w Hout.
      eapply (redditMessenger_with_solver E username password targetUser messageText config);
        [rewrite Hmerged; reflexivity | exact Hout | reflexivity].
  - intros W E username password targetUser messageText config w Hout.
    pose proof (merged_captchaApiKey config) as Hmerged.
    destruct (config !! "captchaApiKey") as [v|] eqn:Hkey.
    + exists v. split; [reflexivity|].
      destruct (truthy v) eqn:Hv; [|reflexivity]. exfalso.
      eapply (redditMessenger_with_solver E username password targetUser messageText config);
        [rewrite Hmerged; exact Hv | exact Hout | reflexivity].
    + exfalso.
      eapply (redditMessenger_with_solver E username password targetUser messageText config);
        [rewrite Hmerged; reflexivity | exact Hout | reflexivity].
Qed.

(** ** Concrete runs *)

Module Runs.
Import Scripted.

(** The missing target B of the fixture fails after the status script. *)
Lemma missing_target_run :
  (respond (env fixture) (Goto (profile_url "B")) home_url = (None, profile_url "B") /\
   respond (env fixture) (Evaluate UserStatus) (profile_url "B") = (None, profile_url "B") /\
   Scripts.userStatus (document (env fixture) (profile_url "B")) = "not_found") /\
  sendMessageToUser (env fixture) "B" "Hello" home_url =
    (Err (Thrown "User B not found"),
     [Done (Goto (profile_url "B")); Done (Evaluate UserStatus)],
     profile_url "B").
Proof.
  split; [repeat split; vm_compute; reflexivity|].
  apply (proj1 (proj1 (unavailable_target_fails_before_chat_lookup
                         (env fixture) "B" "Hello" home_url)
                  (profile_url "B") (profile_url "B") eq_refl eq_refl
                  ltac:(left; vm_compute; reflexivity))).
Defined.

(** A visible challenge without solver stops the login. *)
Lemma challenge_run :
  (respond (env (stuck_on_login true)) (Evaluate CaptchaRequired) login_url
     = (None, login_url) /\
   Scripts.captchaRequired (document (env (stuck_on_login true)) login_url) = true /\
   truthy (prop no_options "captchaApiKey") = false /\
   submitCredentials (env (stuck_on_login true)) "me" "secret" home_url
     = (Ok tt, submitted "me" "secret", login_url)) /\
  handleCaptchaIfPresent (env (stuck_on_login true)) None login_url =
    (Err (Thrown no_solver_message), [Done (Evaluate CaptchaRequired)], login_url) /\
  loginToReddit (env (stuck_on_login true)) "me" "secret" no_options home_url =
    (Err (Thrown no_solver_message),
     submitted "me" "secret" ++ [Done (Evaluate CaptchaRequired)], login_url).
Proof.
  split; [repeat split; vm_compute; reflexivity|].
  pose proof (challenge_without_solver_is_fatal (env (stuck_on_login true))
                login_url login_url eq_refl ltac:(vm_compute; reflexivity))
    as (Hstop & Hlogin & _).
  split; [exact Hstop|].
  apply (Hlogin "me" "secret" no_options home_url (submitted "me" "secret"));
    vm_compute; reflexivity.
Defined.

(** The login page that stays: both checks are inconclusive. *)
Lemma inconclusive_run :
  (respond (env (stuck_on_login false)) WaitForNavigation login_url = (None, login_url) /\
   respond (env (stuck_on_login false)) (Evaluate LoginIndicators) login_url
     = (None, login_url) /\
   urlIndicatesSuccess (page_url (env (stuck_on_login false)) login_url) ||
     Scripts.loginSuccess (document (env (stuck_on_login false)) login_url) = false /\
   respond (env (stuck_on_login false)) (Evaluate RetryVerification)
     (respond (env (stuck_on_login false)) (Sleep 3000) login_url).2 = (None, login_url) /\
   Scripts.quickCheck (document (env (stuck_on_login false)) login_url) = false) /\
  verifyLoginSuccess (env (stuck_on_login false)) login_url =
    (Ok true,
     [Done WaitForNavigation; Done (Evaluate LoginIndicators);
      Done (Sleep 3000); Done (Evaluate RetryVerification)],
     login_url).
Proof.
  split; [repeat split|].
  apply (proj1 (inconclusive_verification_is_success (env (stuck_on_login false))
                  login_url None login_url login_url login_url eq_refl eq_refl
                  ltac:(vm_compute; reflexivity) eq_refl ltac:(vm_compute; reflexivity))).
Defined.


(** The single-message run on the fixture closes the browser last. *)
Lemma closing_run :
  (initBrowser (env fixture) (spread DEFAULT_CONFIG no_options) home_url
     = (Ok tt, launched (JBool false), home_url) /\
   respond (env login_unreachable) (ReadFile "users.txt") home_url = (None, home_url) /\
   initBrowser (env login_unreachable) (batch_browser_options no_options) home_url
     = (Ok tt, launched (JBool true), home_url)) /\
  (exists t ev,
     trace (redditMessenger (env fixture) "me" "secret" "B" "Hello" no_options home_url)
       = launched (JBool false) ++ t ++ [ev] /\
     is_close ev = true /\
     Forall (fun x => is_close x = false) (launched (JBool false) ++ t)) /\
  (exists t ev,
     trace (processOptimizedBatch (env login_unreachable) "me" "secret" "users.txt" "Hello"
              no_options home_url)
       = Done (ReadFile "users.txt") :: launched (JBool true) ++ t ++ [ev] /\
     is_close ev = true /\
     Forall (fun x => is_close x = false)
       (Done (ReadFile "users.txt") :: launched (JBool true) ++ t)).
Proof.
  split; [repeat split; vm_compute; reflexivity|]. split.
  - apply (proj1 (browser_closed_after_setup (env fixture))
             "me" "secret" "B" "Hello" no_options home_url
             (launched (JBool false)) home_url ltac:(vm_compute; reflexivity)).
  - apply (proj2 (browser_closed_after_setup (env login_unreachable))
             "me" "secret" "users.txt" "Hello" no_options home_url home_url
             (launched (JBool true)) home_url eq_refl ltac:(vm_compute; reflexivity)).
Defined.

(** The batch run on the fixture visits A, B and C in the order of the
    file. *)
Lemma ordered_run :
  (respond (env fixture) (ReadFile "users.txt") home_url = (None, home_url) /\
   initBrowser (env fixture) (batch_browser_options no_options) home_url
     = (Ok tt, launched (JBool true), home_url) /\
   loginToReddit (env fixture) "me" "secret" (login_options no_options)
     home_url =
     (Ok true,
      submitted "me" "secret" ++
      [Done (Evaluate CaptchaRequired); Done WaitForNavigation;
       Done (Evaluate LoginIndicators)],
      home_url)) /\
  parseUsers (file_data (env fixture) home_url) = ["A"; "B"; "C"] /\
  (forall targets,
     TargetList.Targets (Js.split "010" (file_data (env fixture) home_url)) targets ->
     targets = ["A"; "B"; "C"]) /\
  exists segments tail,
    Forall2
      (fun targetUser segment =>
         attempt_of (env fixture) "Hello" targetUser segment /\
         exists reply rest,
           segment = replied (Goto (profile_url targetUser)) reply :: rest)
      (parseUsers (file_data (env fixture) home_url)) segments /\
    trace (processOptimizedBatch (env fixture) "me" "secret" "users.txt" "Hello" no_options home_url) =
      Done (ReadFile "users.txt") :: launched (JBool true) ++
      (submitted "me" "secret" ++
       [Done (Evaluate CaptchaRequired); Done WaitForNavigation;
        Done (Evaluate LoginIndicators)]) ++
      interleave (Done (Pace (js_or (prop no_options "delay") (JNum 30000)))) segments ++ tail /\
    Forall (fun ev => is_profile_visit ev = false) tail.
Proof.
  split; [repeat split; vm_compute; reflexivity|]. split; [vm_compute; reflexivity|].
  split.
  { intros targets Htargets.
    apply (proj2 (proj1 parsed_targets_follow_the_file (file_data (env fixture) home_url))
             (Js.split "010" (file_data (env fixture) home_url)) targets);
      [|exact Htargets].
    split; [discriminate|]. split; [reflexivity|]. repeat constructor. }
  apply (proj2 parsed_targets_follow_the_file string (env fixture)
           "me" "secret" "users.txt" "Hello" no_options home_url home_url
           (launched (JBool true)) home_url true _ home_url
           eq_refl ltac:(vm_compute; reflexivity) ltac:(vm_compute; reflexivity)).
Defined.

(** The batch run on the fixture pauses twice. *)
Lemma paced_run :
  (respond (env fixture) (ReadFile "users.txt") home_url = (None, home_url) /\
   initBrowser (env fixture) (batch_browser_options no_options) home_url
     = (Ok tt, launched (JBool true), home_url) /\
   loginToReddit (env fixture) "me" "secret" (login_options no_options) home_url =
     (Ok true,
      submitted "me" "secret" ++
      [Done (Evaluate CaptchaRequired); Done WaitForNavigation;
       Done (Evaluate LoginIndicators)],
      home_url)) /\
  pauses (trace (processOptimizedBatch (env fixture) "me" "secret" "users.txt" "Hello"
                   no_options home_url))
  = (length (parseUsers (file_data (env fixture) home_url)) - 1)%nat.
Proof.
  split; [repeat split; vm_compute; reflexivity|].
  apply (proj1 (proj2 pacing_delay_between_targets_only) string (env fixture)
           "me" "secret" "users.txt" "Hello" no_options home_url home_url
           (launched (JBool true)) home_url true _ home_url
           eq_refl ltac:(vm_compute; reflexivity) ltac:(vm_compute; reflexivity)).
Defined.

(** With an explicit [null] key the challenge stops the single-message run;
    with the default key it does not. *)
Lemma explicit_null_key_run :
  (no_options !! "captchaApiKey" = None /\
   outcome (redditMessenger (env (stuck_on_login true)) "me" "secret" "A" "Hello"
              null_key home_url)
     = Err (Thrown no_solver_message)) /\
  outcome (redditMessenger (env (stuck_on_login true)) "me" "secret" "A" "Hello"
             no_options home_url)
    <> Err (Thrown no_solver_message) /\
  exists v,
    null_key !! "captchaApiKey" = Some v /\
    truthy v = false.
Proof.
  split; [split; vm_compute; reflexivity|].
  split; [apply (proj1 default_key_rules_out_the_hard_stop no_options eq_refl)|].
  apply (proj2 default_key_rules_out_the_hard_stop string (env (stuck_on_login true))
           "me" "secret" "A" "Hello" null_key home_url
           ltac:(vm_compute; reflexivity)).
Defined.

End Runs.

(** * Further properties of the code *)

(** ** The DOM check of [verifyLoginSuccess] *)

Module ScriptFacts.
Import Js Scripts.

Lemma loginSuccess_indicators (i : Indicators) :
  strongIndicators i || likelySuccess i || (3 <=? positiveIndicators i)%nat =
  strongIndicators i || (noLoginForm i && noLoginPage i) ||
  ((noLoginForm i || noLoginPage i) && createButton i).
Proof.
  destruct i as [[] [] [] [] [] [] [] [] []]; vm_compute; reflexivity.
Qed.

(** X3. The two negative entries of the indicator table count as positive ones:
    the DOM check is the disjunction of a strong indicator, the absence of
    both login markers, and the absence of one of them together with the
    create button; the clause on three positive indicators adds nothing.  A
    page showing neither login marker passes without any sign of a user. *)
Theorem loginSuccess_formula d :
  (let i := indicators d in
   loginSuccess d =
     strongIndicators i || (noLoginForm i && noLoginPage i) ||
     ((noLoginForm i || noLoginPage i) && createButton i)) /\
  (present d Selectors.login_username = false ->
   present d Selectors.login_form = false ->
   loginSuccess d = true) /\
  (strongIndicators (indicators d) = false ->
   present d Selectors.login_username = true ->
   present d Selectors.login_form = true ->
   loginSuccess d = false).
Proof.
  assert (H : loginSuccess d =
     strongIndicators (indicators d) ||
     (noLoginForm (indicators d) && noLoginPage (indicators d)) ||
     ((noLoginForm (indicators d) || noLoginPage (indicators d)) &&
      createButton (indicators d))).
  { unfold loginSuccess. apply loginSuccess_indicators. }
  split; [exact H|]. split.
  - intros H1 H2. rewrite H. cbn [indicators noLoginForm noLoginPage].
    rewrite H1, H2. cbn. rewrite orb_true_r. reflexivity.
  - intros Hs H1 H2. rewrite H, Hs. cbn [indicators noLoginForm noLoginPage].
    rewrite H1, H2. reflexivity.
Qed.

(** ** The site key of the challenge frame *)

Lemma upto_ampersand_clean s : has_char "&" (upto_ampersand s) = false.
Proof.
  induction s as [|c s IH]; [reflexivity|]. cbn [upto_ampersand].
  destruct (Ascii.eqb c "&") eqn:Hc; [reflexivity|].
  cbn [has_char]. rewrite Hc. exact IH.
Qed.

Lemma match_k_clean s key : match_k s = Some key -> has_char "&" key = false.
Proof.
  induction s as [|c s IH]; [discriminate|]. cbn [match_k].
  destruct (_ && _); [|exact IH].
  intros [= <-]. apply upto_ampersand_clean.
Qed.

Lemma substring_all s : String.substring 0 (String.length s) s = s.
Proof. induction s as [|c s IH]; [reflexivity|]. cbn. rewrite IH. reflexivity. Qed.

Lemma upto_ampersand_key key rest :
  has_char "&" key = false ->
  rest = EmptyString \/ TargetList.first_char rest = Some "&"%char ->
  upto_ampersand (key +:+ rest) = key.
Proof.
  induction key as [|c key IH]; intros Hkey Hrest.
  - rewrite TargetListFacts.append_nil. destruct Hrest as [-> | Hrest]; [reflexivity|].
    destruct rest as [|c rest]; [discriminate|]. cbn in Hrest. injection Hrest as ->.
    reflexivity.
  - rewrite TargetListFacts.append_cons. cbn [upto_ampersand has_char] in *.
    destruct (Ascii.eqb c "&"); [discriminate|]. cbn in Hkey.
    rewrite IH by assumption. reflexivity.
Qed.

Lemma prefix_k_straddle s mark tail :
  is_mark mark = true ->
  String.prefix "k=" s = false ->
  String.prefix "k=" (s +:+ String mark tail) = false.
Proof.
  intros Hmark Hs.
  destruct s as [|a s].
  - rewrite TargetListFacts.append_nil.
    change (String.prefix "k=" (String mark tail))
      with (if ascii_dec "k" mark then String.prefix "=" tail else false).
    destruct (ascii_dec "k" mark) as [<-|]; [discriminate Hmark | reflexivity].
  - rewrite TargetListFacts.append_cons.
    change (String.prefix "k=" (String a (s +:+ String mark tail)))
      with (if ascii_dec "k" a then String.prefix "=" (s +:+ String mark tail) else false).
    change (String.prefix "k=" (String a s))
      with (if ascii_dec "k" a then String.prefix "=" s else false) in Hs.
    destruct (ascii_dec "k" a); [|reflexivity].
    destruct s as [|b s].
    + rewrite TargetListFacts.append_nil.
      change (String.prefix "=" (String mark tail))
        with (if ascii_dec "=" mark then String.prefix EmptyString tail else false).
      destruct (ascii_dec "=" mark) as [<-|]; [discriminate Hmark | reflexivity].
    + rewrite TargetListFacts.append_cons.
      change (String.prefix "=" (String b (s +:+ String mark tail)))
        with (if ascii_dec "=" b then String.prefix EmptyString (s +:+ String mark tail)
              else false).
      change (String.prefix "=" (String b s))
        with (if ascii_dec "=" b then String.prefix EmptyString s else false) in Hs.
      destruct (ascii_dec "=" b); [|reflexivity].
      destruct s; discriminate Hs.
Qed.

Lemma match_k_skip before mark tail :
  is_mark mark = true ->
  match_k before = None ->
  match_k (before +:+ String mark tail) = match_k (String mark tail).
Proof.
  intros Hmark. induction before as [|c before IH]; intros Hnone.
  - reflexivity.
  - rewrite TargetListFacts.append_cons.
    cbn [match_k] in Hnone.
    change (match_k (String c (before +:+ String mark tail)))
      with (if (Ascii.eqb c "?" || Ascii.eqb c "&") &&
               String.prefix "k=" (before +:+ String mark tail)
            then Some (upto_ampersand
                         (String.substring 2
                            (String.length (before +:+ String mark tail) - 2)
                            (before +:+ String mark tail)))
            else match_k (before +:+ String mark tail)).
    destruct (Ascii.eqb c "?" || Ascii.eqb c "&") eqn:Hc; cbn [andb] in *.
    + destruct (String.prefix "k=" before) eqn:Hp; [discriminate Hnone|].
      rewrite (prefix_k_straddle _ _ _ Hmark Hp). apply IH, Hnone.
    + apply IH, Hnone.
Qed.

(** X4. The site key is read back from an address built around it: after an
    address part without a key parameter, the parameter [k] introduced by
    [?] or [&] yields its value up to the next [&], whatever follows. *)
Theorem match_k_round_trip before mark key rest :
  is_mark mark = true ->
  match_k before = None ->
  has_char "&" key = false ->
  rest = EmptyString \/ TargetList.first_char rest = Some "&"%char ->
  match_k (before +:+ String mark ("k=" +:+ key +:+ rest)) = Some key.
Proof.
  intros Hmark Hbefore Hkey Hrest.
  rewrite (match_k_skip _ _ _ Hmark Hbefore).
  change (match_k (String mark ("k=" +:+ key +:+ rest)))
    with (if (Ascii.eqb mark "?" || Ascii.eqb mark "&") &&
             String.prefix "k=" (String "k" (String "=" (key +:+ rest)))
          then Some (upto_ampersand
                       (String.substring 2
                          (String.length (String "k" (String "=" (key +:+ rest))) - 2)
                          (String "k" (String "=" (key +:+ rest)))))
          else match_k (String "k" (String "=" (key +:+ rest)))).
  unfold is_mark in Hmark. rewrite Hmark.
  replace (String.prefix "k=" (String "k" (String "=" (key +:+ rest)))) with true
    by (cbn; destruct (key +:+ rest); reflexivity).
  cbn [andb String.length Nat.sub String.substring].
  rewrite Nat.sub_0_r, substring_all, upto_ampersand_key by assumption. reflexivity.
Qed.

End ScriptFacts.

(** ** The chat address of a profile *)

Module ChatUrlFacts.
Import Js Scripts Selectors.

Lemma first_chat_href_cons d selector more :
  first_chat_href d (selector :: more) =
  match chat_href d selector with
  | Some url => Some url
  | None => first_chat_href d more
  end.
Proof.
  cbn [first_chat_href]. unfold chat_href.
  destruct (querySelector d selector) as [element|]; [|reflexivity].
  destruct (_ && _); reflexivity.
Qed.

Lemma first_chat_href_app d l1 l2 :
  first_chat_href d (l1 ++ l2) =
  match first_chat_href d l1 with
  | Some url => Some url
  | None => first_chat_href d l2
  end.
Proof.
  induction l1 as [|selector l1 IH]; [reflexivity|].
  change ((selector :: l1) ++ l2) with (selector :: (l1 ++ l2)).
  rewrite !first_chat_href_cons, IH. destruct (chat_href d selector); reflexivity.
Qed.

Lemma first_chat_href_none d selectors :
  Forall (fun selector => chat_href d selector = None) selectors ->
  first_chat_href d selectors = None.
Proof.
  induction 1 as [|selector more Hs _ IH]; [reflexivity|].
  rewrite first_chat_href_cons, Hs. exact IH.
Qed.

Lemma chat_href_chat d selector url :
  chat_href d selector = Some url -> includes url "chat.reddit.com" = true.
Proof.
  unfold chat_href. destruct (querySelector d selector) as [element|]; [|discriminate].
  destruct (negb _); [|discriminate]. cbn [andb].
  destruct (includes (href element) "chat.reddit.com") eqn:H; [|discriminate].
  intros [= <-]. exact H.
Qed.

(** X5. The selectors are tried in one fixed order, the specific ones before the
    fallbacks, and the first that yields a chat address decides: what later
    selectors match is not looked at.  Such an answer holds
    [chat.reddit.com]; only when no selector yields one are the links
    scanned for the word chat. *)
Theorem chatUrl_first_match d :
  (forall before selector after url,
     specificChatSelectors ++ fallbackSelectors = before ++ selector :: after ->
     Forall (fun s => chat_href d s = None) before ->
     chat_href d selector = Some url ->
     chatUrl d = Some url /\ includes url "chat.reddit.com" = true) /\
  (Forall (fun s => chat_href d s = None) (specificChatSelectors ++ fallbackSelectors) ->
   chatUrl d = first_chat_text (querySelectorAll d any_chat_link)).
Proof.
  assert (Hchat : chatUrl d =
            match first_chat_href d (specificChatSelectors ++ fallbackSelectors) with
            | Some url => Some url
            | None => first_chat_text (querySelectorAll d any_chat_link)
            end).
  { unfold chatUrl. rewrite first_chat_href_app.
    destruct (first_chat_href d specificChatSelectors); reflexivity. }
  split.
  - intros before selector after url Hsplit Hbefore Hsel.
    rewrite Hchat, Hsplit, first_chat_href_app, (first_chat_href_none _ _ Hbefore).
    rewrite first_chat_href_cons, Hsel. split; [reflexivity|].
    eapply chat_href_chat, Hsel.
  - intros Hnone. rewrite Hchat, (first_chat_href_none _ _ Hnone). reflexivity.
Qed.

End ChatUrlFacts.

(** ** The names read from the users file *)

Module ParseFacts.
Import Js TargetList TargetListFacts.

Lemma all_chars_app P s1 s2 :
  all_chars P (s1 +:+ s2) = all_chars P s1 && all_chars P s2.
Proof.
  induction s1 as [|c s1 IH]; [reflexivity|].
  rewrite append_cons. cbn [all_chars]. rewrite IH, andb_assoc. reflexivity.
Qed.

Lemma trim_no_newline line : no_newline line -> no_newline (trim line).
Proof.
  unfold no_newline. intros Hline.
  destruct (trim_Trimmed line) as (before & after & Heq & _).
  rewrite Heq, !all_chars_app in Hline.
  apply andb_true_iff in Hline as [_ Hline].
  apply andb_true_iff in Hline as [Hline _]. exact Hline.
Qed.

Lemma trim_target t : is_target t -> trim t = t.
Proof.
  intros (_ & Hfirst & Hlast & _ & _). symmetry. apply Trimmed_unique.
  exists EmptyString, EmptyString. rewrite append_nil.
  assert (Hnil : forall s, s +:+ EmptyString = s).
  { induction s as [|c s IH]; [reflexivity|]. rewrite append_cons, IH. reflexivity. }
  rewrite Hnil. repeat split; assumption.
Qed.

Lemma keep_target t :
  is_target t -> negb (is_empty t) && negb (startsWith t "#") = true.
Proof.
  intros (Hne & _ & _ & Hc & _).
  destruct t as [|c t]; [contradiction|]. cbn [is_empty negb andb].
  destruct (startsWith (String c t) "#") eqn:Hs; [|reflexivity].
  apply startsWith_hash in Hs. contradiction.
Qed.

(** X1. Every name the batch works on is a proper target: not empty, free of
    whitespace at both ends, not a comment and on one line. *)
Theorem parseUsers_targets data : Forall is_target (parseUsers data).
Proof.
  unfold parseUsers.
  pose proof (split_no_newline data) as Hlines.
  induction Hlines as [|line lines Hline _ IH]; [constructor|].
  cbn [map]. rewrite filter_cons.
  destruct (decide _) as [Hkeep|_]; [|exact IH].
  constructor; [|exact IH].
  apply andb_true_iff in Hkeep as [Hne Hhash].
  destruct (trim_Trimmed line) as (before & after & _ & _ & _ & Hfirst & Hlast).
  repeat split.
  - intros Hempty. rewrite Hempty in Hne. discriminate.
  - exact Hfirst.
  - exact Hlast.
  - intros Hc. apply startsWith_hash in Hc. rewrite Hc in Hhash. discriminate.
  - apply trim_no_newline, Hline.
Qed.

Lemma parse_lines targets :
  Forall is_target targets ->
  filter (fun line => negb (is_empty line) && negb (startsWith line "#") = true)
         (map trim targets) = targets.
Proof.
  induction 1 as [|t targets Ht _ IH]; [reflexivity|].
  cbn [map]. rewrite filter_cons, (trim_target _ Ht).
  destruct (decide _) as [_|Hdrop]; [rewrite IH; reflexivity|].
  exfalso. apply Hdrop, keep_target, Ht.
Qed.

(** X2. Writing proper names one per line and reading the text back gives the
    names again, with or without a newline after the last one; so reading a
    file, writing the names read and reading again changes nothing. *)
Theorem parseUsers_round_trip :
  (forall targets,
     Forall is_target targets ->
     parseUsers (join targets) = targets /\
     parseUsers (join targets +:+ String "010" EmptyString) = targets) /\
  (forall data, parseUsers (join (parseUsers data)) = parseUsers data).
Proof.
  assert (Hround : forall targets,
     Forall is_target targets ->
     parseUsers (join targets) = targets /\
     parseUsers (join targets +:+ String "010" EmptyString) = targets).
  { intros targets Hall.
    assert (Hlines : Forall no_newline targets).
    { eapply Forall_impl; [exact Hall|]. intros t (_ & _ & _ & _ & H). exact H. }
    destruct targets as [|t targets]; [split; reflexivity|].
    unfold parseUsers. split.
    - rewrite split_join by (discriminate || assumption). apply parse_lines, Hall.
    - replace (join (t :: targets) +:+ String "010" EmptyString)
        with (join ((t :: targets) ++ [EmptyString])).
      + rewrite split_join.
        * rewrite map_app, filter_app, parse_lines by exact Hall.
          cbn. rewrite app_nil_r. reflexivity.
        * discriminate.
        * apply Forall_app. split; [exact Hlines | repeat constructor].
      + clear. revert t. induction targets as [|t' targets IH]; intros t.
        * reflexivity.
        * change ((t :: t' :: targets) ++ [EmptyString])
            with (t :: ((t' :: targets) ++ [EmptyString])).
          destruct ((t' :: targets) ++ [EmptyString]) as [|x xs] eqn:Hx; [discriminate|].
          rewrite join_cons, <- Hx, IH, join_cons.
          clear. induction t as [|c t IHt]; [reflexivity|].
          rewrite !append_cons, IHt. reflexivity. }
  split; [exact Hround|].
  intros data. apply Hround, parseUsers_targets.
Qed.

End ParseFacts.

(** ** The result files *)

Module FileFacts.
Import Js.

Lemma replace_colon_dot_clean s :
  has_char ":" (replace_colon_dot s) = false /\
  has_char "." (replace_colon_dot s) = false /\
  String.length (replace_colon_dot s) = String.length s.
Proof.
  induction s as [|c s (IH1 & IH2 & IH3)]; [repeat split|].
  cbn [replace_colon_dot has_char String.length]. rewrite IH1, IH2, IH3.
  destruct (Ascii.eqb c ":") eqn:H1; [repeat split|].
  destruct (Ascii.eqb c ".") eqn:H2; [repeat split|].
  cbn [orb]. rewrite H1, H2. repeat split.
Qed.

Lemma has_char_app c s t : has_char c (s +:+ t) = has_char c s || has_char c t.
Proof.
  induction s as [|a s IH]; [reflexivity|].
  rewrite TargetListFacts.append_cons. cbn [has_char]. rewrite IH, orb_assoc. reflexivity.
Qed.

Lemma replace_colon_dot_slash s :
  has_char "/" s = false -> has_char "/" (replace_colon_dot s) = false.
Proof.
  induction s as [|c s IH]; [reflexivity|]. cbn [replace_colon_dot has_char].
  intros H. apply orb_false_iff in H as [Hc Hs]. rewrite (IH Hs), orb_false_r.
  destruct (Ascii.eqb c ":" || Ascii.eqb c "."); [reflexivity | exact Hc].
Qed.

Lemma split_single sep s : has_char sep s = false -> split sep s = [s].
Proof.
  induction s as [|c s IH]; [reflexivity|]. cbn [has_char split].
  intros H. apply orb_false_iff in H as [Hc Hs]. rewrite Hc, (IH Hs). reflexivity.
Qed.

Lemma last_is_has c s : last_is c s = true -> has_char c s = true.
Proof.
  induction s as [|a s IH]; [discriminate|]. cbn [last_is has_char].
  destruct s as [|b s].
  - intros ->. reflexivity.
  - intros H. rewrite (IH H). apply orb_true_r.
Qed.

(** Joining the results directory with a plain file name -- no separator in
    it, and a hyphen, so that it is neither empty nor a dot segment -- puts
    the name behind [results/]. *)
Lemma last_is_step c a s : is_empty s = false -> last_is c (String a s) = last_is c s.
Proof. destruct s; [discriminate | reflexivity]. Qed.

Lemma path_join_plain name :
  has_char "/" name = false -> has_char "-" name = true ->
  path_join "./results" name = "results/" +:+ name.
Proof.
  intros Hslash Hdash.
  assert (Hlast : last_is "/" name = false).
  { destruct (last_is "/" name) eqn:H; [|reflexivity].
    apply last_is_has in H. congruence. }
  assert (Hdot : String.eqb name "." = false).
  { destruct (String.eqb_spec name "."); [subst; discriminate Hdash | reflexivity]. }
  assert (Hdots : String.eqb name ".." = false).
  { destruct (String.eqb_spec name ".."); [subst; discriminate Hdash | reflexivity]. }
  assert (Hne : is_empty name = false).
  { destruct name; [discriminate Hdash | reflexivity]. }
  unfold path_join. rewrite Hne. cbn [is_empty].
  change ("./results" +:+ "/" +:+ name)
    with (String "." (String "/" (String "r" (String "e" (String "s" (String "u"
           (String "l" (String "t" (String "s" (String "/" name)))))))))).
  unfold normalize. cbn [is_empty].
  change (startsWith (String "." ?s) "/") with false.
  cbn [negb]. rewrite !last_is_step by (reflexivity || exact Hne). rewrite Hlast.
  cbn [split Ascii.eqb Bool.eqb].
  rewrite (split_single "/" name Hslash).
  cbn [normalizeString is_empty orb String.eqb Ascii.eqb Bool.eqb].
  rewrite Hne, Hdot, Hdots. cbn [orb rev app join_segments is_empty].
  reflexivity.
Qed.

Section Save.
Context {W : Type} (E : Env W).

(** X6. [saveResults] goes on when the directory cannot be created, joins the
    results directory with a file name made of the prefix and the clock --
    the time part free of colons and dots, as long as the reading -- and
    returns the joined name, or fails with the error of the write.  With no
    separator in the prefix or the reading the name is
    [results/<prefix>-<time>.json]. *)
Theorem saveResults_run data prefix w made w1 :
  respond E (Mkdir "./results") w = (made, w1) ->
  let file := results_file prefix (clock E w1) in
  (has_char ":" (replace_colon_dot (clock E w1)) = false /\
   has_char "." (replace_colon_dot (clock E w1)) = false /\
   String.length (replace_colon_dot (clock E w1)) = String.length (clock E w1)) /\
  (has_char "/" prefix = false -> has_char "/" (clock E w1) = false ->
   file = "results/" +:+ prefix +:+ "-" +:+ replace_colon_dot (clock E w1) +:+ ".json") /\
  forall written w2,
    respond E (WriteFile file data) w1 = (written, w2) ->
    saveResults E data prefix w =
      (match written with
       | None => Ok file
       | Some msg => Err (Rejected msg)
       end,
       [replied (Mkdir "./results") made; replied (WriteFile file data) written],
       w2).
Proof.
  intros Hmade file. split; [apply replace_colon_dot_clean|]. split.
  { intros Hprefix Hclock. subst file. unfold results_file.
    apply path_join_plain.
    - rewrite !has_char_app, Hprefix, (replace_colon_dot_slash _ Hclock). reflexivity.
    - rewrite !has_char_app. cbn [has_char Ascii.eqb Bool.eqb].
      rewrite orb_true_r. reflexivity. }
  intros written w2 Hwrite. unfold saveResults.
  assert (Hdir : try_catch (call E (Mkdir "./results")) (fun _ => ret tt) w =
                 (Ok tt, [replied (Mkdir "./results") made], w1)).
  { unfold try_catch, call. rewrite Hmade. destruct made; reflexivity. }
  erewrite bind_ok by exact Hdir.
  erewrite bind_ok by reflexivity.
  fold (results_file prefix (clock E w1)). fold file.
  destruct written as [msg|].
  - erewrite bind_err by (apply call_fail; exact Hwrite). reflexivity.
  - erewrite bind_ok by (apply call_done; exact Hwrite). reflexivity.
Qed.

End Save.
End FileFacts.

(** ** The search for the message box *)

Module ShadowFacts.
Import Shadow.

Lemma descendants_below n : descendants n = below (children n).
Proof.
  destruct n as [tag classes kids root]. cbn [descendants children]. unfold below.
  induction kids as [|k kids IH]; [reflexivity|]. cbn [flat_map]. rewrite <- IH. reflexivity.
Qed.

Lemma height_unfold n :
  height n =
  S (Nat.max (heights (children n))
             (match shadowRoot n with None => O | Some root => heights root end)).
Proof.
  destruct n as [tag classes kids root]. reflexivity.
Qed.

Lemma heights_in l k : In k l -> (height k <= heights l)%nat.
Proof.
  induction l as [|x l IH]; [contradiction|]. cbn [heights fold_right].
  intros [<- | Hin]; [lia|]. specialize (IH Hin). unfold heights in IH. lia.
Qed.

Lemma child_height n k : In k (children n) -> (height k < height n)%nat.
Proof. intros Hin. apply heights_in in Hin. rewrite (height_unfold n). lia. Qed.

Lemma shadow_height n root k :
  shadowRoot n = Some root -> In k root -> (height k < height n)%nat.
Proof.
  intros Hroot Hin. apply heights_in in Hin. rewrite (height_unfold n), Hroot. lia.
Qed.

Lemma inside_trans a b c : inside a b -> inside b c -> inside a c.
Proof.
  intros Hab Hbc. induction Hbc as [b|c k b Hk _ IH|c root k b Hroot Hk _ IH].
  - exact Hab.
  - eapply inside_child; [exact Hk | apply IH, Hab].
  - eapply inside_shadow; [exact Hroot | exact Hk | apply IH, Hab].
Qed.

Lemma descendants_inside bound : forall n t,
  (height n <= bound)%nat -> In t (descendants n) ->
  inside t n /\ (height t < height n)%nat.
Proof.
  induction bound as [|bound IH]; intros n t Hn Hin.
  - rewrite (height_unfold n) in Hn. lia.
  - rewrite descendants_below in Hin. unfold below in Hin.
    apply in_flat_map in Hin as (k & Hk & Ht).
    pose proof (child_height n k Hk) as Hlt.
    destruct Ht as [<- | Ht].
    + split; [eapply inside_child; [exact Hk | constructor] | exact Hlt].
    + destruct (IH k t ltac:(lia) Ht) as [Hinside Hlt'].
      split; [eapply inside_child; eassumption | lia].
Qed.

Lemma query_inside element selector t :
  querySelector element selector = Some t ->
  matches selector t = true /\ inside t element /\ (height t < height element)%nat.
Proof.
  unfold querySelector. intros Hfind. apply find_some in Hfind as [Hin Hm].
  split; [exact Hm|]. eapply descendants_inside; [reflexivity | exact Hin].
Qed.

Lemma queryRoot_inside element root selector t :
  shadowRoot element = Some root ->
  queryRoot root selector = Some t ->
  matches selector t = true /\ inside t element /\ (height t < height element)%nat.
Proof.
  unfold queryRoot, below. intros Hroot Hfind. apply find_some in Hfind as [Hin Hm].
  split; [exact Hm|].
  apply in_flat_map in Hin as (k & Hk & Ht).
  pose proof (shadow_height element root k Hroot Hk) as Hlt.
  destruct Ht as [<- | Ht].
  - split; [eapply inside_shadow; [exact Hroot | exact Hk | constructor] | exact Hlt].
  - destruct (descendants_inside _ k t (Nat.le_refl _) Ht) as [Hinside Hlt'].
    split; [eapply inside_shadow; eassumption | lia].
Qed.

Lemma first_result_some f candidates result :
  first_result f candidates = Some result ->
  exists x, In x candidates /\ f x = Some result.
Proof.
  induction candidates as [|x more IH]; [discriminate|]. cbn [first_result].
  destruct (f x) as [r|] eqn:Hx.
  - intros [= <-]. exists x. split; [left; reflexivity | exact Hx].
  - intros H. destruct (IH H) as (y & Hy & Hfy). exists y. split; [right; exact Hy | exact Hfy].
Qed.

Lemma first_result_ext f g candidates :
  (forall x, In x candidates -> f x = g x) ->
  first_result f candidates = first_result g candidates.
Proof.
  induction candidates as [|x more IH]; intros Hext; [reflexivity|].
  cbn [first_result]. rewrite (Hext x (or_introl eq_refl)).
  destruct (g x); [reflexivity|]. apply IH. intros y Hy. apply Hext. right. exact Hy.
Qed.

Lemma find_unfold depth element :
  findTextareaInShadowDom (S depth) element =
  if is_textarea element then Some element
  else
    match querySelector element (ByTag "textarea") with
    | Some directTextarea => Some directTextarea
    | None =>
        match shadowRoot element with
        | None => None
        | Some root =>
            match queryRoot root (ByTag "textarea") with
            | Some shadowTextarea => Some shadowTextarea
            | None =>
                match queryRoot root (ByTag "rs-textarea-auto-size") with
                | Some nestedTextareaComponent =>
                    findTextareaInShadowDom depth nestedTextareaComponent
                | None =>
                    match
                      match queryRoot root (ByClass "message-box") with
                      | Some messageBox =>
                          match querySelector messageBox (ByTag "textarea") with
                          | Some boxTextarea => Some boxTextarea
                          | None =>
                              first_result (findTextareaInShadowDom depth)
                                (List.filter is_custom (children messageBox))
                          end
                      | None => None
                      end
                    with
                    | Some result => Some result
                    | None =>
                        first_result (findTextareaInShadowDom depth)
                          (List.filter is_custom root)
                    end
                end
            end
        end
    end.
Proof. reflexivity. Qed.

(** X7. Whatever the search returns is a textarea that lies inside the element,
    in its own tree or behind shadow roots.  The element itself comes
    first, then the first textarea of its own tree, then the first one of
    its shadow root's tree: with one of these present the answer is never
    null. *)
Theorem findTextareaInShadowDom_sound :
  (forall depth element t,
     findTextareaInShadowDom depth element = Some t ->
     is_textarea t = true /\ inside t element) /\
  (forall depth element,
     (is_textarea element = true ->
      findTextareaInShadowDom (S depth) element = Some element) /\
     (forall t,
        is_textarea element = false ->
        querySelector element (ByTag "textarea") = Some t ->
        findTextareaInShadowDom (S depth) element = Some t) /\
     (forall root t,
        is_textarea element = false ->
        querySelector element (ByTag "textarea") = None ->
        shadowRoot element = Some root ->
        queryRoot root (ByTag "textarea") = Some t ->
        findTextareaInShadowDom (S depth) element = Some t)).
Proof.
  split.
  - induction depth as [|depth IH]; intros element t; [discriminate|].
    rewrite find_unfold.
    destruct (is_textarea element) eqn:Hself.
    { intros [= <-]. split; [exact Hself | constructor]. }
    destruct (querySelector element (ByTag "textarea")) as [direct|] eqn:Hdirect.
    { intros [= <-]. apply query_inside in Hdirect as (Hm & Hin & _). split; assumption. }
    destruct (shadowRoot element) as [root|] eqn:Hroot; [|discriminate].
    destruct (queryRoot root (ByTag "textarea")) as [shadowTextarea|] eqn:Hshadow.
    { intros [= <-].
      apply (queryRoot_inside element) in Hshadow as (Hm & Hin & _); [|exact Hroot].
      split; assumption. }
    destruct (queryRoot root (ByTag "rs-textarea-auto-size")) as [nested|] eqn:Hnested.
    { intros Hfound. destruct (IH _ _ Hfound) as [Htext Hin].
      apply (queryRoot_inside element) in Hnested as (_ & Hnin & _); [|exact Hroot].
      split; [exact Htext | eapply inside_trans; eassumption]. }
    destruct (queryRoot root (ByClass "message-box")) as [messageBox|] eqn:Hbox.
    + apply (queryRoot_inside element) in Hbox as (_ & Hboxin & _); [|exact Hroot].
      destruct (querySelector messageBox (ByTag "textarea")) as [boxTextarea|] eqn:Hbt.
      { intros [= <-]. apply query_inside in Hbt as (Hm & Hin & _).
        split; [exact Hm | eapply inside_trans; eassumption]. }
      destruct (first_result _ (List.filter is_custom (children messageBox)))
        as [result|] eqn:Hcomp.
      { intros [= <-]. apply first_result_some in Hcomp as (x & Hx & Hfx).
        apply filter_In in Hx as [Hx _].
        destruct (IH _ _ Hfx) as [Htext Hin]. split; [exact Htext|].
        eapply inside_trans; [|exact Hboxin].
        eapply inside_child; eassumption. }
      intros Hlast. apply first_result_some in Hlast as (x & Hx & Hfx).
      apply filter_In in Hx as [Hx _].
      destruct (IH _ _ Hfx) as [Htext Hin]. split; [exact Htext|].
      eapply inside_shadow; eassumption.
    + intros Hlast. apply first_result_some in Hlast as (x & Hx & Hfx).
      apply filter_In in Hx as [Hx _].
      destruct (IH _ _ Hfx) as [Htext Hin]. split; [exact Htext|].
      eapply inside_shadow; eassumption.
  - intros depth element. rewrite find_unfold. split; [|split].
    + intros ->. reflexivity.
    + intros t -> ->. reflexivity.
    + intros root t -> -> -> ->. reflexivity.
Qed.

Lemma find_more depth : forall element extra,
  (height element <= depth)%nat ->
  findTextareaInShadowDom (depth + extra) element = findTextareaInShadowDom depth element.
Proof.
  induction depth as [|depth IH]; intros element extra Hh.
  - rewrite (height_unfold element) in Hh. lia.
  - change (S depth + extra)%nat with (S (depth + extra)). rewrite !find_unfold.
    destruct (is_textarea element); [reflexivity|].
    destruct (querySelector element (ByTag "textarea")); [reflexivity|].
    destruct (shadowRoot element) as [root|] eqn:Hroot; [|reflexivity].
    destruct (queryRoot root (ByTag "textarea")); [reflexivity|].
    destruct (queryRoot root (ByTag "rs-textarea-auto-size")) as [nested|] eqn:Hnested.
    { apply (queryRoot_inside element) in Hnested as (_ & _ & Hlt); [|exact Hroot].
      apply IH. lia. }
    assert (Hroots : first_result (findTextareaInShadowDom (depth + extra))
                       (List.filter is_custom root) =
                     first_result (findTextareaInShadowDom depth)
                       (List.filter is_custom root)).
    { apply first_result_ext. intros x Hx. apply filter_In in Hx as [Hx _].
      apply IH. pose proof (shadow_height element root x Hroot Hx). lia. }
    destruct (queryRoot root (ByClass "message-box")) as [messageBox|] eqn:Hbox;
      [|rewrite Hroots; reflexivity].
    apply (queryRoot_inside element) in Hbox as (_ & _ & Hlt); [|exact Hroot].
    destruct (querySelector messageBox (ByTag "textarea")); [reflexivity|].
    assert (Hcomps : first_result (findTextareaInShadowDom (depth + extra))
                       (List.filter is_custom (children messageBox)) =
                     first_result (findTextareaInShadowDom depth)
                       (List.filter is_custom (children messageBox))).
    { apply first_result_ext. intros x Hx. apply filter_In in Hx as [Hx _].
      apply IH. pose proof (child_height messageBox x Hx). lia. }
    rewrite Hcomps, Hroots. reflexivity.
Qed.

(** X8. The search ends: its recursive calls go to elements strictly inside the
    one at hand, so a depth equal to the nesting height of the element is
    enough, and any larger bound gives the same answer. *)
Theorem findTextareaInShadowDom_terminates element depth :
  (height element <= depth)%nat ->
  findTextareaInShadowDom depth element =
  findTextareaInShadowDom (height element) element.
Proof.
  intros Hh.
  replace depth with (height element + (depth - height element))%nat by lia.
  apply find_more. lia.
Qed.

End ShadowFacts.

(** ** Logging in, continued *)

Section RunInversion.
Context {W : Type}.

Lemma bind_ok_inv {A B} (m : M W A) (k : A -> M W B) w b t w' :
  bind m k w = (Ok b, t, w') ->
  exists a t1 w1 t2,
    m w = (Ok a, t1, w1) /\ k a w1 = (Ok b, t2, w') /\ t = t1 ++ t2.
Proof.
  unfold bind. destruct (m w) as [[[a|e] t1] w1]; [|discriminate].
  destruct (k a w1) as [[r t2] w2] eqn:Hk. cbn. intros [= -> <- ->].
  exists a, t1, w1, t2. repeat split. exact Hk.
Qed.

Lemma bind_err_inv {A B} (m : M W A) (k : A -> M W B) w e t w' :
  bind m k w = (Err e, t, w') ->
  m w = (Err e, t, w') \/
  exists a t1 w1 t2,
    m w = (Ok a, t1, w1) /\ k a w1 = (Err e, t2, w') /\ t = t1 ++ t2.
Proof.
  unfold bind. destruct (m w) as [[[a|e0] t1] w1]; [|intros [= -> -> ->]; left; reflexivity].
  destruct (k a w1) as [[r t2] w2] eqn:Hk. cbn. intros [= -> <- ->].
  right. exists a, t1, w1, t2. repeat split. exact Hk.
Qed.

End RunInversion.

Section WithinScripts.
Context {W : Type} (E : Env W) (P : Event -> Prop) (Q : Exn -> Prop).

(** What follows a reading script may depend on the page it read. *)
Lemma within_evaluate_bind {A B} script (f : Document -> A) (k : A -> M W B) :
  P (Done (Evaluate script)) -> (forall msg, P (Refused (Evaluate script) msg)) ->
  (forall msg, Q (Rejected msg)) ->
  (forall d, within P Q (k (f d))) ->
  within P Q (bind (evaluate E script f) k).
Proof.
  intros Hd Hf Hq Hk w.
  destruct (respond E (Evaluate script) w) as [[msg|] w1] eqn:Hr.
  - erewrite bind_err by (apply evaluate_fail; eassumption). cbn.
    split; [repeat constructor; apply Hf | intros e [= <-]; apply Hq].
  - erewrite bind_ok by (apply evaluate_done; eassumption).
    rewrite trace_prepend, outcome_prepend.
    destruct (Hk (document E w1) w1) as [Ht He].
    split; [constructor; [apply Hd | exact Ht] | exact He].
Qed.

End WithinScripts.

Section LoginFacts.
Context {W : Type} (E : Env W).

Lemma verifyLoginSuccess_result w :
  exists b t w',
    verifyLoginSuccess E w = (Ok b, t, w') /\
    b = negb (existsb is_verification_crash t).
Proof.
  unfold verifyLoginSuccess.
  match goal with |- context [try_catch ?m ?h w] => set (body := m); set (handler := h) end.
  assert (Hbody :
    (exists t w', body w = (Ok true, t, w') /\ existsb is_verification_crash t = false) \/
    (exists e t w', body w = (Err e, t, w') /\ existsb is_verification_crash t = true)).
  { subst body.
    destruct (respond E WaitForNavigation w) as [nav wn] eqn:Hnav.
    erewrite bind_ok by (apply wait_for_navigation_caught; eassumption).
    erewrite bind_ok by reflexivity. rewrite prepend_nil.
    destruct (respond E (Evaluate LoginIndicators) wn) as [[msg|] w1] eqn:H1.
    { erewrite bind_err by (apply evaluate_fail; eassumption).
      right. eexists _, _, _. split; [reflexivity|]. destruct nav; reflexivity. }
    erewrite bind_ok by (apply evaluate_done; eassumption).
    destruct (negb _).
    2:{ left. eexists _, _. split; [reflexivity|]. destruct nav; reflexivity. }
    erewrite bind_ok by reflexivity.
    destruct (respond E (Evaluate RetryVerification) (respond E (Sleep 3000) w1).2)
      as [[msg|] w3] eqn:H3.
    { erewrite bind_err by (apply evaluate_fail; eassumption).
      right. eexists _, _, _. split; [reflexivity|]. destruct nav; reflexivity. }
    erewrite bind_ok by (apply evaluate_done; eassumption).
    left. destruct (negb _); eexists _, _; (split; [reflexivity|]); destruct nav; reflexivity. }
  destruct Hbody as [(t & w' & Hrun & Hnone) | (e & t & w' & Hrun & Hsome)].
  - exists true, t, w'. rewrite (try_catch_ok _ _ _ _ _ _ Hrun), Hnone. split; reflexivity.
  - exists false, t, w'. rewrite (try_catch_err _ _ _ _ _ _ Hrun). subst handler. cbn.
    rewrite app_nil_r, Hsome. split; reflexivity.
Qed.

(** X9. [verifyLoginSuccess] never throws.  It answers [false] exactly when one
    of its two page scripts was rejected; a navigation wait that times out
    and page checks that find nothing leave the answer [true]. *)
Theorem verifyLoginSuccess_never_throws w :
  exists b,
    outcome (verifyLoginSuccess E w) = Ok b /\
    b = negb (existsb is_verification_crash (trace (verifyLoginSuccess E w))).
Proof.
  destruct (verifyLoginSuccess_result w) as (b & t & w' & Hrun & Hb).
  exists b. rewrite Hrun. split; [reflexivity | exact Hb].
Qed.

Lemma submitCredentials_other_errors username password :
  within (fun _ => True) (fun e => e <> Thrown verification_failed_message)
    (submitCredentials E username password).
Proof.
  unfold submitCredentials.
  within_auto ltac:(first [exact I | discriminate]).
Qed.

Lemma handleCaptchaIfPresent_other_errors solver :
  within (fun _ => True) (fun e => e <> Thrown verification_failed_message)
    (handleCaptchaIfPresent E solver).
Proof.
  unfold handleCaptchaIfPresent.
  within_auto ltac:(first [exact I | discriminate]).
Qed.

(** X10. [loginToReddit] resolves with [true] only, and its verification error is
    thrown only after a rejected verification script: on no page content does
    a login whose scripts all ran end with that error. *)
Theorem loginToReddit_outcomes username password options w :
  let run := loginToReddit E username password options w in
  (forall b, outcome run = Ok b -> b = true) /\
  (outcome run = Err (Thrown verification_failed_message) ->
   existsb is_verification_crash (trace run) = true).
Proof.
  cbn zeta. unfold loginToReddit. rewrite try_catch_rethrow.
  destruct (submitCredentials_other_errors username password w) as [_ Hsubmit].
  destruct (submitCredentials E username password w) as [[[[]|e] t1] w1] eqn:H1.
  2:{ erewrite bind_err by eassumption. cbn in *.
      split; [discriminate | intros [= ->]; exfalso; eapply Hsubmit; reflexivity]. }
  erewrite bind_ok by eassumption. rewrite outcome_prepend, trace_prepend.
  destruct (handleCaptchaIfPresent_other_errors (newSolver options) w1) as [_ Hcaptcha].
  destruct (handleCaptchaIfPresent E (newSolver options) w1) as [[[[]|e] t2] w2] eqn:H2.
  2:{ erewrite bind_err by eassumption. cbn in *.
      split; [discriminate | intros [= ->]; exfalso; eapply Hcaptcha; reflexivity]. }
  erewrite bind_ok by eassumption. rewrite outcome_prepend, trace_prepend.
  destruct (verifyLoginSuccess_result w2) as (b & t3 & w3 & H3 & Hb).
  erewrite bind_ok by eassumption. rewrite outcome_prepend, trace_prepend.
  destruct b; cbn.
  - split; [intros b [= <-]; reflexivity | discriminate].
  - split; [discriminate|]. intros _.
    rewrite !existsb_app. cbn [existsb].
    destruct (existsb is_verification_crash t3); [|discriminate Hb].
    rewrite ?orb_false_r, !orb_true_r. reflexivity.
Qed.

Lemma handleCaptchaIfPresent_solver_calls options :
  within (solver_call_ok (prop options "captchaApiKey")) (fun _ => True)
    (handleCaptchaIfPresent E (newSolver options)).
Proof.
  unfold handleCaptchaIfPresent, newSolver.
  apply within_evaluate_bind; [exact I | intros; exact I | intros; exact I | intros d].
  destruct (Scripts.captchaRequired d); [|apply within_ret].
  destruct (truthy (prop options "captchaApiKey")) eqn:Hkey; [|apply within_throw; exact I].
  apply within_evaluate_bind; [exact I | intros; exact I | intros; exact I | intros d'].
  destruct (Scripts.sitekey d') as [key|] eqn:Hsite; [|apply within_throw; exact I].
  destruct (Js.is_empty key) eqn:Hempty; [apply within_throw; exact I|].
  assert (Hok : key <> EmptyString /\ has_char "&" key = false).
  { split; [intros ->; discriminate Hempty|].
    unfold Scripts.sitekey in Hsite.
    destruct (querySelector d' Selectors.recaptcha_iframe); [|discriminate].
    eapply ScriptFacts.match_k_clean, Hsite. }
  destruct Hok as [Hne Hclean].
  within_auto ltac:(first [exact I | cbn; repeat split; assumption]).
Qed.

Lemma loginToReddit_solver_calls username password options :
  within (solver_call_ok (prop options "captchaApiKey")) (fun _ => True)
    (loginToReddit E username password options).
Proof.
  unfold loginToReddit.
  within_step; [|within_auto ltac:(exact I)].
  within_step; [unfold submitCredentials; within_auto ltac:(exact I)|].
  within_step; [apply handleCaptchaIfPresent_solver_calls|].
  unfold verifyLoginSuccess. within_auto ltac:(exact I).
Qed.

(** X11. A page without a visible challenge costs [handleCaptchaIfPresent] one
    script call.  A challenge whose frame address gives no site key -- no
    [k] parameter, or an empty one -- stops it with its own error after the
    second script, before the solving service is called. *)
Theorem challenge_without_sitekey_stops solver w w1 :
  respond E (Evaluate CaptchaRequired) w = (None, w1) ->
  (Scripts.captchaRequired (document E w1) = false ->
   handleCaptchaIfPresent E solver w = (Ok tt, [Done (Evaluate CaptchaRequired)], w1)) /\
  (forall s w2,
     solver = Some s ->
     Scripts.captchaRequired (document E w1) = true ->
     respond E (Evaluate Sitekey) w1 = (None, w2) ->
     Scripts.sitekey (document E w2) = None \/
     Scripts.sitekey (document E w2) = Some EmptyString ->
     handleCaptchaIfPresent E solver w =
       (Err (Thrown sitekey_missing_message),
        [Done (Evaluate CaptchaRequired); Done (Evaluate Sitekey)], w2)).
Proof.
  intros Hdetect. unfold handleCaptchaIfPresent.
  erewrite bind_ok by (apply evaluate_done; eassumption).
  split.
  - intros ->. reflexivity.
  - intros s w2 -> -> Hkey Hnone.
    erewrite bind_ok by (apply evaluate_done; eassumption).
    destruct Hnone as [-> | ->]; reflexivity.
Qed.

End LoginFacts.

(** ** One delivery, continued *)

Section RunInversionCalls.
Context {W : Type} (E : Env W).

Lemma call_ok_inv c w a t w' : call E c w = (Ok a, t, w') -> t = [Done c].
Proof.
  unfold call. destruct (respond E c w) as [[msg|] w1]; [discriminate|].
  intros [= _ <- _]. reflexivity.
Qed.

Lemma evaluate_ok_inv {A} script (f : Document -> A) w a t w' :
  evaluate E script f w = (Ok a, t, w') ->
  t = [Done (Evaluate script)] /\ a = f (document E w').
Proof.
  unfold evaluate, bind, call, observe.
  destruct (respond E (Evaluate script) w) as [[msg|] w1]; [discriminate|].
  cbn. intros [= <- <- <-]. split; reflexivity.
Qed.

End RunInversionCalls.

Section DeliveryFacts.
Context {W : Type} (E : Env W).

(** X14. A profile on which the chat script finds no address -- [null], or an
    empty one -- makes [sendMessageToUser] throw its own error right after
    that script: the run never leaves the profile page. *)
Theorem missing_chat_button_stops_at_profile targetUser messageText w w0 w1 w2 w3 :
  respond E (Goto (profile_url targetUser)) w = (None, w0) ->
  respond E (Evaluate UserStatus) w0 = (None, w1) ->
  Scripts.userStatus (document E w1) = "exists" ->
  respond E (WaitForSelector "button, a") w1 = (None, w2) ->
  respond E (Evaluate ChatUrl) w2 = (None, w3) ->
  Scripts.chatUrl (document E w3) = None \/
  Scripts.chatUrl (document E w3) = Some EmptyString ->
  sendMessageToUser E targetUser messageText w =
    (Err (Thrown no_chat_button_message),
     [ Done (Goto (profile_url targetUser)); Done (Evaluate UserStatus);
       Done (WaitForSelector "button, a"); Done (Evaluate ChatUrl) ],
     w3).
Proof.
  intros Hgoto Hstatus Hexists Hwait Hchat Hnone.
  unfold sendMessageToUser. rewrite try_catch_rethrow.
  erewrite bind_ok by (apply call_done; eassumption).
  erewrite bind_ok by (apply evaluate_done; eassumption).
  rewrite Hexists. cbn [String.eqb Ascii.eqb Bool.eqb negb].
  erewrite bind_ok by reflexivity.
  unfold extractChatUrl at 1.
  erewrite bind_ok
    by (erewrite bind_ok by (apply call_done; eassumption);
        erewrite evaluate_done by eassumption; reflexivity).
  destruct Hnone as [-> | ->]; reflexivity.
Qed.

(** X15. After the navigation to the chat address and the settle delay, a page
    address without the chat host makes [sendMessageToUser] throw an error
    that quotes the address; nothing is typed or clicked. *)
Theorem redirect_away_from_chat_stops_the_delivery
    targetUser messageText w w0 w1 w2 w3 chatUrl w4 :
  respond E (Goto (profile_url targetUser)) w = (None, w0) ->
  respond E (Evaluate UserStatus) w0 = (None, w1) ->
  Scripts.userStatus (document E w1) = "exists" ->
  respond E (WaitForSelector "button, a") w1 = (None, w2) ->
  respond E (Evaluate ChatUrl) w2 = (None, w3) ->
  Scripts.chatUrl (document E w3) = Some chatUrl ->
  Js.is_empty chatUrl = false ->
  respond E (Goto chatUrl) w3 = (None, w4) ->
  let w5 := (respond E (Sleep 3000) w4).2 in
  Js.includes (page_url E w5) "chat.reddit.com" = false ->
  sendMessageToUser E targetUser messageText w =
    (Err (Thrown (not_on_chat_page_message (page_url E w5))),
     [ Done (Goto (profile_url targetUser)); Done (Evaluate UserStatus);
       Done (WaitForSelector "button, a"); Done (Evaluate ChatUrl);
       Done (Goto chatUrl); Done (Sleep 3000) ],
     w5).
Proof.
  intros Hgoto Hstatus Hexists Hwait Hchat Hurl Hne Hnav w5 Haway.
  unfold sendMessageToUser. rewrite try_catch_rethrow.
  erewrite bind_ok by (apply call_done; eassumption).
  erewrite bind_ok by (apply evaluate_done; eassumption).
  rewrite Hexists. cbn [String.eqb Ascii.eqb Bool.eqb negb].
  erewrite bind_ok by reflexivity.
  unfold extractChatUrl at 1.
  erewrite bind_ok
    by (erewrite bind_ok by (apply call_done; eassumption);
        erewrite evaluate_done by eassumption; reflexivity).
  rewrite Hurl, Hne.
  erewrite bind_ok by (apply call_done; eassumption).
  erewrite bind_ok by reflexivity.
  erewrite bind_ok by reflexivity.
  fold w5. rewrite Haway. reflexivity.
Qed.

(** X16. [sendMessageToUser] resolves with [true] only, and only at the end of
    the whole path: the run starts at the profile of the target, ends with
    the delivery script returning, and the page that script read shows
    neither failure phrase. *)
Theorem delivery_success_is_checked targetUser messageText w b t w' :
  sendMessageToUser E targetUser messageText w = (Ok b, t, w') ->
  b = true /\
  (exists t0, t = Done (Goto (profile_url targetUser)) :: t0 ++ [delivery_check]) /\
  Scripts.deliveryStatus (document E w') <> "failed".
Proof.
  unfold sendMessageToUser. rewrite try_catch_rethrow. intros H.
  apply bind_ok_inv in H as ([] & t1 & w1 & r1 & Hgoto & H & ->).
  apply call_ok_inv in Hgoto as ->.
  apply bind_ok_inv in H as (userStatus & t2 & w2 & r2 & _ & H & ->).
  apply bind_ok_inv in H as ([] & t3 & w3 & r3 & _ & H & ->).
  apply bind_ok_inv in H as (chatUrl & t4 & w4 & r4 & _ & H & ->).
  destruct chatUrl as [chatUrl|]; [|discriminate H].
  destruct (Js.is_empty chatUrl); [discriminate H|].
  apply bind_ok_inv in H as ([] & t5 & w5 & r5 & _ & H & ->).
  apply bind_ok_inv in H as ([] & t6 & w6 & r6 & _ & H & ->).
  apply bind_ok_inv in H as (chatPageUrl & t7 & w7 & r7 & _ & H & ->).
  apply bind_ok_inv in H as ([] & t8 & w8 & r8 & _ & H & ->).
  apply bind_ok_inv in H as ([] & t9 & w9 & r9 & Hsend & H & ->).
  injection H as <- <- <-.
  unfold sendMessageInChatInterface in Hsend.
  apply bind_ok_inv in Hsend as ([] & tc & wc & rc & _ & Hconfirm & ->).
  unfold confirmDelivery in Hconfirm.
  apply bind_ok_inv in Hconfirm as (status & td & wd & rd & Hscript & Hend & ->).
  apply evaluate_ok_inv in Hscript as [-> ->].
  destruct (String.eqb_spec (Scripts.deliveryStatus (document E wd)) "failed") as [|Hne];
    [discriminate Hend|].
  injection Hend as <- <-.
  split; [reflexivity|]. split; [|exact Hne].
  exists (t2 ++ t3 ++ t4 ++ t5 ++ t6 ++ t7 ++ t8 ++ tc).
  cbn [app]. rewrite !app_nil_r, <- !app_assoc. reflexivity.
Qed.

End DeliveryFacts.

(** ** The two entry points, continued *)

Section Frames2.
Context {W : Type} (E : Env W) (P : Event -> Prop).

(** A property of the calls holds of a run of [redditMessenger] when it
    holds of its parts. *)
Lemma redditMessenger_frame username password targetUser messageText config :
  within P (fun _ => True) (initBrowser E (spread DEFAULT_CONFIG config)) ->
  within P (fun _ => True)
    (loginToReddit E username password
       {[ "captchaApiKey" := prop (spread DEFAULT_CONFIG config) "captchaApiKey" ]}) ->
  within P (fun _ => True) (sendMessageToUser E targetUser messageText) ->
  (forall data prefix, within P (fun _ => True) (saveResults E data prefix)) ->
  P (Done Close) -> (forall msg, P (Refused Close msg)) ->
  within P (fun _ => True)
    (redditMessenger E username password targetUser messageText config).
Proof.
  intros Hinit Hlogin Hsend Hsave Hclose Hrefused.
  assert (Hreport : forall (A : Type) e,
            within P (fun _ => True)
              (report_failure E (spread DEFAULT_CONFIG config) targetUser e : M W A)).
  { intros A e. unfold report_failure.
    within_step; [within_step|]. within_step; [apply Hsave|].
    within_auto ltac:(exact I). }
  unfold redditMessenger.
  within_step.
  { within_step; [exact Hinit | apply Hreport]. }
  within_step; [|within_auto ltac:(first [exact I | apply Hclose | apply Hrefused])].
  within_step; [|apply Hreport].
  within_step; [exact Hlogin|].
  within_step; [exact Hsend|].
  within_step; [within_step|].
  within_step; [apply Hsave | apply within_ret].
Qed.

Lemma batch_for_frame users messageText delay remaining :
  (forall targetUser, within P (fun _ => True) (sendMessageToUser E targetUser messageText)) ->
  P (Done (Pace delay)) ->
  forall i results,
    within P (fun _ => True) (batch_for E users messageText delay remaining i results).
Proof.
  intros Hsend Hpace. induction remaining as [|remaining IH]; intros i results.
  - apply within_ret.
  - rewrite batch_for_unfold. within_step; [|apply within_ret].
    within_step.
    + within_step; [|within_auto ltac:(exact I)].
      within_step; [apply Hsend | apply within_ret].
    + within_step; [|apply IH].
      within_auto ltac:(first [exact I | exact Hpace]).
Qed.

(** The same for a run of [processOptimizedBatch]. *)
Lemma processOptimizedBatch_frame username password usersFile messageText options :
  P (Done (ReadFile usersFile)) -> (forall msg, P (Refused (ReadFile usersFile) msg)) ->
  within P (fun _ => True)
    (initBrowser E (<[ "headless" := JBool (not_false (prop options "headless")) ]>
                    (<[ "proxy" := prop options "proxy" ]> ∅))) ->
  within P (fun _ => True)
    (loginToReddit E username password
       {[ "captchaApiKey" := prop options "captchaApiKey" ]}) ->
  (forall targetUser, within P (fun _ => True) (sendMessageToUser E targetUser messageText)) ->
  P (Done (Pace (js_or (prop options "delay") (JNum 30000)))) ->
  (forall data prefix, within P (fun _ => True) (saveResults E data prefix)) ->
  P (Done Close) -> (forall msg, P (Refused Close msg)) ->
  within P (fun _ => True)
    (processOptimizedBatch E username password usersFile messageText options).
Proof.
  intros Hread Hunread Hinit Hlogin Hsend Hpace Hsave Hclose Hrefused.
  unfold processOptimizedBatch.
  within_step; [within_auto ltac:(first [exact I | exact Hread | apply Hunread])|].
  within_step; [within_step|].
  within_step; [exact Hinit|].
  within_step; [|within_auto ltac:(first [exact I | apply Hclose | apply Hrefused])].
  within_step; [|within_auto ltac:(exact I)].
  within_step; [exact Hlogin|].
  within_step; [apply batch_for_frame; assumption|].
  within_step; [apply Hsave | apply within_ret].
Qed.

End Frames2.

Ltac frame_side := first [ exact I | reflexivity | split; reflexivity | assumption ].

Ltac unfold_delivery :=
  unfold sendMessageToUser, extractChatUrl, sendMessageInChatInterface,
    composeAndSend, confirmDelivery.

Ltac unfold_login :=
  unfold loginToReddit, submitCredentials, handleCaptchaIfPresent, verifyLoginSuccess.

Section EntryPointFacts.
Context {W : Type} (E : Env W).

(** X18. Both entry points hand their arguments on unchanged: the user name and
    the password go to the scripts that fill their fields, every text typed
    -- by the composer script or by the keyboard -- is the message, and the
    only key pressed is [Enter]. *)
Theorem entry_points_pass_their_arguments_on username password messageText :
  (forall targetUser config w,
     Forall (fun ev => carries username password messageText (call_of ev))
       (trace (redditMessenger E username password targetUser messageText config w))) /\
  (forall usersFile options w,
     Forall (fun ev => carries username password messageText (call_of ev))
       (trace (processOptimizedBatch E username password usersFile messageText options w))).
Proof.
  assert (Hsend : forall targetUser,
            within (fun ev => carries username password messageText (call_of ev))
              (fun _ => True) (sendMessageToUser E targetUser messageText)).
  { intros targetUser. unfold_delivery. within_auto frame_side. }
  assert (Hlogin : forall options,
            within (fun ev => carries username password messageText (call_of ev))
              (fun _ => True) (loginToReddit E username password options)).
  { intros options. unfold_login. within_auto frame_side. }
  assert (Hsave : forall data prefix,
            within (fun ev => carries username password messageText (call_of ev))
              (fun _ => True) (saveResults E data prefix)).
  { intros data prefix. unfold saveResults. within_auto frame_side. }
  assert (Hinit : forall options,
            within (fun ev => carries username password messageText (call_of ev))
              (fun _ => True) (initBrowser E options)).
  { intros options. unfold initBrowser. within_auto frame_side. }
  split.
  - intros targetUser config w.
    apply (redditMessenger_frame E _ username password targetUser messageText config);
      first [apply Hinit | apply Hlogin | apply Hsend | apply Hsave | exact I | intros; exact I].
  - intros usersFile options w.
    apply (processOptimizedBatch_frame E _ username password usersFile messageText options);
      first [apply Hinit | apply Hlogin | apply Hsend | apply Hsave | exact I | intros; exact I].
Qed.

Lemma prop_headless_batch (options : gmap string JsVal) :
  prop (<[ "headless" := JBool (not_false (prop options "headless")) ]>
        (<[ "proxy" := prop options "proxy" ]> ∅)) "headless"
  = JBool (not_false (prop options "headless")) /\
  prop (<[ "headless" := JBool (not_false (prop options "headless")) ]>
        (<[ "proxy" := prop options "proxy" ]> (∅ : gmap string JsVal))) "proxy"
  = prop options "proxy".
Proof.
  split.
  - unfold prop at 1. rewrite lookup_insert_eq. reflexivity.
  - unfold prop at 1. rewrite lookup_insert_ne by discriminate.
    rewrite lookup_insert_eq. reflexivity.
Qed.

Lemma merged_option config key :
  prop (spread DEFAULT_CONFIG config) key =
  match config !! key with
  | Some v => v
  | None => prop DEFAULT_CONFIG key
  end.
Proof.
  unfold prop, spread. destruct (config !! key) as [v|] eqn:Hkey.
  - erewrite lookup_union_Some_l by eassumption. reflexivity.
  - rewrite lookup_union_r by assumption. reflexivity.
Qed.

(** X19. The options reach the calls.  The browser of [redditMessenger] is
    launched with the [headless] value and the proxy of the merged options:
    [false] and none when [config] names neither.  The browser of the batch
    is launched with a boolean, [true] unless [options.headless] is [false];
    its proxy is passed exactly when truthy, and every pause lasts
    [options.delay], or 30000 when that is missing, zero or otherwise
    falsy. *)
Theorem options_reach_the_calls username password messageText :
  (forall targetUser config w,
     let options := spread DEFAULT_CONFIG config in
     Forall (fun ev => launches_with (prop options "headless") (prop options "proxy")
                         (call_of ev))
       (trace (redditMessenger E username password targetUser messageText config w)) /\
     (config !! "headless" = None -> prop options "headless" = JBool false) /\
     (config !! "proxy" = None -> truthy (prop options "proxy") = false)) /\
  (forall usersFile options w,
     let delay := js_or (prop options "delay") (JNum 30000) in
     Forall (fun ev =>
               launches_with (JBool (not_false (prop options "headless")))
                 (prop options "proxy") (call_of ev) /\
               paces_with delay (call_of ev))
       (trace (processOptimizedBatch E username password usersFile messageText options w)) /\
     truthy delay = true /\
     (truthy (prop options "delay") = false -> delay = JNum 30000) /\
     (prop options "headless" <> JBool false ->
      not_false (prop options "headless") = true)).
Proof.
  split.
  - intros targetUser config w options. split; [|split].
    + apply (redditMessenger_frame E _ username password targetUser messageText config);
        try (intros; exact I).
      * unfold initBrowser. fold options. within_auto frame_side.
      * unfold_login. within_auto frame_side.
      * unfold_delivery. within_auto frame_side.
      * intros data prefix. unfold saveResults. within_auto frame_side.
    + intros Hnone. subst options. rewrite merged_option, Hnone. reflexivity.
    + intros Hnone. subst options. rewrite merged_option, Hnone. reflexivity.
  - intros usersFile options w delay. split; [|split; [|split]].
    + apply (processOptimizedBatch_frame E _ username password usersFile messageText options);
        try (intros; split; exact I).
      * unfold initBrowser.
        destruct (prop_headless_batch options) as [-> ->].
        within_auto ltac:(first [split; exact I | split; [split; reflexivity | exact I]]).
      * unfold_login. within_auto ltac:(first [exact I | split; exact I]).
      * intros targetUser. unfold_delivery.
        within_auto ltac:(first [exact I | split; exact I]).
      * split; [exact I | reflexivity].
      * intros data prefix. unfold saveResults.
        within_auto ltac:(first [exact I | split; exact I]).
    + subst delay. unfold js_or.
      destruct (truthy (prop options "delay")) eqn:Hd; [exact Hd | reflexivity].
    + intros Hd. subst delay. unfold js_or. rewrite Hd. reflexivity.
    + intros Hne. unfold not_false.
      destruct (prop options "headless") as [| |[]| | | |]; try reflexivity.
      contradiction.
Qed.

Lemma singleton_captchaApiKey (v : JsVal) :
  prop ({[ "captchaApiKey" := v ]} : gmap string JsVal) "captchaApiKey" = v.
Proof. unfold prop. rewrite lookup_singleton_eq. reflexivity. Qed.

(** X12. Every call of the solving service carries the key of the options and a
    site key that is neither empty nor holds an ampersand, and with a
    missing or otherwise falsy key the service is never called: so for
    [loginToReddit], and so for the entry points.  [redditMessenger] run
    without a key of its own calls the service with the placeholder of
    [DEFAULT_CONFIG]; the batch run without a key never calls it. *)
Theorem solver_calls_carry_the_configured_key username password messageText :
  (forall options w,
     let run := loginToReddit E username password options w in
     Forall (solver_call_ok (prop options "captchaApiKey")) (trace run) /\
     (truthy (prop options "captchaApiKey") = false ->
      Forall (fun ev => is_solver_call ev = false) (trace run))) /\
  (forall targetUser config w,
     let run := redditMessenger E username password targetUser messageText config w in
     Forall (solver_call_ok (prop (spread DEFAULT_CONFIG config) "captchaApiKey")) (trace run) /\
     (config !! "captchaApiKey" = None -> Forall (solver_call_ok placeholder_key) (trace run))) /\
  (forall usersFile options w,
     let run := processOptimizedBatch E username password usersFile messageText options w in
     Forall (solver_call_ok (prop options "captchaApiKey")) (trace run) /\
     (options !! "captchaApiKey" = None ->
      Forall (fun ev => is_solver_call ev = false) (trace run))).
Proof.
  assert (Hfree : forall key (t : list Event),
            truthy key = false -> Forall (solver_call_ok key) t ->
            Forall (fun ev => is_solver_call ev = false) t).
  { intros key t Hkey Ht. eapply Forall_impl; [exact Ht|].
    intros [[]|[] msg]; cbn; try reflexivity; intros (Htrue & _); congruence. }
  assert (Hsend : forall key targetUser,
            within (solver_call_ok key) (fun _ => True)
              (sendMessageToUser E targetUser messageText)).
  { intros key targetUser. unfold_delivery. within_auto frame_side. }
  assert (Hsave : forall key data prefix,
            within (solver_call_ok key) (fun _ => True) (saveResults E data prefix)).
  { intros key data prefix. unfold saveResults. within_auto frame_side. }
  assert (Hinit : forall key options,
            within (solver_call_ok key) (fun _ => True) (initBrowser E options)).
  { intros key options. unfold initBrowser. within_auto frame_side. }
  split; [|split].
  - intros options w run. subst run.
    destruct (loginToReddit_solver_calls E username password options w) as [Htrace _].
    split; [exact Htrace|]. intros Hkey. eapply Hfree; eassumption.
  - intros targetUser config w run. subst run.
    assert (Hall : Forall (solver_call_ok (prop (spread DEFAULT_CONFIG config) "captchaApiKey"))
                     (trace (redditMessenger E username password targetUser messageText
                               config w))).
    { apply (redditMessenger_frame E _ username password targetUser messageText config);
        first [apply Hinit | apply Hsend | apply Hsave | exact I | intros; exact I | idtac].
      pose proof (loginToReddit_solver_calls E username password
                    {[ "captchaApiKey" := prop (spread DEFAULT_CONFIG config) "captchaApiKey" ]})
        as Hlogin.
      rewrite singleton_captchaApiKey in Hlogin. exact Hlogin. }
    split; [exact Hall|]. intros Hnone.
    rewrite merged_option, Hnone in Hall. exact Hall.
  - intros usersFile options w run. subst run.
    assert (Hall : Forall (solver_call_ok (prop options "captchaApiKey"))
                     (trace (processOptimizedBatch E username password usersFile messageText
                               options w))).
    { apply (processOptimizedBatch_frame E _ username password usersFile messageText options);
        first [apply Hinit | apply Hsend | apply Hsave | exact I | intros; exact I | idtac].
      pose proof (loginToReddit_solver_calls E username password
                    {[ "captchaApiKey" := prop options "captchaApiKey" ]}) as Hlogin.
      rewrite singleton_captchaApiKey in Hlogin. exact Hlogin. }
    split; [exact Hall|]. intros Hnone.
    eapply Hfree; [|exact Hall]. unfold prop. rewrite Hnone. reflexivity.
Qed.

End EntryPointFacts.

(** ** What a run leaves behind *)

Section RunInversionBlocks.
Context {W : Type} (E : Env W).

Lemma call_ok_respond c w a t w' :
  call E c w = (Ok a, t, w') -> respond E c w = (None, w') /\ t = [Done c].
Proof.
  unfold call. destruct (respond E c w) as [[msg|] w1]; [discriminate|].
  intros [= _ <- <-]. split; reflexivity.
Qed.

Lemma call_replied c w :
  exists reply w1,
    respond E c w = (reply, w1) /\
    call E c w =
      (match reply with None => Ok tt | Some msg => Err (Rejected msg) end,
       [replied c reply], w1).
Proof.
  unfold call. destruct (respond E c w) as [[msg|] w1];
    eexists _, _; split; reflexivity.
Qed.

Lemma try_finally_ok_inv {A} (m : M W A) (cleanup : M W unit) w b t w' :
  try_finally m cleanup w = (Ok b, t, w') ->
  exists t1 w1 t2,
    m w = (Ok b, t1, w1) /\ cleanup w1 = (Ok tt, t2, w') /\ t = t1 ++ t2.
Proof.
  unfold try_finally. destruct (m w) as [[r t1] w1].
  destruct (cleanup w1) as [[[[]|e] t2] w2] eqn:Hc; [|discriminate].
  intros [= -> <- <-]. exists t1, w1, t2. repeat split. exact Hc.
Qed.

Lemma saveResults_shape data prefix w :
  exists made w1 written w2,
    saveResults E data prefix w =
      (match written with
       | None => Ok (results_file prefix (clock E w1))
       | Some msg => Err (Rejected msg)
       end,
       [ replied (Mkdir "./results") made;
         replied (WriteFile (results_file prefix (clock E w1)) data) written ],
       w2).
Proof.
  destruct (respond E (Mkdir "./results") w) as [made w1] eqn:Hmade.
  destruct (respond E (WriteFile (results_file prefix (clock E w1)) data) w1)
    as [written w2] eqn:Hwrite.
  exists made, w1, written, w2. unfold saveResults.
  assert (Hdir : try_catch (call E (Mkdir "./results")) (fun _ => ret tt) w =
                 (Ok tt, [replied (Mkdir "./results") made], w1)).
  { unfold try_catch, call. rewrite Hmade. destruct made; reflexivity. }
  erewrite bind_ok by exact Hdir.
  erewrite bind_ok by reflexivity.
  fold (results_file prefix (clock E w1)).
  destruct written as [msg|].
  - erewrite bind_err by (apply call_fail; exact Hwrite). reflexivity.
  - erewrite bind_ok by (apply call_done; exact Hwrite). reflexivity.
Qed.

Lemma saveResults_ok_inv data prefix w file t w' :
  saveResults E data prefix w = (Ok file, t, w') ->
  In (Done (WriteFile file data)) t.
Proof.
  destruct (saveResults_shape data prefix w) as (made & w1 & [msg|] & w2 & ->);
    [discriminate|].
  intros [= <- <- _]. right. left. reflexivity.
Qed.

(** The [catch] block of [redditMessenger]: one attempt to write the
    failure record, then the error again, or the error of the write. *)
Lemma report_failure_shape {A} options targetUser e w :
  exists made file written w2,
    (report_failure E options targetUser e : M W A) w =
      (Err (match written with None => e | Some msg => Rejected msg end),
       [ replied (Mkdir "./results") made;
         replied (WriteFile file
                    (FailedReport
                       [ {| user := targetUser; error := message e;
                            timestamp := clock E w |} ]
                       {| headless := prop options "headless";
                          proxyUsed := truthy (prop options "proxy") |}))
                 written ],
       w2).
Proof.
  unfold report_failure. erewrite bind_ok by reflexivity. rewrite prepend_nil.
  match goal with |- context [saveResults E ?data ?prefix] =>
    destruct (saveResults_shape data prefix w) as (made & w1 & written & w2 & Hsave)
  end.
  exists made, (results_file "failed-message" (clock E w1)), written, w2.
  destruct written as [msg|].
  - erewrite bind_err by exact Hsave. reflexivity.
  - erewrite bind_ok by exact Hsave. reflexivity.
Qed.

End RunInversionBlocks.

Section Records.
Context {W : Type} (E : Env W).

Lemma try_catch_ok_inv {A} (m : M W A) (handler : Exn -> M W A) w a t w' :
  (forall e w0 a0 t0 w1, handler e w0 <> (Ok a0, t0, w1)) ->
  try_catch m handler w = (Ok a, t, w') -> m w = (Ok a, t, w').
Proof.
  intros Hh. unfold try_catch. destruct (m w) as [[[a0|e] t1] w1]; [trivial|].
  destruct (handler e w1) as [[[a0|e0] t2] w2] eqn:Hrun; [|discriminate].
  exfalso. eapply Hh, Hrun.
Qed.

Lemma report_failure_throws {A} options targetUser e w (a : A) t w' :
  report_failure E options targetUser e w <> (Ok a, t, w').
Proof.
  destruct (report_failure_shape E (A := A) options targetUser e w)
    as (made & file & written & w2 & ->). discriminate.
Qed.

(** A run of [redditMessenger] that returns has written the record of the
    message and closed the browser last. *)
Lemma redditMessenger_returns username password targetUser messageText config w b t w' :
  redditMessenger E username password targetUser messageText config w = (Ok b, t, w') ->
  (exists file now configuration,
     In (Done (WriteFile file (SingleReport [targetUser] messageText now configuration))) t) /\
  last t = Some (Done Close).
Proof.
  unfold redditMessenger. intros H.
  apply bind_ok_inv in H as ([] & t0 & w1 & r & _ & H & ->).
  apply try_finally_ok_inv in H as (tb & wb & tc & H & Hclose & ->).
  apply call_ok_respond in Hclose as [_ ->].
  apply try_catch_ok_inv in H; [|intros; apply report_failure_throws].
  apply bind_ok_inv in H as (b1 & t1 & w2 & r1 & _ & H & ->).
  apply bind_ok_inv in H as (b2 & t2 & w3 & r2 & _ & H & ->).
  apply bind_ok_inv in H as (now & t3 & w4 & r3 & _ & H & ->).
  apply bind_ok_inv in H as (file & t4 & w5 & r4 & Hsave & _ & ->).
  apply saveResults_ok_inv in Hsave. split.
  - eexists file, now, _. repeat (rewrite in_app_iff || cbn [In]). eauto 10.
  - rewrite app_assoc. apply last_snoc.
Qed.

(** X20. Every run of [redditMessenger] ends in one of three ways.  It returns
    [true], having written the record of the message and closed the browser.
    Or it throws after an attempt to write a failure record that names the
    target -- and when that record was written and the close went through,
    the error thrown is the one the record quotes.  Or the delivery went
    through and the record was written, but [browser.close()] was rejected:
    then that rejection is thrown. *)
Theorem messenger_outcome_and_record username password targetUser messageText config w :
  let options := spread DEFAULT_CONFIG config in
  let configuration :=
    {| headless := prop options "headless"; proxyUsed := truthy (prop options "proxy") |} in
  let run := redditMessenger E username password targetUser messageText config w in
  let recorded :=
    exists file now,
      In (Done (WriteFile file (SingleReport [targetUser] messageText now configuration)))
         (trace run) in
  match outcome run with
  | Ok b => b = true /\ recorded /\ last (trace run) = Some (Done Close)
  | Err e =>
      (exists file failure reply,
         In (replied (WriteFile file (FailedReport [failure] configuration)) reply)
            (trace run) /\
         user failure = targetUser /\
         (reply = None -> (forall msg, last (trace run) <> Some (Refused Close msg)) ->
          error failure = message e)) \/
      (exists msg,
         e = Rejected msg /\ last (trace run) = Some (Refused Close msg) /\ recorded)
  end.
Proof.
  cbn zeta. unfold redditMessenger.
  set (options := spread DEFAULT_CONFIG config).
  destruct (initBrowser E options w) as [[[[]|e0] t0] w1] eqn:Hinit.
  - (* the session exists *)
    erewrite bind_ok by (apply try_catch_ok; exact Hinit).
    rewrite outcome_prepend, trace_prepend.
    match goal with |- context [try_finally (try_catch ?m ?h) _ w1] =>
      set (body := m); set (handler := h) end.
    destruct (body w1) as [[[b|e1] tb] wb] eqn:Hbody.
    + (* the delivery went through *)
      assert (Hrec : b = true /\
                exists file now,
                  In (Done (WriteFile file
                              (SingleReport [targetUser] messageText now
                                 {| headless := prop options "headless";
                                    proxyUsed := truthy (prop options "proxy") |}))) tb).
      { subst body.
        apply bind_ok_inv in Hbody as (b1 & t1 & w2 & r1 & _ & Hbody & ->).
        apply bind_ok_inv in Hbody as (b2 & t2 & w3 & r2 & _ & Hbody & ->).
        apply bind_ok_inv in Hbody as (now & t3 & w4 & r3 & _ & Hbody & ->).
        apply bind_ok_inv in Hbody as (file & t4 & w5 & r4 & Hsave & Hret & ->).
        injection Hret as <- <- <-. split; [reflexivity|].
        exists file, now. apply saveResults_ok_inv in Hsave.
        rewrite !in_app_iff. auto. }
      destruct Hrec as [-> (file & now & Hin)].
      unfold try_finally. rewrite (try_catch_ok _ _ _ _ _ _ Hbody).
      destruct (call_replied E Close wb) as (reply & wc & _ & ->).
      destruct reply as [msg|]; cbn [outcome trace fst snd].
      * right. exists msg. split; [reflexivity|]. split.
        -- rewrite app_assoc. apply last_snoc.
        -- exists file, now. rewrite !in_app_iff. auto.
      * split; [reflexivity|]. split.
        -- exists file, now. rewrite !in_app_iff. auto.
        -- rewrite app_assoc. apply last_snoc.
    + (* an exception in the try block *)
      subst handler.
      destruct (report_failure_shape E (A := bool) options targetUser e1 wb)
        as (made & file & written & w2 & Hreport).
      unfold try_finally.
      rewrite (try_catch_err _ _ _ _ _ _ Hbody), Hreport. cbn [prepend].
      destruct (call_replied E Close w2) as (reply & wc & _ & ->).
      assert (Hin : forall tail,
                In (replied (WriteFile file
                               (FailedReport
                                  [ {| user := targetUser; error := message e1;
                                       timestamp := clock E wb |} ]
                                  {| headless := prop options "headless";
                                     proxyUsed := truthy (prop options "proxy") |}))
                            written)
                   (t0 ++ (tb ++ [replied (Mkdir "./results") made;
                                  replied (WriteFile file
                                    (FailedReport
                                       [ {| user := targetUser; error := message e1;
                                            timestamp := clock E wb |} ]
                                       {| headless := prop options "headless";
                                          proxyUsed := truthy (prop options "proxy") |}))
                                    written]) ++ tail)).
      { intros tail. rewrite !in_app_iff. cbn [In]. auto 10. }
      destruct reply as [msg|]; cbn [outcome trace fst snd]; left;
        eexists file, _, written; (split; [apply Hin|]); (split; [reflexivity|]).
      * intros _ Hlast. exfalso. apply (Hlast msg).
        rewrite !app_assoc. apply last_snoc.
      * intros ->. intros _. reflexivity.
  - (* no session *)
    destruct (report_failure_shape E (A := unit) options targetUser e0 w1)
      as (made & file & written & w2 & Hreport).
    erewrite bind_err
      by (erewrite try_catch_err by exact Hinit; rewrite Hreport; reflexivity).
    cbn [outcome trace fst snd]. left.
    eexists file, _, written.
    split; [rewrite !in_app_iff; cbn [In]; eauto 10|].
    split; [reflexivity|].
    intros ->. intros _. reflexivity.
Qed.

(** X21. The browser is closed only once [initBrowser] has returned.  When the
    launch succeeds and one of the three calls after it is rejected, neither
    entry point closes the browser it has launched: the run throws with no
    close in its trace. *)
Theorem setup_failure_leaves_the_browser_open username password messageText e t0 :
  (forall targetUser config w w1,
     initBrowser E (spread DEFAULT_CONFIG config) w = (Err e, t0, w1) ->
     let run := redditMessenger E username password targetUser messageText config w in
     (exists e', outcome run = Err e') /\
     Forall (fun ev => is_close ev = false) (trace run)) /\
  (forall usersFile options w w1 w2,
     respond E (ReadFile usersFile) w = (None, w1) ->
     initBrowser E (<[ "headless" := JBool (not_false (prop options "headless")) ]>
                    (<[ "proxy" := prop options "proxy" ]> ∅)) w1 = (Err e, t0, w2) ->
     processOptimizedBatch E username password usersFile messageText options w =
       (Err e, Done (ReadFile usersFile) :: t0, w2) /\
     Forall (fun ev => is_close ev = false) (Done (ReadFile usersFile) :: t0)).
Proof.
  split.
  - intros targetUser config w w1 Hinit run. subst run. split.
    + unfold redditMessenger.
      destruct (report_failure_shape E (A := unit) (spread DEFAULT_CONFIG config)
                  targetUser e w1) as (made & file & written & w2 & Hreport).
      erewrite bind_err
        by (erewrite try_catch_err by exact Hinit; rewrite Hreport; reflexivity).
      eexists. reflexivity.
    + eapply no_session_no_close. exact Hinit.
  - intros usersFile options w w1 w2 Hread Hinit. split.
    + unfold processOptimizedBatch.
      erewrite bind_ok by (apply call_done; exact Hread).
      erewrite bind_ok by reflexivity. rewrite prepend_nil.
      erewrite bind_err by exact Hinit. reflexivity.
    + constructor; [reflexivity|].
      match type of Hinit with initBrowser E ?browserOptions w1 = _ =>
        pose proof (proj1 (initBrowser_quiet E browserOptions w1)) as Hquiet end.
      rewrite Hinit in Hquiet. cbn in Hquiet.
      eapply Forall_impl; [exact Hquiet | intros ev [H _]; exact H].
Qed.

(** X22. A users file that cannot be read ends the batch before anything is
    launched.  A users file without a name -- empty, or blank lines and
    comments only -- does not: the batch still launches the browser and logs
    in, then writes a report without entries and closes. *)
Theorem batch_without_targets username password usersFile messageText options w :
  (forall msg w1,
     respond E (ReadFile usersFile) w = (Some msg, w1) ->
     processOptimizedBatch E username password usersFile messageText options w =
       (Err (Rejected msg), [Refused (ReadFile usersFile) msg], w1)) /\
  (forall w1 t0 w2 b t1 w3,
     respond E (ReadFile usersFile) w = (None, w1) ->
     parseUsers (file_data E w1) = [] ->
     initBrowser E (<[ "headless" := JBool (not_false (prop options "headless")) ]>
                    (<[ "proxy" := prop options "proxy" ]> ∅)) w1 = (Ok tt, t0, w2) ->
     loginToReddit E username password
       {[ "captchaApiKey" := prop options "captchaApiKey" ]} w2 = (Ok b, t1, w3) ->
     exists made file written closed,
       let run := processOptimizedBatch E username password usersFile messageText options w in
       trace run =
         Done (ReadFile usersFile) :: t0 ++ t1 ++
         [ replied (Mkdir "./results") made;
           replied (WriteFile file (BatchReport no_results)) written;
           replied Close closed ] /\
       (written = None -> closed = None -> outcome run = Ok no_results)).
Proof.
  split.
  - intros msg w1 Hread. unfold processOptimizedBatch.
    erewrite bind_err by (apply call_fail; exact Hread). reflexivity.
  - intros w1 t0 w2 b t1 w3 Hread Hnone Hinit Hlogin.
    unfold processOptimizedBatch.
    erewrite bind_ok by (apply call_done; exact Hread).
    erewrite bind_ok by reflexivity. rewrite prepend_nil.
    erewrite bind_ok by exact Hinit.
    rewrite Hnone.
    destruct (saveResults_shape E (BatchReport no_results) "batch" w3)
      as (made & w4 & written & w5 & Hsave).
    destruct (call_replied E Close w5) as (closed & w6 & _ & Hclose).
    exists made, (results_file "batch" (clock E w4)), written, closed.
    unfold try_finally. rewrite try_catch_rethrow.
    erewrite bind_ok by exact Hlogin.
    erewrite bind_ok by reflexivity. rewrite prepend_nil.
    fold no_results.
    destruct written as [msg|].
    + erewrite bind_err by exact Hsave. cbn [prepend]. rewrite Hclose.
      destruct closed; cbn.
      all: split; [rewrite <- !app_assoc; reflexivity | discriminate].
    + erewrite bind_ok by exact Hsave. cbn [prepend ret]. rewrite Hclose.
      destruct closed; cbn.
      * split; [rewrite <- !app_assoc; reflexivity | discriminate].
      * split; [rewrite <- !app_assoc; reflexivity | reflexivity].
Qed.

(** X23. The results a batch returns are the results it has written: a run that
    returns has read the users file, written a report holding the very
    object it returns, and closed the browser last; every name of the file
    is in exactly one of the two lists, so their lengths add up to the
    number of names. *)
Theorem batch_report_is_the_result
    username password usersFile messageText options w results t w' :
  processOptimizedBatch E username password usersFile messageText options w
    = (Ok results, t, w') ->
  exists w1,
    respond E (ReadFile usersFile) w = (None, w1) /\
    Permutation (success results ++ map user (failed results))
      (parseUsers (file_data E w1)) /\
    (length (success results) + length (failed results)
     = length (parseUsers (file_data E w1)))%nat /\
    (exists file, In (Done (WriteFile file (BatchReport results))) t) /\
    last t = Some (Done Close).
Proof.
  unfold processOptimizedBatch. intros H.
  apply bind_ok_inv in H as ([] & t1 & w1 & r1 & Hread & H & ->).
  apply call_ok_respond in Hread as [Hread ->].
  apply bind_ok_inv in H as (usersData & t2 & w2 & r2 & Hdata & H & ->).
  injection Hdata as <- <- <-.
  apply bind_ok_inv in H as ([] & t3 & w3 & r3 & _ & H & ->).
  apply try_finally_ok_inv in H as (t4 & w4 & t5 & H & Hclose & ->).
  apply call_ok_respond in Hclose as [_ ->].
  rewrite try_catch_rethrow in H.
  apply bind_ok_inv in H as (b & t6 & w6 & r6 & _ & H & ->).
  apply bind_ok_inv in H as (results' & t7 & w7 & r7 & Hloop & H & ->).
  apply bind_ok_inv in H as (file & t8 & w8 & r8 & Hsave & H & ->).
  injection H as <- <- <-.
  exists w1. split; [exact Hread|].
  destruct (batchLoop_results E (parseUsers (file_data E w1)) messageText
              (js_or (prop options "delay") (JNum 30000)) w6) as (res & Hout & Hperm).
  rewrite Hloop in Hout. injection Hout as <-.
  split; [exact Hperm|]. split.
  - apply Permutation_length in Hperm.
    rewrite length_app, length_map in Hperm. exact Hperm.
  - split.
    + exists file. apply saveResults_ok_inv in Hsave.
      repeat (rewrite in_app_iff || cbn [In]). tauto.
    + cbn [app]. rewrite !app_assoc. rewrite last_cons.
      rewrite !last_snoc. reflexivity.
Qed.

End Records.

(** ** The command line *)

Section CommandLine.
Context {W : Type} (E : Env W).

Lemma first_template_text :
  Cli.first_template = "Hello, I saw your post and wanted to connect!".
Proof. vm_compute. reflexivity. Qed.

Lemma arg_or_cases {A} args i (given : string -> A) fallback :
  (exists a, nth_error args i = Some a /\ a <> EmptyString /\
             Cli.arg_or args i given fallback = given a) \/
  ((nth_error args i = None \/ nth_error args i = Some EmptyString) /\
   Cli.arg_or args i given fallback = fallback).
Proof.
  unfold Cli.arg_or. destruct (nth_error args i) as [[|c a]|].
  - right. split; [right; reflexivity | reflexivity].
  - left. exists (String c a). repeat split. discriminate.
  - right. split; [left; reflexivity | reflexivity].
Qed.

(** X24. The command line of [index.js].  With fewer than three arguments it
    exits with code 1 and calls nothing.  Otherwise it runs
    [redditMessenger] on the first three arguments, with a message that is
    never empty -- the fourth argument, or the first template when that is
    missing or empty -- and a configuration that holds the proxy and nothing
    else; the exit code is 0 when that run returns and 1 when it throws, and
    code 0 means the record of the message was written and the browser
    closed. *)
Theorem command_line_exit_code args w :
  let code := (Cli.main E args w).1.1 in
  let t := (Cli.main E args w).1.2 in
  ((length args < 3)%nat -> Cli.main E args w = (1, [], w)) /\
  ((3 <= length args)%nat ->
   exists messageText proxy,
     let username := nth 0 args EmptyString in
     let password := nth 1 args EmptyString in
     let targetUser := nth 2 args EmptyString in
     let config : gmap string JsVal := {[ "proxy" := proxy ]} in
     Cli.parse args = Cli.Run username password targetUser messageText config /\
     messageText <> EmptyString /\
     (forall m, nth_error args 3 = Some m -> m <> EmptyString -> messageText = m) /\
     (nth_error args 3 = None \/ nth_error args 3 = Some EmptyString ->
      messageText = "Hello, I saw your post and wanted to connect!") /\
     (forall p, nth_error args 4 = Some p -> p <> EmptyString -> proxy = JStr p) /\
     (nth_error args 4 = None \/ nth_error args 4 = Some EmptyString -> proxy = JNull) /\
     (code = 0 \/ code = 1) /\
     (code = 0 <->
      exists b,
        outcome (redditMessenger E username password targetUser messageText config w)
        = Ok b) /\
     (code = 0 ->
      (exists file now configuration,
         In (Done (WriteFile file
                     (SingleReport [targetUser] messageText now configuration))) t) /\
      last t = Some (Done Close))).
Proof.
  cbn zeta. split.
  - intros Hshort. unfold Cli.main, Cli.parse.
    destruct (Nat.ltb_spec (length args) 3) as [_|Hge]; [reflexivity | lia].
  - intros Hlong.
    exists (Cli.arg_or args 3 (fun m => m) Cli.first_template),
           (Cli.arg_or args 4 JStr JNull).
    assert (Hparse : Cli.parse args =
              Cli.Run (nth 0 args EmptyString) (nth 1 args EmptyString)
                (nth 2 args EmptyString)
                (Cli.arg_or args 3 (fun m => m) Cli.first_template)
                {[ "proxy" := Cli.arg_or args 4 JStr JNull ]}).
    { unfold Cli.parse.
      destruct (Nat.ltb_spec (length args) 3) as [Hlt|_]; [lia | reflexivity]. }
    split; [exact Hparse|].
    split.
    { destruct (arg_or_cases args 3 (fun m => m) Cli.first_template)
        as [(m & _ & Hne & ->) | (_ & ->)];
        [exact Hne | rewrite first_template_text; discriminate]. }
    split.
    { intros m Hm Hne.
      destruct (arg_or_cases args 3 (fun m => m) Cli.first_template)
        as [(m' & Hm' & _ & ->) | ([Hnone | Hnone] & _)]; congruence. }
    split.
    { intros Hnone.
      destruct (arg_or_cases args 3 (fun m => m) Cli.first_template)
        as [(m' & Hm' & Hne & _) | (_ & ->)];
        [destruct Hnone; congruence | apply first_template_text]. }
    split.
    { intros p Hp Hne.
      destruct (arg_or_cases args 4 JStr JNull)
        as [(p' & Hp' & _ & ->) | ([Hnone | Hnone] & _)]; congruence. }
    split.
    { intros Hnone.
      destruct (arg_or_cases args 4 JStr JNull)
        as [(p' & Hp' & Hne & _) | (_ & ->)];
        [destruct Hnone; congruence | reflexivity]. }
    unfold Cli.main. rewrite Hparse.
    destruct (redditMessenger E _ _ _ _ _ w) as [[[b|e] t] w'] eqn:Hrun;
      cbn [fst snd outcome trace].
    + split; [left; reflexivity|]. split.
      * split; [intros _; exists b; reflexivity | reflexivity].
      * intros _. eapply redditMessenger_returns, Hrun.
    + split; [right; reflexivity|]. split.
      * split; [discriminate | intros [b [=]]].
      * discriminate.
Qed.

End CommandLine.

(** ** The errors of a delivery and of a login *)

Section Failures.
Context {W : Type} (E : Env W) (own : string -> Prop) (R : Call -> Prop).

Lemma fails_ret {A} (a : A) : fails_with own R (ret a : M W A).
Proof. intros w e t w' [=]. Qed.

Lemma fails_observe {A} (f : W -> A) : fails_with own R (observe f).
Proof. intros w e t w' [=]. Qed.

Lemma fails_timer c : fails_with own R (timer E c).
Proof. intros w e t w' [=]. Qed.

Lemma fails_throw {A} msg : own msg -> fails_with own R (throw msg : M W A).
Proof. intros Hown w e t w' [= <- _ _]. left. exists msg. split; [reflexivity | exact Hown]. Qed.

Lemma fails_call c : R c -> fails_with own R (call E c).
Proof.
  intros Hc w e t w'. unfold call.
  destruct (respond E c w) as [[msg|] w1]; [|discriminate].
  intros [= <- <- _]. right. exists c, msg, []. repeat split. exact Hc.
Qed.

Lemma fails_bind {A B} (m : M W A) (k : A -> M W B) :
  fails_with own R m -> (forall a, fails_with own R (k a)) -> fails_with own R (bind m k).
Proof.
  intros Hm Hk w e t w' H.
  apply bind_err_inv in H as [H | (a & t1 & w1 & t2 & _ & H & ->)].
  - eapply Hm, H.
  - destruct (Hk a _ _ _ _ H) as [Hown | (c & msg & t0 & -> & He & Hc)];
      [left; exact Hown|].
    right. exists c, msg, (t1 ++ t0). rewrite app_assoc. repeat split; assumption.
Qed.

(** What the [try] block throws is the handler's business. *)
Lemma fails_try_catch {A} (m : M W A) (handler : Exn -> M W A) :
  (forall e, fails_with own R (handler e)) -> fails_with own R (try_catch m handler).
Proof.
  intros Hh w e t w'. unfold try_catch.
  destruct (m w) as [[[a|e0] t1] w1]; [discriminate|].
  destruct (handler e0 w1) as [[r t2] w2] eqn:Hrun. cbn. intros [= -> <- <-].
  destruct (Hh e0 _ _ _ _ Hrun) as [Hown | (c & msg & t0 & -> & He & Hc)];
    [left; exact Hown|].
  right. exists c, msg, (t1 ++ t0). rewrite app_assoc. repeat split; assumption.
Qed.

Lemma fails_try_catch_rethrow {A} (m : M W A) :
  fails_with own R m -> fails_with own R (try_catch m (fun error => rethrow error)).
Proof. intros Hm w e t w'. rewrite try_catch_rethrow. apply Hm. Qed.

End Failures.

Ltac fails_step :=
  lazymatch goal with
  | |- fails_with _ _ (ret _) => apply fails_ret
  | |- fails_with _ _ (observe _) => apply fails_observe
  | |- fails_with _ _ (bind _ _) => apply fails_bind; [ | intros ? ]
  | |- fails_with _ _ (call _ _) => apply fails_call
  | |- fails_with _ _ (timer _ _) => apply fails_timer
  | |- fails_with _ _ (throw _) => apply fails_throw
  | |- fails_with _ _ (try_catch _ (fun error => rethrow error)) =>
      apply fails_try_catch_rethrow
  | |- fails_with _ _ (try_catch _ _) => apply fails_try_catch; intros ?
  | |- fails_with _ _ (if ?b then _ else _) => destruct b
  | |- fails_with _ _ (match ?o with Some _ => _ | None => _ end) => destruct o
  | |- fails_with _ _ (evaluate _ _ _) => unfold evaluate
  | |- fails_with _ _ (evaluate_action _ _) => unfold evaluate_action
  end.

Ltac fails_auto side := repeat fails_step; intros; side.

Section ErrorFacts.
Context {W : Type} (E : Env W).

Lemma user_unavailable_cases targetUser userStatus :
  user_unavailable_message targetUser userStatus = "User " +:+ targetUser +:+ " not found" \/
  user_unavailable_message targetUser userStatus
    = "User " +:+ targetUser +:+ " account suspended".
Proof.
  unfold user_unavailable_message. destruct (String.eqb userStatus "not_found"); auto.
Qed.

(** X17. The errors of [sendMessageToUser] -- the texts that a batch records in
    [results.failed] -- are its own five, or the rejection of the last call
    it made.  That call is never the wait for the composer nor the click on
    it: their rejections are caught. *)
Theorem delivery_errors_classified targetUser messageText w e t w' :
  sendMessageToUser E targetUser messageText w = (Err e, t, w') ->
  (exists msg, e = Thrown msg /\ delivery_error targetUser msg) \/
  (exists c msg t0,
     t = t0 ++ [Refused c msg] /\ e = Rejected msg /\ ~ tolerated_in_delivery c).
Proof.
  revert w e t w'.
  change (fails_with (delivery_error targetUser) (fun c => ~ tolerated_in_delivery c)
            (sendMessageToUser E targetUser messageText)).
  unfold sendMessageToUser, extractChatUrl, sendMessageInChatInterface,
    composeAndSend, confirmDelivery.
  fails_auto ltac:(first
    [ solve [intros [H|H]; discriminate H]
    | solve [unfold delivery_error;
             match goal with
             | |- context [user_unavailable_message ?u ?s] =>
                 destruct (user_unavailable_cases u s) as [-> | ->]; auto
             end]
    | solve [unfold delivery_error; auto 6]
    | solve [unfold delivery_error; right; right; right; left; eexists; reflexivity] ]).
Qed.

(** X13. The errors of [loginToReddit] are its own four, or the rejection of the
    last call it made.  That call is never a script of the verification:
    their rejections are caught and turned into the verification error. *)
Theorem login_errors_classified username password options w e t w' :
  loginToReddit E username password options w = (Err e, t, w') ->
  (exists msg, e = Thrown msg /\ login_error msg) \/
  (exists c msg t0,
     t = t0 ++ [Refused c msg] /\ e = Rejected msg /\
     c <> Evaluate LoginIndicators /\ c <> Evaluate RetryVerification).
Proof.
  revert w e t w'.
  change (fails_with login_error
            (fun c => c <> Evaluate LoginIndicators /\ c <> Evaluate RetryVerification)
            (loginToReddit E username password options)).
  unfold loginToReddit, submitCredentials, handleCaptchaIfPresent, verifyLoginSuccess.
  fails_auto ltac:(first
    [ solve [split; discriminate]
    | solve [unfold login_error; auto 6] ]).
Qed.

End ErrorFacts.

(** * The batch run, the close and the delivery check, at the entry points *)

Section BatchRecords.
Context {W : Type} (E : Env W).

Lemma attempts_next_nonempty messageText delay w targets runs :
  Attempts E messageText delay w targets runs -> targets <> [] -> runs <> [].
Proof. intros H. destruct H; intros Hne; [contradiction | discriminate | discriminate]. Qed.

(** The replay of the loop makes the attempts of the description and
    records each of them: a target whose attempt returned on
    [results.success], the others as failure entries. *)
Lemma replay_attempts messageText delay users : forall results w,
  exists runs,
    Attempts E messageText delay w users runs /\
    (replay E messageText delay users results w).1 =
      ({| success := success results ++ succeeded users runs;
          failed := failed results ++ failures E users runs |},
       interleave (Done (Pace delay)) (map trace runs)).
Proof.
  induction users as [|targetUser rest IH]; intros results w.
  - exists []. split; [constructor|]. cbn. rewrite !app_nil_r. destruct results; reflexivity.
  - cbn [replay].
    set (run := sendMessageToUser E targetUser messageText w).
    destruct rest as [|next rest].
    + exists [run]. split; [constructor|].
      cbn. unfold record_outcome.
      destruct (outcome run); unfold push_success, push_failed;
        cbn [success failed]; rewrite !app_nil_r; reflexivity.
    + set (w1 := (respond E (Pace delay) (final run)).2).
      destruct (IH (record_outcome E results targetUser run) w1) as (runs & Hruns & Heq).
      exists (run :: runs). split; [constructor; exact Hruns|].
      destruct (replay E messageText delay (next :: rest)
                  (record_outcome E results targetUser run) w1) as [[results' t] w2].
      cbn [fst] in Heq |- *. injection Heq as -> ->.
      pose proof (attempts_next_nonempty _ _ _ _ _ Hruns ltac:(discriminate)) as Hne.
      destruct runs as [|run' runs]; [contradiction|].
      cbn [map]. rewrite interleave_cons. f_equal.
      unfold record_outcome. cbn [succeeded failures].
      destruct (outcome run); cbn [success failed push_success push_failed];
        rewrite <- !app_assoc; reflexivity.
Qed.

Lemma batchLoop_attempts users messageText delay w :
  exists runs w',
    Attempts E messageText delay w users runs /\
    batchLoop E users messageText delay w =
      (Ok {| success := succeeded users runs; failed := failures E users runs |},
       interleave (Done (Pace delay)) (map trace runs), w').
Proof.
  destruct (replay_attempts messageText delay users {| success := []; failed := [] |} w)
    as (runs & Hruns & Heq).
  rewrite batchLoop_replay.
  destruct (replay E messageText delay users _ w) as [[results t] w'].
  cbn [fst success failed app] in Heq. injection Heq as -> ->.
  exists runs, w'. split; [exact Hruns | reflexivity].
Qed.

(** C1. The batch run attempts every target of the users file and never
    stops at a delivery error.  The loop makes one attempt per target, in
    order, each from where the one before ended; it returns [results] whose
    [success] holds the targets whose attempt returned and whose [failed]
    holds, for each other target, the entry [{user, error: e.message,
    timestamp}] of the error [e] its attempt threw.  After a successful
    login [processOptimizedBatch] makes exactly these attempts, writes these
    results and returns them.  An iteration whose delivery throws appends
    its entry and goes on with the next index.  An exception of
    [loginToReddit], in contrast, ends the run: no delivery is attempted and
    the run throws. *)
Theorem delivery_errors_do_not_abort_the_batch :
  (forall users messageText delay w,
     exists runs,
       Attempts E messageText delay w users runs /\
       outcome (batchLoop E users messageText delay w) =
         Ok {| success := succeeded users runs; failed := failures E users runs |} /\
       trace (batchLoop E users messageText delay w) =
         interleave (Done (Pace delay)) (map trace runs) /\
       Permutation (succeeded users runs ++ map user (failures E users runs)) users) /\
  (forall username password usersFile messageText options w w1 t0 w2 b t1 w3,
     respond E (ReadFile usersFile) w = (None, w1) ->
     initBrowser E (<[ "headless" := JBool (not_false (prop options "headless")) ]>
                    (<[ "proxy" := prop options "proxy" ]> ∅)) w1 = (Ok tt, t0, w2) ->
     loginToReddit E username password
       {[ "captchaApiKey" := prop options "captchaApiKey" ]} w2 = (Ok b, t1, w3) ->
     let users := parseUsers (file_data E w1) in
     let delay := js_or (prop options "delay") (JNum 30000) in
     let run := processOptimizedBatch E username password usersFile messageText options w in
     exists runs made file written closed,
       Attempts E messageText delay w3 users runs /\
       trace run =
         Done (ReadFile usersFile) :: t0 ++ t1 ++
         interleave (Done (Pace delay)) (map trace runs) ++
         [ replied (Mkdir "./results") made;
           replied (WriteFile file
                      (BatchReport {| success := succeeded users runs;
                                      failed := failures E users runs |})) written;
           replied Close closed ] /\
       (written = None -> closed = None ->
        outcome run =
          Ok {| success := succeeded users runs; failed := failures E users runs |})) /\
  (forall users messageText delay remaining i results w e t w1,
     (i < length users)%nat ->
     sendMessageToUser E (nth i users EmptyString) messageText w = (Err e, t, w1) ->
     batch_for E users messageText delay (S remaining) i results w =
     prepend t
       (bind (if (i <? length users - 1)%nat then timer E (Pace delay) else ret tt)
             (fun _ => batch_for E users messageText delay remaining (S i)
                         {| success := success results;
                            failed := failed results ++
                              [ {| user := nth i users EmptyString;
                                   error := message e;
                                   timestamp := clock E w1 |} ] |})
             w1)) /\
  (forall username password usersFile messageText options w w1 t0 w2 e t1 w3,
     respond E (ReadFile usersFile) w = (None, w1) ->
     initBrowser E (<[ "headless" := JBool (not_false (prop options "headless")) ]>
                    (<[ "proxy" := prop options "proxy" ]> ∅)) w1 = (Ok tt, t0, w2) ->
     loginToReddit E username password
       {[ "captchaApiKey" := prop options "captchaApiKey" ]} w2 = (Err e, t1, w3) ->
     exists e' ev w4,
       processOptimizedBatch E username password usersFile messageText options w =
         (Err e', Done (ReadFile usersFile) :: t0 ++ t1 ++ [ev], w4) /\
       is_close ev = true /\ (ev = Done Close -> e' = e)).
Proof.
  split; [|split; [|split]].
  - intros users messageText delay w.
    destruct (batchLoop_attempts users messageText delay w) as (runs & w' & Hruns & Hloop).
    exists runs. rewrite Hloop. split; [exact Hruns|]. split; [reflexivity|].
    split; [reflexivity|].
    destruct (batchLoop_results E users messageText delay w) as (results & Hok & Hperm).
    rewrite Hloop in Hok. injection Hok as <-. exact Hperm.
  - intros username password usersFile messageText options w w1 t0 w2 b t1 w3
           Hread Hinit Hlogin users delay run. subst run.
    destruct (batchLoop_attempts users messageText delay w3) as (runs & w4 & Hruns & Hloop).
    destruct (saveResults_shape E
                (BatchReport {| success := succeeded users runs;
                                failed := failures E users runs |}) "batch" w4)
      as (made & w5 & written & w6 & Hsave).
    destruct (call_replied E Close w6) as (closed & w7 & _ & Hclose).
    exists runs, made, (results_file "batch" (clock E w5)), written, closed.
    split; [exact Hruns|].
    unfold processOptimizedBatch.
    erewrite bind_ok by (apply call_done; exact Hread).
    erewrite bind_ok by reflexivity. rewrite prepend_nil.
    erewrite bind_ok by exact Hinit.
    fold users. fold delay.
    unfold try_finally. rewrite try_catch_rethrow.
    erewrite bind_ok by exact Hlogin.
    erewrite bind_ok by exact Hloop.
    destruct written as [msg|].
    + erewrite bind_err by exact Hsave. cbn [prepend]. rewrite Hclose.
      destruct closed; cbn.
      all: split; [rewrite <- !app_assoc; reflexivity | discriminate].
    + erewrite bind_ok by exact Hsave. cbn [prepend ret]. rewrite Hclose.
      destruct closed; cbn.
      * split; [rewrite <- !app_assoc; reflexivity | discriminate].
      * split; [rewrite <- !app_assoc; reflexivity | reflexivity].
  - intros users messageText delay remaining i results w e t w1 Hi Hrun.
    rewrite batch_for_unfold.
    destruct (Nat.ltb_spec i (length users)); [|lia].
    rewrite (bind_ok _ _ _ _ _ _
               (iteration_recorded E messageText (nth i users EmptyString) results w)).
    unfold record_outcome. rewrite Hrun. reflexivity.
  - intros. eapply batch_login_failure; eassumption.
Qed.

End BatchRecords.

(** ** The delivery check, from the check to the loop *)

Section CheckedDelivery.
Context {W : Type} (E : Env W).

Lemma composeAndSend_rejections messageText :
  within (fun _ => True) (fun e => e <> Thrown delivery_failed_message)
    (composeAndSend E messageText).
Proof. unfold composeAndSend. within_auto ltac:(first [exact I | discriminate]). Qed.

Lemma confirmDelivery_decided w :
  last (trace (confirmDelivery E w)) = Some delivery_check ->
  outcome (confirmDelivery E w) =
    if String.eqb (Scripts.deliveryStatus (document E (final (confirmDelivery E w)))) "failed"
    then Err (Thrown delivery_failed_message) else Ok tt.
Proof.
  destruct (respond E (Evaluate DeliveryStatus) w) as [[msg|] w1] eqn:H.
  - rewrite (confirmDelivery_script_exception _ _ _ _ H). cbn. discriminate.
  - rewrite (confirmDelivery_run _ _ _ H). cbn. intros _.
    destruct (String.eqb _ _); reflexivity.
Qed.

Lemma sendMessageInChatInterface_decided messageText w :
  let run := sendMessageInChatInterface E messageText w in
  last (trace run) = Some delivery_check ->
  outcome run =
    if String.eqb (Scripts.deliveryStatus (document E (final run))) "failed"
    then Err (Thrown delivery_failed_message) else Ok tt.
Proof.
  cbn zeta. unfold sendMessageInChatInterface. intros Hlast.
  destruct (last_bind _ _ _ _ _ (composeAndSend_no_check E messageText) Hlast)
    as ([] & t1 & w1 & _ & -> & Hlast').
  rewrite outcome_prepend, final_prepend. apply confirmDelivery_decided. exact Hlast'.
Qed.

(** A delivery attempt that ends with the status script returning has been
    decided by the status alone. *)
Lemma sendMessageToUser_decided targetUser messageText w :
  let run := sendMessageToUser E targetUser messageText w in
  last (trace run) = Some delivery_check ->
  outcome run =
    if String.eqb (Scripts.deliveryStatus (document E (final run))) "failed"
    then Err (Thrown delivery_failed_message) else Ok true.
Proof.
  cbn zeta. unfold sendMessageToUser. rewrite try_catch_rethrow.
  intros Hlast.
  peel Hlast. peel Hlast. peel Hlast. peel Hlast.
  match type of Hlast with context [match ?o with Some _ => _ | None => _ end] =>
    destruct o as [chatUrl|]; [|discriminate Hlast] end.
  destruct (Js.is_empty chatUrl); [discriminate Hlast|].
  peel Hlast. peel Hlast. peel Hlast. peel Hlast.
  unfold bind in *.
  pose proof (sendMessageInChatInterface_decided messageText) as Hsend. cbn zeta in Hsend.
  match type of Hlast with context [sendMessageInChatInterface E messageText ?w0] =>
    specialize (Hsend w0);
    destruct (sendMessageInChatInterface E messageText w0) as [[[[]|e] t] w'] eqn:Hrun
  end.
  - cbn in *. rewrite app_nil_r in Hlast. specialize (Hsend Hlast).
    destruct (String.eqb _ _); [discriminate Hsend | reflexivity].
  - cbn in *. specialize (Hsend Hlast).
    destruct (String.eqb _ _); [injection Hsend as ->; reflexivity | discriminate Hsend].
Qed.

(** What [sendMessageInChatInterface] does once the message is composed and
    sent: the status script decides, and its rejection is passed on. *)
Lemma sendMessageInChatInterface_run messageText w t1 w1 reply w2 :
  composeAndSend E messageText w = (Ok tt, t1, w1) ->
  respond E (Evaluate DeliveryStatus) w1 = (reply, w2) ->
  sendMessageInChatInterface E messageText w =
    (match reply with
     | Some msg => Err (Rejected msg)
     | None =>
         if String.eqb (Scripts.deliveryStatus (document E w2)) "failed"
         then Err (Thrown delivery_failed_message) else Ok tt
     end,
     t1 ++ [replied (Evaluate DeliveryStatus) reply], w2).
Proof.
  intros Hsend Hcheck. unfold sendMessageInChatInterface.
  erewrite bind_ok by exact Hsend.
  destruct reply as [msg|].
  - rewrite (confirmDelivery_script_exception _ _ _ _ Hcheck). reflexivity.
  - rewrite (confirmDelivery_run _ _ _ Hcheck). reflexivity.
Qed.

(** C7. The delivery check of [sendMessageInChatInterface] throws its
    delivery error exactly when the status script has returned and the page
    text it read holds one of the two failure phrases; a rejection of the
    status script itself is passed on, whatever the text.  So it is for the
    check, and so for [sendMessageInChatInterface] once the message is
    composed and sent.  With neither a failure phrase nor a success
    indicator the status is unknown and the check returns.  A delivery
    attempt that ends with the status script returning throws the delivery
    error when the status is failed and returns [true] otherwise -- unknown
    included -- and then the batch loop goes on with the target appended to
    [results.success]. *)
Theorem delivery_fails_only_on_failure_phrase :
  (forall w,
     outcome (confirmDelivery E w) = Err (Thrown delivery_failed_message) <->
     exists w1,
       respond E (Evaluate DeliveryStatus) w = (None, w1) /\
       (Js.includes (body_textContent (document E w1)) "Failed to send" = true \/
        Js.includes (body_textContent (document E w1)) "Message failed" = true)) /\
  (forall w w1,
     respond E (Evaluate DeliveryStatus) w = (None, w1) ->
     let text := body_textContent (document E w1) in
     ((exists e, outcome (confirmDelivery E w) = Err e) <->
      (Js.includes text "Failed to send" = true \/
       Js.includes text "Message failed" = true)) /\
     (Js.includes text "Failed to send" = false ->
      Js.includes text "Message failed" = false ->
      present (document E w1) Selectors.message_sent = false ->
      Js.includes text "Message sent" = false ->
      Scripts.deliveryStatus (document E w1) = "unknown" /\
      confirmDelivery E w = (Ok tt, [delivery_check], w1))) /\
  (forall w msg w1,
     respond E (Evaluate DeliveryStatus) w = (Some msg, w1) ->
     confirmDelivery E w =
       (Err (Rejected msg), [Refused (Evaluate DeliveryStatus) msg], w1)) /\
  (forall messageText w t1 w1,
     composeAndSend E messageText w = (Ok tt, t1, w1) ->
     (forall w2,
        respond E (Evaluate DeliveryStatus) w1 = (None, w2) ->
        let text := body_textContent (document E w2) in
        sendMessageInChatInterface E messageText w =
          (if Js.includes text "Failed to send" || Js.includes text "Message failed"
           then Err (Thrown delivery_failed_message) else Ok tt,
           t1 ++ [delivery_check], w2)) /\
     (forall msg w2,
        respond E (Evaluate DeliveryStatus) w1 = (Some msg, w2) ->
        sendMessageInChatInterface E messageText w =
          (Err (Rejected msg), t1 ++ [Refused (Evaluate DeliveryStatus) msg], w2))) /\
  (forall messageText w,
     outcome (sendMessageInChatInterface E messageText w)
       = Err (Thrown delivery_failed_message) <->
     exists t1 w1 w2,
       composeAndSend E messageText w = (Ok tt, t1, w1) /\
       respond E (Evaluate DeliveryStatus) w1 = (None, w2) /\
       (Js.includes (body_textContent (document E w2)) "Failed to send" = true \/
        Js.includes (body_textContent (document E w2)) "Message failed" = true)) /\
  (forall targetUser messageText w,
     let run := sendMessageToUser E targetUser messageText w in
     last (trace run) = Some delivery_check ->
     (Scripts.deliveryStatus (document E (final run)) = "failed" ->
      outcome run = Err (Thrown delivery_failed_message)) /\
     (Scripts.deliveryStatus (document E (final run)) <> "failed" ->
      outcome run = Ok true /\
      forall users delay remaining i results,
        (i < length users)%nat -> nth i users EmptyString = targetUser ->
        batch_for E users messageText delay (S remaining) i results w =
        prepend (trace run)
          (bind (if (i <? length users - 1)%nat then timer E (Pace delay) else ret tt)
                (fun _ => batch_for E users messageText delay remaining (S i)
                            {| success := success results ++ [targetUser];
                               failed := failed results |})
                (final run)))).
Proof.
  assert (Hphrase : forall d,
            String.eqb (Scripts.deliveryStatus d) "failed" =
            Js.includes (body_textContent d) "Failed to send" ||
            Js.includes (body_textContent d) "Message failed").
  { intros d. unfold Scripts.deliveryStatus.
    destruct (Js.includes (body_textContent d) "Failed to send" ||
              Js.includes (body_textContent d) "Message failed"); [reflexivity|].
    destruct (_ || _); reflexivity. }
  assert (Hcheck1 : forall w,
     outcome (confirmDelivery E w) = Err (Thrown delivery_failed_message) <->
     exists w1,
       respond E (Evaluate DeliveryStatus) w = (None, w1) /\
       (Js.includes (body_textContent (document E w1)) "Failed to send" = true \/
        Js.includes (body_textContent (document E w1)) "Message failed" = true)).
  { intros w.
    destruct (respond E (Evaluate DeliveryStatus) w) as [[msg|] w1] eqn:Hcheck.
    + rewrite (confirmDelivery_script_exception _ _ _ _ Hcheck). cbn [outcome fst].
      split; [discriminate | intros (w2 & [=] & _)].
    + rewrite (confirmDelivery_run _ _ _ Hcheck). cbn [outcome fst]. split.
      * intros He. exists w1. split; [reflexivity|]. apply deliveryStatus_failed.
        destruct (String.eqb_spec (Scripts.deliveryStatus (document E w1)) "failed");
          [assumption | discriminate].
      * intros (w2 & [= <-] & H). apply deliveryStatus_failed in H. rewrite H. reflexivity. }
  split; [exact Hcheck1|]. split; [|split; [|split; [|split]]].
  - intros w w1 Hcheck text. rewrite (confirmDelivery_run _ _ _ Hcheck). cbn [outcome fst].
    split; [split|].
    + intros [e He]. apply deliveryStatus_failed.
      destruct (String.eqb_spec (Scripts.deliveryStatus (document E w1)) "failed");
        [assumption | discriminate].
    + intros H. apply deliveryStatus_failed in H. rewrite H. eexists. reflexivity.
    + intros H1 H2 H3 H4. unfold Scripts.deliveryStatus. fold text.
      rewrite H1, H2, H3, H4. split; reflexivity.
  - intros w msg w1 Hcheck. apply confirmDelivery_script_exception. exact Hcheck.
  - intros messageText w t1 w1 Hsend. split.
    + intros w2 Hcheck text.
      rewrite (sendMessageInChatInterface_run _ _ _ _ _ _ Hsend Hcheck).
      rewrite Hphrase. reflexivity.
    + intros msg w2 Hcheck.
      rewrite (sendMessageInChatInterface_run _ _ _ _ _ _ Hsend Hcheck). reflexivity.
  - intros messageText w. split.
    + intros Hout.
      destruct (sendMessageInChatInterface E messageText w) as [[r t] w'] eqn:Hrun.
      cbn [outcome fst] in Hout. subst r.
      unfold sendMessageInChatInterface in Hrun.
      apply bind_err_inv in Hrun as [Hrun | ([] & t1 & w1 & t2 & Hsend & Hrun & ->)].
      * exfalso. destruct (composeAndSend_rejections messageText w) as [_ He].
        apply (He (Thrown delivery_failed_message)); [|reflexivity].
        rewrite Hrun. reflexivity.
      * assert (Hout : outcome (confirmDelivery E w1) = Err (Thrown delivery_failed_message))
          by (rewrite Hrun; reflexivity).
        apply Hcheck1 in Hout as (w2 & Hcheck & Htext).
        exists t1, w1, w2. auto.
    + intros (t1 & w1 & w2 & Hsend & Hcheck & Htext).
      rewrite (sendMessageInChatInterface_run _ _ _ _ _ _ Hsend Hcheck).
      cbn [outcome fst]. apply deliveryStatus_failed in Htext. rewrite Htext. reflexivity.
  - intros targetUser messageText w run Hlast. unfold run in *. clear run.
    pose proof (sendMessageToUser_decided targetUser messageText w Hlast) as Hout.
    cbn zeta in Hout. split.
    + intros Hfailed. rewrite Hout, Hfailed. reflexivity.
    + intros Hne.
      assert (Hok : outcome (sendMessageToUser E targetUser messageText w) = Ok true).
      { rewrite Hout.
        destruct (String.eqb_spec
                    (Scripts.deliveryStatus
                       (document E (final (sendMessageToUser E targetUser messageText w))))
                    "failed"); [contradiction | reflexivity]. }
      split; [exact Hok|].
      intros users delay remaining i results Hi Hnth.
      rewrite batch_for_unfold.
      destruct (Nat.ltb_spec i (length users)); [|lia].
      rewrite Hnth.
      rewrite (bind_ok _ _ _ _ _ _ (iteration_recorded E messageText targetUser results w)).
      unfold record_outcome. rewrite Hok. reflexivity.
Qed.

End CheckedDelivery.

(** ** The browser that is launched and not handed over *)

Section Leak.
Context {W : Type} (E : Env W).

Lemma initBrowser_no_page options w w1 msg w2 :
  let launch :=
    Launch (prop options "headless")
      (if truthy (prop options "proxy") then Some (prop options "proxy") else None) in
  respond E launch w = (None, w1) ->
  respond E NewPage w1 = (Some msg, w2) ->
  initBrowser E options w =
    (Err (Rejected msg), [Done launch; Refused NewPage msg], w2).
Proof.
  intros launch Hlaunch Hpage. unfold initBrowser.
  erewrite bind_ok by (apply call_done; exact Hlaunch).
  erewrite bind_err by (apply call_fail; exact Hpage). reflexivity.
Qed.

(** C2. The browser is closed only when [initBrowser] has handed it over.
    When [puppeteer.launch] returns and [browser.newPage()] is rejected,
    [initBrowser] throws with the browser launched; [browser] is still
    [null] in the [finally] block of either entry point, so the run ends
    without any [browser.close()].  [redditMessenger] goes on to its failure
    record and throws; [processOptimizedBatch] throws at once.  The
    launched browser is left open. *)
Theorem launched_browser_is_not_closed username password messageText msg :
  (forall targetUser config w w1 w2,
     let options := spread DEFAULT_CONFIG config in
     let launch :=
       Launch (prop options "headless")
         (if truthy (prop options "proxy") then Some (prop options "proxy") else None) in
     respond E launch w = (None, w1) ->
     respond E NewPage w1 = (Some msg, w2) ->
     let run := redditMessenger E username password targetUser messageText config w in
     (exists made file written,
        trace run =
          [ Done launch; Refused NewPage msg;
            replied (Mkdir "./results") made;
            replied (WriteFile file
                       (FailedReport
                          [ {| user := targetUser; error := msg;
                               timestamp := clock E w2 |} ]
                          {| headless := prop options "headless";
                             proxyUsed := truthy (prop options "proxy") |})) written ] /\
        outcome run =
          Err (Rejected (match written with None => msg | Some refusal => refusal end))) /\
     Forall (fun ev => is_close ev = false) (trace run)) /\
  (forall usersFile options w w0 w1 w2,
     let launch :=
       Launch (JBool (not_false (prop options "headless")))
         (if truthy (prop options "proxy") then Some (prop options "proxy") else None) in
     respond E (ReadFile usersFile) w = (None, w0) ->
     respond E launch w0 = (None, w1) ->
     respond E NewPage w1 = (Some msg, w2) ->
     processOptimizedBatch E username password usersFile messageText options w =
       (Err (Rejected msg),
        [Done (ReadFile usersFile); Done launch; Refused NewPage msg], w2)).
Proof.
  split.
  - intros targetUser config w w1 w2 options launch Hlaunch Hpage run. subst run.
    pose proof (initBrowser_no_page options w w1 msg w2 Hlaunch Hpage) as Hinit.
    cbn zeta in Hinit. fold launch in Hinit. split.
    + destruct (report_failure_shape E (A := unit) options targetUser (Rejected msg) w2)
        as (made & file & written & w3 & Hreport).
      exists made, file, written. unfold redditMessenger. fold options.
      erewrite bind_err
        by (erewrite try_catch_err by exact Hinit; rewrite Hreport; reflexivity).
      cbn [outcome trace fst snd app message]. split; [reflexivity|].
      destruct written; reflexivity.
    + eapply no_session_no_close. exact Hinit.
  - intros usersFile options w w0 w1 w2 launch Hread Hlaunch Hpage.
    unfold processOptimizedBatch.
    erewrite bind_ok by (apply call_done; exact Hread).
    erewrite bind_ok by reflexivity. rewrite prepend_nil.
    erewrite bind_err; [reflexivity|].
    match goal with |- initBrowser E ?browserOptions w0 = _ =>
      pose proof (initBrowser_no_page browserOptions w0 w1 msg w2) as Hinit end.
    cbn zeta in Hinit.
    destruct (prop_headless_batch options) as [Hh Hp]. rewrite Hh, Hp in Hinit.
    apply Hinit; assumption.
Qed.

End Leak.

(** ** More concrete runs *)

Module MoreRuns.
Import Scripted Cases.

(** A blank page shows neither login marker: the DOM check passes. *)
Lemma blank_page_run :
  (present blank_page Selectors.login_username = false /\
   present blank_page Selectors.login_form = false) /\
  Scripts.loginSuccess blank_page = true.
Proof.
  split; [split; vm_compute; reflexivity|].
  apply (proj1 (proj2 (ScriptFacts.loginSuccess_formula blank_page))
           ltac:(vm_compute; reflexivity) ltac:(vm_compute; reflexivity)).
Defined.

(** The site key between two other parameters. *)
Lemma site_key_run :
  (is_mark "&" = true /\
   Scripts.match_k (challenge_address +:+ "?ar=1") = None /\
   has_char "&" "6LeTnxkTAAAAAN9QEuDZRpn90WwKk_R1TRW_g-JC" = false) /\
  Scripts.match_k
    ((challenge_address +:+ "?ar=1") +:+
     String "&" ("k=" +:+ "6LeTnxkTAAAAAN9QEuDZRpn90WwKk_R1TRW_g-JC" +:+ "&co=x"))
  = Some "6LeTnxkTAAAAAN9QEuDZRpn90WwKk_R1TRW_g-JC".
Proof.
  split; [repeat split; vm_compute; reflexivity|].
  apply (ScriptFacts.match_k_round_trip (challenge_address +:+ "?ar=1") "&"
           "6LeTnxkTAAAAAN9QEuDZRpn90WwKk_R1TRW_g-JC" "&co=x"
           ltac:(vm_compute; reflexivity) ltac:(vm_compute; reflexivity)
           ltac:(vm_compute; reflexivity) ltac:(right; vm_compute; reflexivity)).
Defined.

(** The chat button of the fixture answers the third selector. *)
Lemma chat_button_run :
  (chat_selectors = take 2%nat chat_selectors ++ open_chat_selector :: drop 3%nat chat_selectors /\
   chat_href (profile "A") open_chat_selector = Some (chat_url "A")) /\
  Scripts.chatUrl (profile "A") = Some (chat_url "A") /\
  Js.includes (chat_url "A") "chat.reddit.com" = true.
Proof.
  split; [split; vm_compute; reflexivity|].
  apply (proj1 (ChatUrlFacts.chatUrl_first_match (profile "A"))
           (take 2%nat chat_selectors) open_chat_selector (drop 3%nat chat_selectors)
           (chat_url "A")
           ltac:(vm_compute; reflexivity)
           ltac:(repeat constructor)
           ltac:(vm_compute; reflexivity)).
Defined.

(** Two names, one per line, with or without a final newline. *)
Lemma two_names_run :
  parseUsers (TargetList.join ["A"; "B"]) = ["A"; "B"] /\
  parseUsers (TargetList.join ["A"; "B"] +:+ String "010" EmptyString) = ["A"; "B"].
Proof.
  apply (proj1 ParseFacts.parseUsers_round_trip ["A"; "B"]).
  repeat constructor; try discriminate; try (intros c [= <-]; reflexivity).
Defined.

(** The report of an empty batch on the fixture. *)
Lemma report_run :
  (respond (env fixture) (Mkdir "./results") home_url = (None, home_url) /\
   has_char "/" "batch" = false /\
   has_char "/" (clock (env fixture) home_url) = false) /\
  results_file "batch" (clock (env fixture) home_url) =
    "results/" +:+ "batch" +:+ "-" +:+
    Js.replace_colon_dot (clock (env fixture) home_url) +:+ ".json" /\
  saveResults (env fixture) (BatchReport no_results) "batch" home_url =
    (Ok "results/batch-2024-05-01T10-00-00-000Z.json",
     [ Done (Mkdir "./results");
       Done (WriteFile "results/batch-2024-05-01T10-00-00-000Z.json"
               (BatchReport no_results)) ],
     home_url).
Proof.
  split; [repeat split; vm_compute; reflexivity|].
  pose proof (FileFacts.saveResults_run (env fixture) (BatchReport no_results) "batch"
                home_url None home_url eq_refl) as (_ & Hname & Hrun).
  split.
  - exact (Hname ltac:(vm_compute; reflexivity) ltac:(vm_compute; reflexivity)).
  - exact (Hrun None home_url eq_refl).
Defined.

(** The textarea of the composer, two shadow roots down. *)
Lemma composer_run :
  Shadow.findTextareaInShadowDom 4%nat Shadow.composer = Some Shadow.the_textarea /\
  Shadow.is_textarea Shadow.the_textarea = true /\
  Shadow.inside Shadow.the_textarea Shadow.composer.
Proof.
  split; [vm_compute; reflexivity|].
  apply (proj1 ShadowFacts.findTextareaInShadowDom_sound 4%nat Shadow.composer
           Shadow.the_textarea ltac:(vm_compute; reflexivity)).
Defined.

(** A bound larger than the height of the composer. *)
Lemma deep_search_run :
  (Shadow.height Shadow.composer <= 9)%nat /\
  Shadow.findTextareaInShadowDom 9%nat Shadow.composer =
  Shadow.findTextareaInShadowDom (Shadow.height Shadow.composer) Shadow.composer.
Proof.
  split; [vm_compute; lia|].
  apply (ShadowFacts.findTextareaInShadowDom_terminates Shadow.composer 9%nat
           ltac:(vm_compute; lia)).
Defined.

(** A rejected verification script: the login ends with the verification
    error. *)
Lemma crashed_verification_run :
  outcome (loginToReddit (env crashed_verification) "me" "secret" no_options home_url)
    = Err (Thrown verification_failed_message) /\
  existsb is_verification_crash
    (trace (loginToReddit (env crashed_verification) "me" "secret" no_options home_url))
    = true.
Proof.
  split; [vm_compute; reflexivity|].
  apply (proj2 (loginToReddit_outcomes (env crashed_verification) "me" "secret"
                  no_options home_url)
           ltac:(vm_compute; reflexivity)).
Defined.

(** The batch on the fixture, run without a key, never calls the solving
    service. *)
Lemma keyless_batch_run :
  no_options !! "captchaApiKey" = None /\
  Forall (fun ev => is_solver_call ev = false)
    (trace (processOptimizedBatch (env fixture) "me" "secret" "users.txt" "Hello"
              no_options home_url)).
Proof.
  split; [vm_compute; reflexivity|].
  apply (proj2 (proj2 (proj2 (solver_calls_carry_the_configured_key (env fixture)
                                "me" "secret" "Hello"))
                  "users.txt" no_options home_url)
           ltac:(vm_compute; reflexivity)).
Defined.

(** A challenge frame without site key stops before the solving service. *)
Lemma keyless_challenge_run :
  (respond (env keyless_challenge) (Evaluate CaptchaRequired) login_url = (None, login_url) /\
   Scripts.captchaRequired (document (env keyless_challenge) login_url) = true /\
   Scripts.sitekey (document (env keyless_challenge) login_url) = None) /\
  handleCaptchaIfPresent (env keyless_challenge) (Some some_solver) login_url =
    (Err (Thrown sitekey_missing_message),
     [Done (Evaluate CaptchaRequired); Done (Evaluate Sitekey)], login_url).
Proof.
  split; [repeat split; vm_compute; reflexivity|].
  apply (proj2 (challenge_without_sitekey_stops (env keyless_challenge) (Some some_solver)
                  login_url login_url eq_refl)
           some_solver login_url eq_refl
           ltac:(vm_compute; reflexivity) eq_refl
           ltac:(left; vm_compute; reflexivity)).
Defined.

(** The profile D of the fixture exists but shows no chat button. *)
Lemma no_chat_button_run :
  (Scripts.userStatus (document (env fixture) (profile_url "D")) = "exists" /\
   Scripts.chatUrl (document (env fixture) (profile_url "D")) = None) /\
  sendMessageToUser (env fixture) "D" "Hello" home_url =
    (Err (Thrown no_chat_button_message),
     [ Done (Goto (profile_url "D")); Done (Evaluate UserStatus);
       Done (WaitForSelector "button, a"); Done (Evaluate ChatUrl) ],
     profile_url "D").
Proof.
  split; [split; vm_compute; reflexivity|].
  apply (missing_chat_button_stops_at_profile (env fixture) "D" "Hello" home_url
           (profile_url "D") (profile_url "D") (profile_url "D") (profile_url "D")
           eq_refl eq_refl ltac:(vm_compute; reflexivity) eq_refl eq_refl
           ltac:(left; vm_compute; reflexivity)).
Defined.

(** The chat address of A leads back to the login page. *)
Lemma redirected_run :
  (Scripts.chatUrl (document redirecting (profile_url "A")) = Some (chat_url "A") /\
   respond redirecting (Goto (chat_url "A")) (profile_url "A") = (None, login_url) /\
   Js.includes (page_url redirecting login_url) "chat.reddit.com" = false) /\
  sendMessageToUser redirecting "A" "Hello" home_url =
    (Err (Thrown (not_on_chat_page_message login_url)),
     [ Done (Goto (profile_url "A")); Done (Evaluate UserStatus);
       Done (WaitForSelector "button, a"); Done (Evaluate ChatUrl);
       Done (Goto (chat_url "A")); Done (Sleep 3000) ],
     login_url).
Proof.
  split; [repeat split; vm_compute; reflexivity|].
  apply (redirect_away_from_chat_stops_the_delivery redirecting "A" "Hello" home_url
           (profile_url "A") (profile_url "A") (profile_url "A") (profile_url "A")
           (chat_url "A") login_url
           eq_refl eq_refl ltac:(vm_compute; reflexivity) eq_refl eq_refl
           ltac:(vm_compute; reflexivity) ltac:(vm_compute; reflexivity)
           ltac:(vm_compute; reflexivity) ltac:(vm_compute; reflexivity)).
Defined.

(** The delivery to A on the fixture ends with the delivery script. *)
Lemma checked_delivery_run :
  outcome (sendMessageToUser (env fixture) "A" "Hello" home_url) = Ok true /\
  (exists t0,
     trace (sendMessageToUser (env fixture) "A" "Hello" home_url) =
     Done (Goto (profile_url "A")) :: t0 ++ [delivery_check]) /\
  Scripts.deliveryStatus
    (document (env fixture) (final (sendMessageToUser (env fixture) "A" "Hello" home_url)))
  <> "failed".
Proof.
  split; [vm_compute; reflexivity|].
  apply (proj2 (delivery_success_is_checked (env fixture) "A" "Hello" home_url true
                  (trace (sendMessageToUser (env fixture) "A" "Hello" home_url))
                  (final (sendMessageToUser (env fixture) "A" "Hello" home_url))
                  ltac:(vm_compute; reflexivity))).
Defined.

(** Without options of its own [redditMessenger] shows the browser. *)
Lemma default_launch_run :
  no_options !! "headless" = None /\
  prop (spread DEFAULT_CONFIG no_options) "headless" = JBool false.
Proof.
  split; [vm_compute; reflexivity|].
  apply (proj1 (proj2 (proj1 (options_reach_the_calls (env fixture) "me" "secret" "Hello")
                         "A" no_options home_url))
           ltac:(vm_compute; reflexivity)).
Defined.

(** The message to A on the fixture: recorded, then the close. *)
Lemma recorded_run :
  outcome (redditMessenger (env fixture) "me" "secret" "A" "Hello" no_options home_url)
    = Ok true /\
  last (trace (redditMessenger (env fixture) "me" "secret" "A" "Hello" no_options home_url))
    = Some (Done Close).
Proof.
  assert (Hrun : outcome (redditMessenger (env fixture) "me" "secret" "A" "Hello"
                            no_options home_url) = Ok true)
    by (vm_compute; reflexivity).
  split; [exact Hrun|].
  pose proof (messenger_outcome_and_record (env fixture) "me" "secret" "A" "Hello"
                no_options home_url) as Hrec.
  cbn zeta in Hrec. rewrite Hrun in Hrec. exact (proj2 (proj2 Hrec)).
Defined.

(** The launched browser stays open when no page can be opened. *)
Lemma leaked_browser_run :
  initBrowser (env no_new_page) (spread DEFAULT_CONFIG no_options) home_url =
    (Err (Rejected "Target closed"),
     [Done (Launch (JBool false) None); Refused NewPage "Target closed"], home_url) /\
  Forall (fun ev => is_close ev = false)
    (trace (redditMessenger (env no_new_page) "me" "secret" "A" "Hello" no_options home_url)).
Proof.
  split; [vm_compute; reflexivity|].
  apply (proj2 (proj1 (setup_failure_leaves_the_browser_open (env no_new_page)
                         "me" "secret" "Hello" (Rejected "Target closed")
                         [Done (Launch (JBool false) None); Refused NewPage "Target closed"])
                  "A" no_options home_url home_url ltac:(vm_compute; reflexivity))).
Defined.

(** A users file that is missing, and one that names nobody. *)
Lemma no_targets_run :
  (respond (env unreadable) (ReadFile "users.txt") home_url = (Some "ENOENT", home_url) /\
   parseUsers (file_data (env comments_only) home_url) = []) /\
  processOptimizedBatch (env unreadable) "me" "secret" "users.txt" "Hello" no_options home_url
    = (Err (Rejected "ENOENT"), [Refused (ReadFile "users.txt") "ENOENT"], home_url) /\
  exists made file written closed,
    trace (processOptimizedBatch (env comments_only) "me" "secret" "users.txt" "Hello"
             no_options home_url) =
      Done (ReadFile "users.txt") :: launched (JBool true) ++
      trace (loginToReddit (env comments_only) "me" "secret" (login_options no_options)
               home_url) ++
      [ replied (Mkdir "./results") made;
        replied (WriteFile file (BatchReport no_results)) written;
        replied Close closed ] /\
    (written = None -> closed = None ->
     outcome (processOptimizedBatch (env comments_only) "me" "secret" "users.txt" "Hello"
                no_options home_url) = Ok no_results).
Proof.
  split; [split; vm_compute; reflexivity|]. split.
  - apply (proj1 (batch_without_targets (env unreadable) "me" "secret" "users.txt" "Hello"
                    no_options home_url)
             "ENOENT" home_url eq_refl).
  - apply (proj2 (batch_without_targets (env comments_only) "me" "secret" "users.txt" "Hello"
                    no_options home_url)
             home_url (launched (JBool true)) home_url true
             (trace (loginToReddit (env comments_only) "me" "secret"
                       (login_options no_options) home_url))
             home_url
             eq_refl ltac:(vm_compute; reflexivity) ltac:(vm_compute; reflexivity)
             ltac:(vm_compute; reflexivity)).
Defined.

(** The batch on the fixture returns what it has written. *)
Lemma batch_report_run :
  outcome (processOptimizedBatch (env fixture) "me" "secret" "users.txt" "Hello"
             no_options home_url) = Ok fixture_results /\
  exists w1,
    respond (env fixture) (ReadFile "users.txt") home_url = (None, w1) /\
    Permutation (success fixture_results ++ map user (failed fixture_results))
      (parseUsers (file_data (env fixture) w1)) /\
    (length (success fixture_results) + length (failed fixture_results)
     = length (parseUsers (file_data (env fixture) w1)))%nat /\
    (exists file,
       In (Done (WriteFile file (BatchReport fixture_results)))
          (trace (processOptimizedBatch (env fixture) "me" "secret" "users.txt" "Hello"
                    no_options home_url))) /\
    last (trace (processOptimizedBatch (env fixture) "me" "secret" "users.txt" "Hello"
                   no_options home_url)) = Some (Done Close).
Proof.
  split; [vm_compute; reflexivity|].
  apply (batch_report_is_the_result (env fixture) "me" "secret" "users.txt" "Hello"
           no_options home_url fixture_results
           (trace (processOptimizedBatch (env fixture) "me" "secret" "users.txt" "Hello"
                     no_options home_url))
           (final (processOptimizedBatch (env fixture) "me" "secret" "users.txt" "Hello"
                     no_options home_url))
           ltac:(vm_compute; reflexivity)).
Defined.

(** Two arguments are not enough. *)
Lemma usage_run :
  (length ["me"; "secret"] < 3)%nat /\
  Cli.main (env fixture) ["me"; "secret"] home_url = (1, [], home_url).
Proof.
  split; [vm_compute; lia|].
  apply (proj1 (command_line_exit_code (env fixture) ["me"; "secret"] home_url)
           ltac:(vm_compute; lia)).
Defined.

(** The error recorded for the missing target B. *)
Lemma classified_delivery_run :
  sendMessageToUser (env fixture) "B" "Hello" home_url =
    (Err (Thrown "User B not found"),
     [Done (Goto (profile_url "B")); Done (Evaluate UserStatus)], profile_url "B") /\
  ((exists msg, Thrown "User B not found" = Thrown msg /\ delivery_error "B" msg) \/
   (exists c msg t0,
      [Done (Goto (profile_url "B")); Done (Evaluate UserStatus)] = t0 ++ [Refused c msg] /\
      Thrown "User B not found" = Rejected msg /\ ~ tolerated_in_delivery c)).
Proof.
  split; [vm_compute; reflexivity|].
  apply (delivery_errors_classified (env fixture) "B" "Hello" home_url
           (Thrown "User B not found")
           [Done (Goto (profile_url "B")); Done (Evaluate UserStatus)] (profile_url "B")
           ltac:(vm_compute; reflexivity)).
Defined.

(** The error of a login stopped by a challenge. *)
Lemma classified_login_run :
  loginToReddit (env (stuck_on_login true)) "me" "secret" no_options home_url =
    (Err (Thrown no_solver_message),
     submitted "me" "secret" ++ [Done (Evaluate CaptchaRequired)], login_url) /\
  ((exists msg, Thrown no_solver_message = Thrown msg /\ login_error msg) \/
   (exists c msg t0,
      submitted "me" "secret" ++ [Done (Evaluate CaptchaRequired)] = t0 ++ [Refused c msg] /\
      Thrown no_solver_message = Rejected msg /\
      c <> Evaluate LoginIndicators /\ c <> Evaluate RetryVerification)).
Proof.
  split; [vm_compute; reflexivity|].
  apply (login_errors_classified (env (stuck_on_login true)) "me" "secret" no_options
           home_url (Thrown no_solver_message)
           (submitted "me" "secret" ++ [Done (Evaluate CaptchaRequired)]) login_url
           ltac:(vm_compute; reflexivity)).
Defined.

End MoreRuns.

(** ** Concrete runs of the batch, the close and the delivery check *)

Module EntryRuns.
Import Scripted Cases.

(** The batch on the fixture: A and C are messaged, B does not exist and is
    recorded, and the run goes on to C.  With the login page unreachable no
    target is attempted. *)
Lemma recorded_batch_run :
  (respond (env fixture) (ReadFile "users.txt") home_url = (None, home_url) /\
   initBrowser (env fixture) (batch_browser_options no_options) home_url
     = (Ok tt, launched (JBool true), home_url) /\
   outcome (loginToReddit (env fixture) "me" "secret" (login_options no_options) home_url)
     = Ok true /\
   parseUsers (file_data (env fixture) home_url) = ["A"; "B"; "C"] /\
   outcome (processOptimizedBatch (env fixture) "me" "secret" "users.txt" "Hello"
              no_options home_url) = Ok fixture_results /\
   sendMessageToUser (env fixture) (nth 0 ["B"; "C"] EmptyString) "Hello" home_url =
     (Err (Thrown "User B not found"),
      [Done (Goto (profile_url "B")); Done (Evaluate UserStatus)],
      profile_url "B") /\
   loginToReddit (env login_unreachable) "me" "secret" (login_options no_options) home_url
     = (Err (Rejected "net::ERR_CONNECTION_RESET"),
        [Refused (Goto login_url) "net::ERR_CONNECTION_RESET"], login_url)) /\
  (exists runs made file written closed,
     Attempts (env fixture) "Hello" (js_or (prop no_options "delay") (JNum 30000)) home_url
       (parseUsers (file_data (env fixture) home_url)) runs /\
     trace (processOptimizedBatch (env fixture) "me" "secret" "users.txt" "Hello"
              no_options home_url) =
       Done (ReadFile "users.txt") :: launched (JBool true) ++
       trace (loginToReddit (env fixture) "me" "secret" (login_options no_options)
                home_url) ++
       interleave (Done (Pace (js_or (prop no_options "delay") (JNum 30000))))
         (map trace runs) ++
       [ replied (Mkdir "./results") made;
         replied (WriteFile file
                    (BatchReport
                       {| success := succeeded (parseUsers (file_data (env fixture) home_url))
                                       runs;
                          failed := failures (env fixture)
                                      (parseUsers (file_data (env fixture) home_url))
                                      runs |})) written;
         replied Close closed ] /\
     (written = None -> closed = None ->
      outcome (processOptimizedBatch (env fixture) "me" "secret" "users.txt" "Hello"
                 no_options home_url) =
        Ok {| success := succeeded (parseUsers (file_data (env fixture) home_url)) runs;
              failed := failures (env fixture)
                          (parseUsers (file_data (env fixture) home_url)) runs |})) /\
  batch_for (env fixture) ["B"; "C"] "Hello" (JNum 30000) 2 0 no_results home_url =
  prepend [Done (Goto (profile_url "B")); Done (Evaluate UserStatus)]
    (bind (timer (env fixture) (Pace (JNum 30000)))
          (fun _ =>
           batch_for (env fixture) ["B"; "C"] "Hello" (JNum 30000) 1 1
             {| success := [];
                failed := [ {| user := "B"; error := "User B not found";
                               timestamp := "2024-05-01T10:00:00.000Z" |} ] |})
          (profile_url "B")) /\
  (exists e' ev w4,
     processOptimizedBatch (env login_unreachable) "me" "secret" "users.txt" "Hello"
       no_options home_url =
       (Err e',
        Done (ReadFile "users.txt") :: launched (JBool true) ++
        [Refused (Goto login_url) "net::ERR_CONNECTION_RESET"] ++ [ev], w4) /\
     is_close ev = true /\
     (ev = Done Close -> e' = Rejected "net::ERR_CONNECTION_RESET")).
Proof.
  split; [repeat split; vm_compute; reflexivity|].
  split; [|split].
  - apply (proj1 (proj2 (delivery_errors_do_not_abort_the_batch (env fixture)))
             "me" "secret" "users.txt" "Hello" no_options home_url home_url
             (launched (JBool true)) home_url true
             (trace (loginToReddit (env fixture) "me" "secret" (login_options no_options)
                       home_url))
             home_url
             eq_refl ltac:(vm_compute; reflexivity) ltac:(vm_compute; reflexivity)).
  - apply (proj1 (proj2 (proj2 (delivery_errors_do_not_abort_the_batch (env fixture))))
             ["B"; "C"] "Hello" (JNum 30000) 1%nat 0%nat no_results
             home_url (Thrown "User B not found")
             [Done (Goto (profile_url "B")); Done (Evaluate UserStatus)]
             (profile_url "B") ltac:(cbn; lia) ltac:(vm_compute; reflexivity)).
  - apply (proj2 (proj2 (proj2 (delivery_errors_do_not_abort_the_batch
                                  (env login_unreachable))))
             "me" "secret" "users.txt" "Hello" no_options home_url home_url
             (launched (JBool true)) home_url (Rejected "net::ERR_CONNECTION_RESET")
             [Refused (Goto login_url) "net::ERR_CONNECTION_RESET"] login_url
             eq_refl ltac:(vm_compute; reflexivity) ltac:(vm_compute; reflexivity)).
Defined.

(** No page can be opened in the launched browser: both runs end without a
    close. *)
Lemma left_open_run :
  (respond (env no_new_page) (Launch (JBool false) None) home_url = (None, home_url) /\
   respond (env no_new_page) NewPage home_url = (Some "Target closed", home_url) /\
   respond (env no_new_page) (ReadFile "users.txt") home_url = (None, home_url)) /\
  ((exists made file written,
      trace (redditMessenger (env no_new_page) "me" "secret" "A" "Hello" no_options home_url)
        = [ Done (Launch (prop (spread DEFAULT_CONFIG no_options) "headless")
                    (if truthy (prop (spread DEFAULT_CONFIG no_options) "proxy")
                     then Some (prop (spread DEFAULT_CONFIG no_options) "proxy")
                     else None));
            Refused NewPage "Target closed";
            replied (Mkdir "./results") made;
            replied (WriteFile file
                       (FailedReport
                          [ {| user := "A"; error := "Target closed";
                               timestamp := clock (env no_new_page) home_url |} ]
                          {| headless := prop (spread DEFAULT_CONFIG no_options) "headless";
                             proxyUsed :=
                               truthy (prop (spread DEFAULT_CONFIG no_options) "proxy") |}))
                    written ] /\
      outcome (redditMessenger (env no_new_page) "me" "secret" "A" "Hello" no_options
                 home_url)
        = Err (Rejected (match written with
                         | None => "Target closed"
                         | Some refusal => refusal
                         end))) /\
   Forall (fun ev => is_close ev = false)
     (trace (redditMessenger (env no_new_page) "me" "secret" "A" "Hello" no_options
               home_url))) /\
  processOptimizedBatch (env no_new_page) "me" "secret" "users.txt" "Hello" no_options
    home_url =
    (Err (Rejected "Target closed"),
     [ Done (ReadFile "users.txt");
       Done (Launch (JBool (not_false (prop no_options "headless")))
               (if truthy (prop no_options "proxy")
                then Some (prop no_options "proxy") else None));
       Refused NewPage "Target closed" ],
     home_url).
Proof.
  split; [repeat split; vm_compute; reflexivity|]. split.
  - apply (proj1 (launched_browser_is_not_closed (env no_new_page) "me" "secret" "Hello"
                    "Target closed")
             "A" no_options home_url home_url home_url
             ltac:(vm_compute; reflexivity) ltac:(vm_compute; reflexivity)).
  - apply (proj2 (launched_browser_is_not_closed (env no_new_page) "me" "secret" "Hello"
                    "Target closed")
             "users.txt" no_options home_url home_url home_url home_url
             ltac:(vm_compute; reflexivity) ltac:(vm_compute; reflexivity)
             ltac:(vm_compute; reflexivity)).
Defined.

(** The chat page of the fixture shows neither phrase: the status is
    unknown, the check returns and target A is a success. *)
Lemma unknown_status_run :
  (respond (env fixture) (Evaluate DeliveryStatus) (chat_url "A") = (None, chat_url "A") /\
   last (trace (sendMessageToUser (env fixture) "A" "Hello" home_url)) = Some delivery_check /\
   Scripts.deliveryStatus
     (document (env fixture) (final (sendMessageToUser (env fixture) "A" "Hello" home_url)))
     = "unknown" /\
   outcome (composeAndSend (env fixture) "Hello" (chat_url "A")) = Ok tt) /\
  confirmDelivery (env fixture) (chat_url "A") = (Ok tt, [delivery_check], chat_url "A") /\
  sendMessageInChatInterface (env fixture) "Hello" (chat_url "A") =
    (Ok tt,
     trace (composeAndSend (env fixture) "Hello" (chat_url "A")) ++ [delivery_check],
     chat_url "A") /\
  outcome (sendMessageToUser (env fixture) "A" "Hello" home_url) = Ok true /\
  batch_for (env fixture) ["A"] "Hello" (JNum 30000) 1 0 no_results home_url =
  prepend (trace (sendMessageToUser (env fixture) "A" "Hello" home_url))
    (bind (ret tt)
          (fun _ =>
           batch_for (env fixture) ["A"] "Hello" (JNum 30000) 0 1
             {| success := ["A"]; failed := [] |})
          (final (sendMessageToUser (env fixture) "A" "Hello" home_url))).
Proof.
  split; [repeat split; vm_compute; reflexivity|].
  pose proof (delivery_fails_only_on_failure_phrase (env fixture))
    as (_ & Hcheck & _ & Hsend & _ & Hrun).
  split; [|split].
  - apply (proj2 (Hcheck (chat_url "A") (chat_url "A") eq_refl)); vm_compute; reflexivity.
  - apply (proj1 (Hsend "Hello" (chat_url "A")
                    (trace (composeAndSend (env fixture) "Hello" (chat_url "A")))
                    (chat_url "A") ltac:(vm_compute; reflexivity))
             (chat_url "A") eq_refl).
  - destruct (proj2 (Hrun "A" "Hello" home_url ltac:(vm_compute; reflexivity))
                ltac:(vm_compute; discriminate)) as [Hok Hloop].
    split; [exact Hok|].
    apply (Hloop ["A"] (JNum 30000) 0%nat 0%nat no_results ltac:(cbn; lia) eq_refl).
Defined.

(** The status script is rejected on a chat page that shows no failure
    phrase: the check throws all the same, and so does the delivery. *)
Lemma rejected_status_script_run :
  Js.includes (body_textContent (document (env crashed_status) (chat_url "A")))
    "Failed to send" = false /\
  Js.includes (body_textContent (document (env crashed_status) (chat_url "A")))
    "Message failed" = false /\
  confirmDelivery (env crashed_status) (chat_url "A") =
    (Err (Rejected "Execution context was destroyed"),
     [Refused (Evaluate DeliveryStatus) "Execution context was destroyed"],
     chat_url "A") /\
  outcome (sendMessageInChatInterface (env crashed_status) "Hello" (chat_url "A")) =
    Err (Rejected "Execution context was destroyed") /\
  outcome (sendMessageToUser (env crashed_status) "A" "Hello" home_url) =
    Err (Rejected "Execution context was destroyed").
Proof. repeat split; vm_compute; reflexivity. Qed.


End EntryRuns.
